(** * Answer-sheet alignment: a shallow embedding of [AnswerSheetAligner]

    The development follows [src/js/answer-sheet-aligner.js].  The class is
    a thin orchestration layer over OpenCV.js: every numeric operation
    ([cv.threshold], [cv.findContours], [cv.getPerspectiveTransform], ...)
    is a call into the library.  The library is therefore an interface
    ([OpenCV] below) whose operations may answer or throw, and the methods
    of the class are programs in a small state-and-exception monad whose
    state is the aligner object together with the set of live native
    handles ([new cv.Mat()] / [.delete()]).

    Numbers: JavaScript numbers are modelled by exact rationals [Q]
    (coordinates, areas, thresholds) and by [Z] where the source reads
    integers (image dimensions, [data32S]).  [console.*] calls have no
    effect on the results and are left out. *)

From Stdlib Require Import List String ZArith QArith Qabs Bool Arith Lia.
From Stdlib Require Import Sorted Permutation DecimalString Lqa.
Import ListNotations.

Local Open Scope Q_scope.

(** ** Points and deduplication *)

(** [{ x, y }] object literals. *)
Record Point : Type := mkPoint { x : Q; y : Q }.

(** [a < b] on numbers. *)
Definition Qlt_bool (a b : Q) : bool := negb (Qle_bool b a).

(** The predicate handed to [uniquePoints.some]:
    [Math.abs(uniquePoint.x - point.x) < threshold &&
     Math.abs(uniquePoint.y - point.y) < threshold]. *)
Definition isNear (threshold : Q) (point uniquePoint : Point) : bool :=
  Qlt_bool (Qabs (x uniquePoint - x point)) threshold &&
  Qlt_bool (Qabs (y uniquePoint - y point)) threshold.

(** One turn of the [points.forEach] callback: [uniquePoints] is the array
    built so far, [push] appends at its end. *)
Definition removeDuplicatePoints_step (threshold : Q)
    (uniquePoints : list Point) (point : Point) : list Point :=
  let isDuplicate := existsb (isNear threshold point) uniquePoints in
  if negb isDuplicate then uniquePoints ++ [point] else uniquePoints.

(** [removeDuplicatePoints(points, threshold = 10)]. *)
Definition removeDuplicatePoints (points : list Point) (threshold : Q) : list Point :=
  fold_left (removeDuplicatePoints_step threshold) points [].


(** Order-preserving selection of elements of a list. *)
Inductive Subseq {A : Type} : list A -> list A -> Prop :=
| Subseq_nil : Subseq [] []
| Subseq_skip a l1 l2 : Subseq l1 l2 -> Subseq l1 (a :: l2)
| Subseq_keep a l1 l2 : Subseq l1 l2 -> Subseq (a :: l1) (a :: l2).

(** [Separated t l]: no element of [l] is near an element before it. *)
Inductive Separated (threshold : Q) : list Point -> Prop :=
| Separated_nil : Separated threshold []
| Separated_snoc l p :
    Separated threshold l ->
    existsb (isNear threshold p) l = false ->
    Separated threshold (l ++ [p]).

(** ** Native objects, the aligner object and the world *)

(** A thrown value; the handlers of the class read only [error.message]. *)
Record Fault : Type := mkFault { message : string }.

Inductive outcome (A : Type) : Type :=
| Ok (a : A)
| Throw (e : Fault).
Arguments Ok {A} a.
Arguments Throw {A} e.

(** The contents of an image matrix. *)
Record Raster : Type := mkRaster
  { rows : Z; cols : Z; channels : Z; pixels : list Z }.

(** An OpenCV.js object is a JavaScript wrapper around natively allocated
    memory: [hnd] names the allocation, [val] is what it holds. *)
Definition handle := nat.
Record Native (A : Type) : Type := mkNative { hnd : handle; val : A }.
Arguments mkNative {A} hnd val.
Arguments hnd {A} n.
Arguments val {A} n.

Definition Mat := Native Raster.
Definition Contour := list (Z * Z).
Definition Segment := (Q * Q * Q * Q)%type.
Definition Homography := list Q.

Record Size : Type := mkSize { width : Z; height : Z }.

(** The [HTMLImageElement] / [HTMLCanvasElement] handed in by the page. *)
Record Element : Type := mkElement { elemSize : Size; bitmap : list Z }.

(** The fields of [this]. *)
Record Aligner : Type := mkAligner
  { templateImage : option Mat;
    templatePoints : list Point;
    templateSize : Size;
    isInitialized : bool }.

(** [constructor()]. *)
Definition constructor : Aligner :=
  {| templateImage := None; templatePoints := [];
     templateSize := mkSize 0 0; isInitialized := false |}.

(** The state a call runs in: the aligner object and the native heap
    ([live]: allocations not yet released, [next]: the next fresh name). *)
Record World : Type := mkWorld
  { self : Aligner; live : list handle; next : handle }.

(** ** Programs: state and exceptions *)

Section Programs.
Context {S : Type}.

(** A statement run from a state ends normally or throws; the state
    reached is kept in both cases. *)
Definition Prog (A : Type) : Type := S -> outcome A * S.

Definition ret {A} (a : A) : Prog A := fun s => (Ok a, s).

Definition bind {A B} (c : Prog A) (k : A -> Prog B) : Prog B :=
  fun s => match c s with
           | (Ok a, s') => k a s'
           | (Throw e, s') => (Throw e, s')
           end.

Definition throw {A} (e : Fault) : Prog A := fun s => (Throw e, s).

(** [try { c } catch (error) { h error }]. *)
Definition tryCatch {A} (c : Prog A) (h : Fault -> Prog A) : Prog A :=
  fun s => match c s with
           | (Ok a, s') => (Ok a, s')
           | (Throw e, s') => h e s'
           end.

(** [try { c } finally { f }]: [f] runs on both exits and its own
    fault, if any, replaces the outcome of [c]. *)
Definition tryFinally {A} (c : Prog A) (f : Prog unit) : Prog A :=
  fun s => match c s with
           | (r, s') => match f s' with
                        | (Ok _, s'') => (r, s'')
                        | (Throw e, s'') => (Throw e, s'')
                        end
           end.

(** The answer of a library call, which does not depend on the state. *)
Definition call {A} (o : outcome A) : Prog A := fun s => (o, s).

(** [ensures c P]: every normal exit of [c] returns a value in [P]. *)
Definition ensures {A} (c : Prog A) (P : A -> Prop) : Prop :=
  forall s a s', c s = (Ok a, s') -> P a.
End Programs.

Declare Scope prog_scope.
Delimit Scope prog_scope with prog.
Notation "x <- c ;; k" := (bind c (fun x => k))
  (at level 61, c at next level, right associativity) : prog_scope.
Notation "c ;;; k" := (bind c (fun _ => k))
  (at level 61, right associativity) : prog_scope.
Local Open Scope prog_scope.

(** Methods of the class run in the world. *)
Definition M (A : Type) : Type := @Prog World A.

(** A block with [let] variables that are assigned inside a [try] and read
    in its [finally]: the variables [L] travel with the world. *)
Definition Block (L A : Type) : Type := @Prog (L * World) A.

Definition inWorld {L A} (c : M A) : Block L A :=
  fun s => match c (snd s) with (r, w') => (r, (fst s, w')) end.

Definition locals {L} : Block L L := fun s => (Ok (fst s), s).

Definition assign {L} (f : L -> L) : Block L unit :=
  fun s => (Ok tt, (f (fst s), snd s)).

Definition block {L A} (init : L) (c : Block L A) : M A :=
  fun w => match c (init, w) with (r, s') => (r, snd s') end.

(** [for (const a of l)] with the loop-carried variables [b]. *)
Fixpoint forEach {S A B} (l : list A) (body : B -> A -> @Prog S B) (b : B)
  : @Prog S B :=
  match l with
  | [] => ret b
  | a :: l' => b' <- body b a ;; forEach l' body b'
  end.

(** *** The native heap *)

Definition alloc {A} (v : A) : M (Native A) :=
  fun w => (Ok (mkNative (next w) v),
            {| self := self w; live := next w :: live w; next := Datatypes.S (next w) |}).

Definition isLive (h : handle) (w : World) : bool := existsb (Nat.eqb h) (live w).

(** [obj.delete()]; the binding layer throws on an object already deleted. *)
Definition delete {A} (o : Native A) : M unit :=
  fun w => if isLive (hnd o) w
           then (Ok tt, {| self := self w;
                           live := filter (fun h => negb (Nat.eqb (hnd o) h)) (live w);
                           next := next w |})
           else (Throw (mkFault "BindingError: instance already deleted"), w).

Definition emptyRaster : Raster := mkRaster 0 0 1 [].

(** [new cv.Mat()]. *)
Definition newMat : M Mat := alloc emptyRaster.

(** [mat.clone()]. *)
Definition clone (m : Mat) : M Mat := alloc (val m).

(** A library call that fills the destination object [dst]. *)
Definition into {A B} (dst : Native A) (o : outcome B) : M (Native B) :=
  v <- call o ;; ret (mkNative (hnd dst) v).

Definition this : M Aligner := fun w => (Ok (self w), w).

Definition setThis (f : Aligner -> Aligner) : M unit :=
  fun w => (Ok tt, {| self := f (self w); live := live w; next := next w |}).

(** ** The library *)

(** What the class uses of OpenCV.js.  Each operation answers or throws;
    the constants are the library's.  The hierarchy output of
    [findContours] is never read by the class and is not represented. *)
Record OpenCV : Type := mkOpenCV
  { cv_defined : bool;                       (* typeof cv !== 'undefined' *)
    cv_has : string -> bool;                 (* !!cv[name] *)
    COLOR_RGB2GRAY : Z;
    COLOR_RGBA2GRAY : Z;
    THRESH_BINARY : Z;
    THRESH_OTSU : Z;
    ADAPTIVE_THRESH_GAUSSIAN_C : Z;
    RETR_EXTERNAL : Z;
    CHAIN_APPROX_SIMPLE : Z;
    imread : Element -> outcome Raster;
    cvtColor : Raster -> Z -> outcome Raster;
    threshold : Raster -> Q -> Q -> Z -> outcome Raster;
    adaptiveThreshold : Raster -> Q -> Z -> Z -> Z -> Q -> outcome Raster;
    findContours : Raster -> Z -> Z -> outcome (list Contour);
    contourArea : Contour -> outcome Q;
    arcLength : Contour -> bool -> outcome Q;
    approxPolyDP : Contour -> Q -> bool -> outcome (list (Z * Z));
    HoughLinesP : Raster -> Q -> Q -> Z -> Q -> Q -> outcome (list Segment);
    getPerspectiveTransform : list Q -> list Q -> outcome Homography;
    warpPerspective : Raster -> Homography -> Size -> outcome Raster }.

(** [Math.PI], the double nearest to pi. *)
Definition Math_PI : Q := 884279719003555 # 281474976710656.

(** Results of the class's methods. *)
Module Detection.
Record t : Type := mk { success : bool; points : list Point }.
End Detection.

Module Alignment.
Record t : Type := mk
  { success : bool; alignedImage : option Mat; error : option string }.
End Alignment.

Definition Zlength {A} (l : list A) : Z := Z.of_nat (List.length l).

(** [l[i]] for an index inside the array. *)
Definition item {A} (d : A) (l : list A) (i : nat) : A := nth i l d.

(** ** The methods of [AnswerSheetAligner] *)

Section AnswerSheetAligner.
Variable cv : OpenCV.
(** [Math.atan2(y, x)]. *)
Variable Math_atan2 : Q -> Q -> Q.

(** *** [selectBestBinary] *)

Definition minContourArea : Q := 10.

(** One turn of the [for j] loop: counts the contour when
    [area > minContourArea]; the [contours.get(j)] wrapper is deleted
    again. *)
Definition countIfValid (validContourCount : Z) (c : Contour) : M Z :=
  contour <- alloc c ;;
  area <- call (contourArea cv (val contour)) ;;
  let validContourCount :=
    if Qlt_bool minContourArea area then (validContourCount + 1)%Z
    else validContourCount in
  delete contour ;;;
  ret validContourCount.

Definition countValidContours (contours : list Contour) : M Z :=
  forEach contours countIfValid 0%Z.

(** The variables of [selectBestBinary] that outlive one loop turn. *)
Record SelectVars : Type := mkSelectVars
  { bestBinary : option Mat;
    bestScore : Z;
    sel_contours : option (Native (list Contour));
    sel_hierarchy : option Mat }.

(** One turn of the [for i] loop, with its own [try]/[catch]. *)
Definition evaluateBinary (_ : unit) (binary : Mat) : Block SelectVars unit :=
  tryCatch
    (contours <- inWorld (alloc ([] : list Contour)) ;;
     assign (fun v => mkSelectVars (bestBinary v) (bestScore v)
                        (Some contours) (sel_hierarchy v)) ;;;
     hierarchy <- inWorld newMat ;;
     assign (fun v => mkSelectVars (bestBinary v) (bestScore v)
                        (sel_contours v) (Some hierarchy)) ;;;
     contours <- inWorld (into contours
                   (findContours cv (val binary) (RETR_EXTERNAL cv)
                      (CHAIN_APPROX_SIMPLE cv))) ;;
     assign (fun v => mkSelectVars (bestBinary v) (bestScore v)
                        (Some contours) (sel_hierarchy v)) ;;;
     validContourCount <- inWorld (countValidContours (val contours)) ;;
     let score := validContourCount in
     v <- locals ;;
     if (bestScore v <? score)%Z
     then assign (fun v => mkSelectVars (Some binary) score
                             (sel_contours v) (sel_hierarchy v))
     else ret tt)
    (fun _ => ret tt).

Definition deleteIf {A} (o : option (Native A)) : M unit :=
  match o with Some n => delete n | None => ret tt end.

(** The statements inside the [try] of [selectBestBinary]. *)
Definition selectBestBinary_try (binaryResults : list Mat) : Block SelectVars Mat :=
  forEach binaryResults evaluateBinary tt ;;;
  v <- locals ;;
  match bestBinary v with
  | Some b => inWorld (clone b)
  | None =>
      match binaryResults with
      | b0 :: _ => inWorld (clone b0)
      | [] => throw (mkFault "TypeError: Cannot read properties of undefined (reading 'clone')")
      end
  end.

(** Its [finally]: the last [contours] and [hierarchy] only. *)
Definition selectBestBinary_finally : Block SelectVars unit :=
  tryCatch
    (v <- locals ;;
     inWorld (deleteIf (sel_contours v)) ;;;
     inWorld (deleteIf (sel_hierarchy v)))
    (fun _ => ret tt).

Definition selectBestBinary (binaryResults : list Mat) (gray : Mat) : M Mat :=
  block (mkSelectVars None (-1) None None)
    (tryFinally (selectBestBinary_try binaryResults) selectBestBinary_finally).

(** *** [preprocessImage] *)

Record PreVars : Type := mkPreVars
  { pre_gray : option Mat;
    pre_binary : option Mat;
    pre_binaryResults : list Mat }.

Definition setGray (g : Mat) : Block PreVars unit :=
  assign (fun v => mkPreVars (Some g) (pre_binary v) (pre_binaryResults v)).

Definition pushBinary (b : Mat) : Block PreVars unit :=
  assign (fun v => mkPreVars (pre_gray v) (pre_binary v) (pre_binaryResults v ++ [b])).

(** [mat !== binary]: object identity. *)
Definition sameObject (a : Mat) (b : option Mat) : bool :=
  match b with Some b => Nat.eqb (hnd a) (hnd b) | None => false end.

(** The conversion to gray: by channel count, into the [gray] object just
    created, or a clone of the source that replaces it. *)
Definition convertToGray (srcMat gray : Mat) : Block PreVars Mat :=
  if (channels (val srcMat) =? 3)%Z then
    g <- inWorld (into gray (cvtColor cv (val srcMat) (COLOR_RGB2GRAY cv))) ;;
    setGray g ;;; ret g
  else if (channels (val srcMat) =? 4)%Z then
    g <- inWorld (into gray (cvtColor cv (val srcMat) (COLOR_RGBA2GRAY cv))) ;;
    setGray g ;;; ret g
  else
    g <- inWorld (clone srcMat) ;;
    setGray g ;;; ret g.

(** The statements inside the [try] of [preprocessImage]. *)
Definition preprocessImage_try (srcMat : Mat) : Block PreVars Mat :=
  (if (cols (val srcMat) =? 0)%Z || (rows (val srcMat) =? 0)%Z
   then throw (mkFault "输入图像Mat尺寸无效") else ret tt) ;;;
  gray <- inWorld newMat ;;
  setGray gray ;;;
  gray <- convertToGray srcMat gray ;;
  (* method 1: OTSU *)
  binary1 <- inWorld newMat ;;
  binary1 <- inWorld (into binary1
               (threshold cv (val gray) 0 255 (THRESH_BINARY cv + THRESH_OTSU cv)%Z)) ;;
  pushBinary binary1 ;;;
  (* method 2: adaptive *)
  binary2 <- inWorld newMat ;;
  binary2 <- inWorld (into binary2
               (adaptiveThreshold cv (val gray) 255 (ADAPTIVE_THRESH_GAUSSIAN_C cv)
                  (THRESH_BINARY cv) 11 2)) ;;
  pushBinary binary2 ;;;
  (* method 3: fixed *)
  binary3 <- inWorld newMat ;;
  binary3 <- inWorld (into binary3
               (threshold cv (val gray) 128 255 (THRESH_BINARY cv))) ;;
  pushBinary binary3 ;;;
  v <- locals ;;
  binary <- inWorld (selectBestBinary (pre_binaryResults v) gray) ;;
  assign (fun v => mkPreVars (pre_gray v) (Some binary) (pre_binaryResults v)) ;;;
  ret binary.

(** Its [finally]: releases [gray] and every binarization that is not the
    returned object. *)
Definition preprocessImage_finally : Block PreVars unit :=
  tryCatch
    (v <- locals ;;
     inWorld (deleteIf (pre_gray v)) ;;;
     forEach (pre_binaryResults v)
       (fun _ mat =>
          if negb (sameObject mat (pre_binary v))
          then tryCatch (inWorld (delete mat)) (fun _ => ret tt)
          else ret tt)
       tt)
    (fun _ => ret tt).

Definition preprocessImage (srcMat : Mat) : M Mat :=
  block (mkPreVars None None [])
    (tryFinally
       (tryCatch (preprocessImage_try srcMat) (fun error => throw error))
       preprocessImage_finally).

(** *** [findLinesAndPoints] *)

(** Both endpoints of every row of [linesP]:
    [data32F[i*4 .. i*4+3]] are [x1, y1, x2, y2]. *)
Definition lineEndpoints (linesP : list Segment) : list Point :=
  flat_map (fun '(x1, y1, x2, y2) => [mkPoint x1 y1; mkPoint x2 y2]) linesP.

(** Vertex [j] of an approximation: [data32S[j*2]], [data32S[j*2+1]]. *)
Definition vertex (approx : list (Z * Z)) (j : nat) : Point :=
  let p := item (0, 0)%Z approx j in
  mkPoint (inject_Z (fst p)) (inject_Z (snd p)).

Definition fourVertices (approx : list (Z * Z)) : list Point :=
  map (vertex approx) [0; 1; 2; 3]%nat.

(** One turn of the contour loop of [findLinesAndPoints]. *)
Definition cornerPoints (points : list Point) (c : Contour) : M (list Point) :=
  contour <- alloc c ;;
  area <- call (contourArea cv (val contour)) ;;
  points <- (if Qlt_bool 100 area then
               approx <- alloc ([] : list (Z * Z)) ;;
               perimeter <- call (arcLength cv (val contour) true) ;;
               approx <- into approx
                           (approxPolyDP cv (val contour) ((2 # 100) * perimeter) true) ;;
               let points :=
                 if (Zlength (val approx) =? 4)%Z
                 then points ++ fourVertices (val approx) else points in
               delete approx ;;;
               ret points
             else ret points) ;;
  delete contour ;;;
  ret points.

Definition findLinesAndPoints (binaryImage : Mat) : M Detection.t :=
  tryCatch
    (linesP <- alloc ([] : list Segment) ;;
     linesP <- into linesP
                 (HoughLinesP cv (val binaryImage) 1 (Math_PI / 180) 50 50 10) ;;
     let linePoints := lineEndpoints (val linesP) in
     delete linesP ;;;
     contours <- alloc ([] : list Contour) ;;
     hierarchy <- newMat ;;
     contours <- into contours
                   (findContours cv (val binaryImage) (RETR_EXTERNAL cv)
                      (CHAIN_APPROX_SIMPLE cv)) ;;
     points <- forEach (val contours) cornerPoints [] ;;
     delete contours ;;;
     delete hierarchy ;;;
     let allPoints := points ++ linePoints in
     let uniquePoints := removeDuplicatePoints allPoints 10 in
     ret (Detection.mk (4 <=? Zlength uniquePoints)%Z uniquePoints))
    (fun _ => ret (Detection.mk false [])).

(** *** Geometry helpers *)

(** [a[i] = v] on a typed array, which never grows. *)
Fixpoint store {A} (i : nat) (v : A) (l : list A) : list A :=
  match l, i with
  | [], _ => []
  | _ :: l', O => v :: l'
  | a :: l', Datatypes.S i' => a :: store i' v l'
  end.

(** [new cv.Mat(4, 1, cv.CV_32FC2)] and the four guarded writes; the
    eight floats start at zero here. *)
Definition createCVPointMatrix (points : list Point) : M (Native (list Q)) :=
  pointMatrix <- alloc (repeat 0 8) ;;
  ret (fold_left
         (fun pm i =>
            if (i <? List.length points)%nat then
              let p := item (mkPoint 0 0) points i in
              mkNative (hnd pm) (store (i * 2 + 1) (y p) (store (i * 2) (x p) (val pm)))
            else pm)
         [0; 1; 2; 3]%nat pointMatrix).

Definition calculatePerspectiveTransform (srcPoints dstPoints : list Point)
  : M (Native Homography) :=
  srcPointsMat <- createCVPointMatrix srcPoints ;;
  dstPointsMat <- createCVPointMatrix dstPoints ;;
  h <- call (getPerspectiveTransform cv (val srcPointsMat) (val dstPointsMat)) ;;
  alloc h.

Definition angleAround (center p : Point) : Q :=
  Math_atan2 (y p - y center) (x p - x center).

(** [Array.prototype.sort] is stable: [a] stays ahead of the elements it
    does not compare greater than. *)
Fixpoint insertByAngle (center a : Point) (sorted : list Point) : list Point :=
  match sorted with
  | [] => [a]
  | b :: rest =>
      if Qle_bool (angleAround center a - angleAround center b) 0
      then a :: sorted
      else b :: insertByAngle center a rest
  end.

Definition sortCorners (corners : list Point) : list Point :=
  let n := inject_Z (Zlength corners) in
  let center :=
    mkPoint (fold_left (fun s c => s + x c) corners 0 / n)
            (fold_left (fun s c => s + y c) corners 0 / n) in
  fold_right (insertByAngle center) [] corners.

(** *** [fallbackAlignment] *)

Definition noFrameError : string := "未找到有效的答题卡轮廓".
Definition notQuadError : string := "答题卡轮廓不是四边形".

(** The loop that keeps the contour of largest area; the wrappers
    returned by [contours.get(i)] are kept, none is deleted. *)
Definition keepLarger (best : Q * option (Native Contour)) (c : Contour)
  : M (Q * option (Native Contour)) :=
  let '(maxArea, maxContour) := best in
  contour <- alloc c ;;
  area <- call (contourArea cv (val contour)) ;;
  if Qlt_bool maxArea area then ret (area, Some contour)
  else ret (maxArea, maxContour).

Definition largestContour (contours : list Contour)
  : M (Q * option (Native Contour)) :=
  forEach contours keepLarger (0, None).

Definition fallbackAlignment (srcMat : Mat) : M Alignment.t :=
  tryCatch
    (gray <- newMat ;;
     gray <- into gray (cvtColor cv (val srcMat) (COLOR_RGBA2GRAY cv)) ;;
     binary <- newMat ;;
     binary <- into binary
                 (threshold cv (val gray) 0 255 (THRESH_BINARY cv + THRESH_OTSU cv)%Z) ;;
     contours <- alloc ([] : list Contour) ;;
     hierarchy <- newMat ;;
     contours <- into contours
                   (findContours cv (val binary) (RETR_EXTERNAL cv)
                      (CHAIN_APPROX_SIMPLE cv)) ;;
     found <- largestContour (val contours) ;;
     let '(maxArea, maxContour) := found in
     match maxContour with
     | None => throw (mkFault noFrameError)
     | Some maxContour =>
         if Qlt_bool maxArea
              (inject_Z (rows (val srcMat) * cols (val srcMat)) * (1 # 10))
         then throw (mkFault noFrameError)
         else
           approx <- alloc ([] : list (Z * Z)) ;;
           perimeter <- call (arcLength cv (val maxContour) true) ;;
           approx <- into approx
                       (approxPolyDP cv (val maxContour) ((2 # 100) * perimeter) true) ;;
           if negb (Zlength (val approx) =? 4)%Z
           then throw (mkFault notQuadError)
           else
             let srcPoints := fourVertices (val approx) in
             let sortedPoints := sortCorners srcPoints in
             a <- this ;;
             let w := inject_Z (width (templateSize a)) in
             let h := inject_Z (height (templateSize a)) in
             let dstPoints :=
               [mkPoint 0 0; mkPoint w 0; mkPoint w h; mkPoint 0 h] in
             M <- calculatePerspectiveTransform sortedPoints dstPoints ;;
             alignedImg <- newMat ;;
             alignedImg <- into alignedImg
                             (warpPerspective cv (val srcMat) (val M) (templateSize a)) ;;
             delete gray ;;;
             delete binary ;;;
             delete contours ;;;
             delete hierarchy ;;;
             delete approx ;;;
             delete M ;;;
             ret (Alignment.mk true (Some alignedImg) None)
     end)
    (fun error => ret (Alignment.mk false None (Some (message error)))).

(** *** [initializeWithTemplate] *)

Definition requiredFunctions : list string :=
  ["imread"; "Mat"; "cvtColor"; "threshold"; "Canny"; "HoughLinesP"]%string.

(** The class declares no member [getFallbackPoints]: the property read
    [this.getFallbackPoints] is [undefined] and calling it throws. *)
Definition getFallbackPoints (templateMat : Mat) : M (list Point) :=
  throw (mkFault "TypeError: this.getFallbackPoints is not a function").

Definition setTemplateSize (s : Size) : M unit :=
  setThis (fun a => mkAligner (templateImage a) (templatePoints a) s (isInitialized a)).

Definition setTemplatePoints (ps : list Point) : M unit :=
  setThis (fun a => mkAligner (templateImage a) ps (templateSize a) (isInitialized a)).

Definition setInitialized (b : bool) : M unit :=
  setThis (fun a => mkAligner (templateImage a) (templatePoints a) (templateSize a) b).

Definition rethrow {A} (prefix : string) (c : M A) : M A :=
  tryCatch c (fun e => throw (mkFault (prefix ++ message e)%string)).

Definition needsFallback (r : Detection.t) : bool :=
  negb (Detection.success r) || (Zlength (Detection.points r) <? 4)%Z.

(** The statements inside the outer [try] of [initializeWithTemplate]. *)
Definition initializeWithTemplate_try (templateImage : Element) : M bool :=
  (if negb (cv_defined cv)
   then throw (mkFault "OpenCV.js完全未加载") else ret tt) ;;;
  (if negb (cv_has cv "Mat")
   then throw (mkFault "cv.Mat构造函数不可用") else ret tt) ;;;
  let missingFunctions :=
    filter (fun func => negb (cv_has cv func)) requiredFunctions in
  (if (0 <? Zlength missingFunctions)%Z
   then throw (mkFault ("缺少必要的OpenCV函数: "
                        ++ String.concat ", " missingFunctions)%string)
   else ret tt) ;;;
  (if negb (cv_defined cv) || negb (cv_has cv "Mat")
   then throw (mkFault "OpenCV.js未加载完成") else ret tt) ;;;
  setTemplateSize (elemSize templateImage) ;;;
  templateMat <- rethrow "图像读取失败: "
                   (r <- call (imread cv templateImage) ;; alloc r) ;;
  binaryTemplate <- rethrow "图像预处理失败: " (preprocessImage templateMat) ;;
  templateResult <- rethrow "特征点检测失败: " (findLinesAndPoints binaryTemplate) ;;
  (if needsFallback templateResult then
     fallbackPoints <- getFallbackPoints templateMat ;;
     setTemplatePoints fallbackPoints
   else setTemplatePoints (Detection.points templateResult)) ;;;
  delete templateMat ;;;
  delete binaryTemplate ;;;
  setInitialized true ;;;
  ret true.

Definition initializeWithTemplate (templateImage : Element) : M bool :=
  tryCatch (initializeWithTemplate_try templateImage)
    (fun _ => setInitialized false ;;; ret false).

(** *** [alignUserImage] *)

Definition notInitializedError : string := "对齐模块未初始化".
Definition alignFailedError : string := "图像对齐失败，请重新拍摄清晰的答题卡图片".

(** The statements inside the [try] of [alignUserImage]. *)
Definition alignUserImage_try (userImageElement : Element) : M Alignment.t :=
  src <- call (imread cv userImageElement) ;;
  srcMat <- alloc src ;;
  binarySrc <- preprocessImage srcMat ;;
  srcResult <- findLinesAndPoints binarySrc ;;
  if needsFallback srcResult then
    fallbackResult <- fallbackAlignment srcMat ;;
    if negb (Alignment.success fallbackResult)
    then throw (mkFault alignFailedError)
    else ret fallbackResult
  else
    a <- this ;;
    M <- calculatePerspectiveTransform (Detection.points srcResult) (templatePoints a) ;;
    alignedImg <- newMat ;;
    alignedImg <- into alignedImg
                    (warpPerspective cv (val srcMat) (val M) (templateSize a)) ;;
    delete srcMat ;;;
    delete binarySrc ;;;
    delete M ;;;
    ret (Alignment.mk true (Some alignedImg) None).

Definition alignUserImage (userImageElement : Element) : M Alignment.t :=
  a <- this ;;
  if negb (isInitialized a)
  then ret (Alignment.mk false None (Some notInitializedError))
  else
    tryCatch (alignUserImage_try userImageElement)
      (fun error => ret (Alignment.mk false None (Some (message error)))).

(** *** [cleanup] *)

Definition cleanup : M unit :=
  a <- this ;;
  (match templateImage a with
   | Some t =>
       delete t ;;;
       setThis (fun a => mkAligner None (templatePoints a) (templateSize a) (isInitialized a))
   | None => ret tt
   end) ;;;
  setInitialized false.

End AnswerSheetAligner.

(** ** Reference descriptions

    What the specification says the detectors compute, written without the
    heap; the theorems below relate the methods to them. *)

Section Reference.
Variable cv : OpenCV.

(** The candidates one contour contributes: all four vertices of its
    2%-perimeter approximation when its area exceeds 100 and the
    approximation is a quadrilateral, nothing otherwise. *)
Definition quadOf (c : Contour) : outcome (list Point) :=
  match contourArea cv c with
  | Throw e => Throw e
  | Ok area =>
      if Qlt_bool 100 area then
        match arcLength cv c true with
        | Throw e => Throw e
        | Ok perimeter =>
            match approxPolyDP cv c ((2 # 100) * perimeter) true with
            | Throw e => Throw e
            | Ok approx =>
                Ok (if (Zlength approx =? 4)%Z then fourVertices approx else [])
            end
        end
      else Ok []
  end.

Fixpoint quadCorners (cs : list Contour) : outcome (list Point) :=
  match cs with
  | [] => Ok []
  | c :: rest =>
      match quadOf c with
      | Throw e => Throw e
      | Ok q =>
          match quadCorners rest with
          | Throw e => Throw e
          | Ok qs => Ok (q ++ qs)
          end
      end
  end.

(** The merged, deduplicated candidate set of a binary image. *)
Definition candidatePoints (binary : Raster) : outcome (list Point) :=
  match HoughLinesP cv binary 1 (Math_PI / 180) 50 50 10 with
  | Throw e => Throw e
  | Ok segments =>
      match findContours cv binary (RETR_EXTERNAL cv) (CHAIN_APPROX_SIMPLE cv) with
      | Throw e => Throw e
      | Ok cs =>
          match quadCorners cs with
          | Throw e => Throw e
          | Ok corners =>
              Ok (removeDuplicatePoints (corners ++ lineEndpoints segments) 10)
          end
      end
  end.

(** The contour the fallback retains, with its area: the first one of
    largest area among those of positive area. *)
Definition pickLarger (best : Q * option Contour) (ca : Contour * Q)
  : Q * option Contour :=
  if Qlt_bool (fst best) (snd ca) then (snd ca, Some (fst ca)) else best.

Definition largestOf (cs : list Contour) (areas : list Q) : Q * option Contour :=
  fold_left pickLarger (combine cs areas) (0, None).

(** A tenth of the frame area, [(rows * cols) * 0.1]. *)
Definition tenthOfFrame (r : Raster) : Q := inject_Z (rows r * cols r) * (1 # 10).

(** The grayscale image the binarizations start from. *)
Definition grayOf (src : Raster) : outcome Raster :=
  if (channels src =? 3)%Z then cvtColor cv src (COLOR_RGB2GRAY cv)
  else if (channels src =? 4)%Z then cvtColor cv src (COLOR_RGBA2GRAY cv)
  else Ok src.

(** The score of a binarization: its external contours of area above 10. *)
Definition validContourCount (areas : list Q) : Z :=
  Zlength (filter (Qlt_bool 10) areas).

(** [scored b s]: scoring the candidate [b] meets no fault and yields [s]. *)
Definition scored (b : Raster) (s : Z) : Prop :=
  exists cs areas,
    findContours cv b (RETR_EXTERNAL cv) (CHAIN_APPROX_SIMPLE cv) = Ok cs /\
    Forall2 (fun c a => contourArea cv c = Ok a) cs areas /\
    s = validContourCount areas.

End Reference.

(** The two shapes of a result record: a finished image, or a failure with
    no image and a reason. *)
Inductive settled : Alignment.t -> Prop :=
| settled_image (img : Mat) : settled (Alignment.mk true (Some img) None)
| settled_failure (msg : string) : settled (Alignment.mk false None (Some msg)).

(** [firstMaximum scores i]: position [i] holds the largest score and no
    earlier position holds as much. *)
Definition firstMaximum (scores : list Z) (i : nat) : Prop :=
  exists s, nth_error scores i = Some s /\
    (forall j t, nth_error scores j = Some t -> (t <= s)%Z) /\
    (forall j t, (j < i)%nat -> nth_error scores j = Some t -> (t < s)%Z).

(** The update of the best candidate by one scored candidate. *)
Definition pickBest (best : Z * option Mat) (bs : Mat * Z) : Z * option Mat :=
  if (fst best <? snd bs)%Z then (snd bs, Some (fst bs)) else best.

(** Liveness of the handles that existed in [w] is the same in [w'], and
    the aligner object is the same. *)
Definition keeps (w w' : World) : Prop :=
  self w' = self w /\
  (next w <= next w')%nat /\
  forall h, (h < next w)%nat -> isLive h w' = isLive h w.

(** The world after [k] further allocations, none released. *)
Definition grown (w : World) (k : nat) : World :=
  mkWorld (self w) (rev (seq (next w) k) ++ live w) (next w + k)%nat.

(** The floats a list of points is written as: [x0, y0, x1, y1, ...]. *)
Definition coordinates (ps : list Point) : list Q :=
  flat_map (fun p => [x p; y p]) ps.

(** A loop state of [largestContour] without the wrapper's handle. *)
Definition stripped (best : Q * option (Native Contour)) : Q * option Contour :=
  (fst best, option_map val (snd best)).

(** ** A scripted library for concrete runs *)

(** A stand-in for OpenCV.js used to run the class on concrete inputs.  A
    [Scene] fixes what the detectors report: the answer of [HoughLinesP],
    and the contours found in a binary image, which is identified by the
    binarization that produced it ([threshold] and [adaptiveThreshold]
    record their parameters in the pixel data).  Areas are computed by the
    shoelace formula; perimeters are exact for axis-aligned polygons; the
    polygon approximation returns its input; the perspective solve keeps
    the eight correspondences and the warp copies the pixels into a canvas
    of the requested size.  [cvtColor] to gray accepts 3- and 4-channel
    input, as OpenCV does for every [*2GRAY] code, and rejects the rest. *)
Module Stub.

Record Scene : Type := mkScene
  { lines : outcome (list Segment);
    contoursOf : list Z -> outcome (list Contour) }.

Definition rect (x0 y0 w h : Z) : Contour :=
  [(x0, y0); (x0 + w, y0); (x0 + w, y0 + h); (x0, y0 + h)]%Z.

Fixpoint edges (first : Z * Z) (c : Contour) : list ((Z * Z) * (Z * Z)) :=
  match c with
  | [] => []
  | [p] => [(p, first)]
  | p :: ((q :: _) as rest) => (p, q) :: edges first rest
  end.

Definition closedEdges (c : Contour) : list ((Z * Z) * (Z * Z)) :=
  match c with
  | [] => []
  | p :: _ => edges p c
  end.

Definition shoelace (c : Contour) : Q :=
  inject_Z (Z.abs (fold_left
     (fun s '((x1, y1), (x2, y2)) => s + (x1 * y2 - x2 * y1))%Z
     (closedEdges c) 0%Z)) / 2.

Definition perimeter (c : Contour) : Q :=
  inject_Z (fold_left
     (fun s '((x1, y1), (x2, y2)) => s + Z.abs (x2 - x1) + Z.abs (y2 - y1))%Z
     (closedEdges c) 0%Z).

Definition toGray (r : Raster) (code : Z) : outcome Raster :=
  if (channels r =? 3)%Z || (channels r =? 4)%Z
  then Ok (mkRaster (rows r) (cols r) 1 (pixels r))
  else Throw (mkFault "cvtColor: the source must have 3 or 4 channels").

Definition cv (sc : Scene) : OpenCV :=
  {| cv_defined := true;
     cv_has := fun _ => true;
     COLOR_RGB2GRAY := 7;
     COLOR_RGBA2GRAY := 11;
     THRESH_BINARY := 0;
     THRESH_OTSU := 8;
     ADAPTIVE_THRESH_GAUSSIAN_C := 1;
     RETR_EXTERNAL := 0;
     CHAIN_APPROX_SIMPLE := 2;
     imread := fun el =>
       Ok (mkRaster (height (elemSize el)) (width (elemSize el)) 4 (bitmap el));
     cvtColor := toGray;
     threshold := fun r t maxv ty =>
       Ok (mkRaster (rows r) (cols r) 1 [ty; Qnum t]);
     adaptiveThreshold := fun r maxv method ty blockSize C =>
       Ok (mkRaster (rows r) (cols r) 1 [method; blockSize; Qnum C]);
     findContours := fun r mode method => contoursOf sc (pixels r);
     contourArea := fun c => Ok (shoelace c);
     arcLength := fun c closed => Ok (perimeter c);
     approxPolyDP := fun c epsilon closed => Ok c;
     HoughLinesP := fun r rho theta thresh minLen maxGap => lines sc;
     getPerspectiveTransform := fun src dst => Ok (src ++ dst);
     warpPerspective := fun r h size =>
       Ok (mkRaster (height size) (width size) (channels r) (pixels r)) |}.

(** A stand-in for [Math.atan2] that orders directions as the angle does:
    the quadrant plus the share of the way through it. *)
Definition atan2 (dy dx : Q) : Q :=
  if Qle_bool 0 dy then
    if Qle_bool 0 dx then dy / (dx + dy)
    else 1 + (- dx) / (- dx + dy)
  else
    if Qle_bool 0 dx then -1 + dx / (dx - dy)
    else -2 + (- dy) / (- dx - dy).

(** The binarizations as the stub tags them. *)
Definition otsuTag : list Z := [8; 0]%Z.
Definition adaptiveTag : list Z := [1; 11; 2]%Z.
Definition fixedTag : list Z := [0; 128]%Z.

Definition sameTag (a b : list Z) : bool :=
  if list_eq_dec Z.eq_dec a b then true else false.

(** A uniformly blank sheet: no segment, no contour. *)
Definition blank : Scene := mkScene (Ok []) (fun _ => Ok []).

(** A sheet with one 100 x 80 frame; the segment detector is out of order. *)
Definition framed : Scene :=
  mkScene (Throw (mkFault "HoughLinesP failed")) (fun _ => Ok [rect 50 10 100 80]).

(** The same frame with a working segment detector that finds nothing. *)
Definition sheet : Scene := mkScene (Ok []) (fun _ => Ok [rect 50 10 100 80]).

(** A large L-shaped region: six vertices. *)
Definition lshape : Scene :=
  mkScene (Ok [])
    (fun _ => Ok [[(0, 0); (100, 0); (100, 40); (40, 40); (40, 90); (0, 90)]%Z]).

(** A small mark only (20 x 20 in a 200 x 100 frame). *)
Definition speck : Scene := mkScene (Ok []) (fun _ => Ok [rect 5 5 20 20]).

(** Three binarizations that disagree: 2, 5 and 3 marks of 4 x 4 pixels. *)
Definition marks (n : nat) : list Contour :=
  map (fun i => rect (Z.of_nat i * 10) 0 4 4) (seq 0 n).

Definition disagreeing : Scene :=
  mkScene (Ok [])
    (fun tag => if sameTag tag otsuTag then Ok (marks 2)
                else if sameTag tag adaptiveTag then Ok (marks 5)
                else Ok (marks 3)).

Definition page : Element := mkElement (mkSize 200 100) [].

Definition fresh : World := mkWorld constructor [] 0%nat.

(** An aligner that [initializeWithTemplate] has made ready on the
    template [sheet] (its four frame corners, 200 x 100), with an empty
    native heap. *)
Definition ready : World :=
  mkWorld (mkAligner None
             [mkPoint 50 10; mkPoint 150 10; mkPoint 150 90; mkPoint 50 90]
             (mkSize 200 100) true) [] 0%nat.

Definition unitSquare : list Point :=
  [mkPoint 0 0; mkPoint 1 0; mkPoint 1 1; mkPoint 0 1].

(** Rasters held by the caller (handle 0) in a ready aligner's world. *)
Definition rgb : Mat := mkNative 0%nat (mkRaster 100 200 3 []).
Definition rgba : Mat := mkNative 0%nat (mkRaster 100 200 4 []).
Definition grayscale : Mat := mkNative 0%nat (mkRaster 100 200 1 []).
Definition holding : World := mkWorld (self ready) [0%nat] 1%nat.

End Stub.

(** ** Further reference descriptions *)

(** The centroid [sortCorners] measures angles from. *)
Definition centroid (corners : list Point) : Point :=
  let n := inject_Z (Zlength corners) in
  mkPoint (fold_left (fun s c => s + x c) corners 0 / n)
          (fold_left (fun s c => s + y c) corners 0 / n).

(** [a] does not come after [b] in the order of [sortCorners]. *)
Definition angleLe (Math_atan2 : Q -> Q -> Q) (center a b : Point) : Prop :=
  angleAround Math_atan2 center a <= angleAround Math_atan2 center b.

(** [initializeWithTemplate] finds the library unusable: [cv] is undefined
    or one of the functions it requires is missing. *)
Definition libraryIncomplete (cv : OpenCV) : Prop :=
  cv_defined cv = false \/
  exists func, In func requiredFunctions /\ cv_has cv func = false.

(** ** Further scripted inputs *)

Module Demo.

(** The library [c] without the function [name]. *)
Definition lacking (name : string) (c : OpenCV) : OpenCV :=
  {| cv_defined := cv_defined c;
     cv_has := fun func => negb (String.eqb func name) && cv_has c func;
     COLOR_RGB2GRAY := COLOR_RGB2GRAY c;
     COLOR_RGBA2GRAY := COLOR_RGBA2GRAY c;
     THRESH_BINARY := THRESH_BINARY c;
     THRESH_OTSU := THRESH_OTSU c;
     ADAPTIVE_THRESH_GAUSSIAN_C := ADAPTIVE_THRESH_GAUSSIAN_C c;
     RETR_EXTERNAL := RETR_EXTERNAL c;
     CHAIN_APPROX_SIMPLE := CHAIN_APPROX_SIMPLE c;
     imread := imread c;
     cvtColor := cvtColor c;
     threshold := threshold c;
     adaptiveThreshold := adaptiveThreshold c;
     findContours := findContours c;
     contourArea := contourArea c;
     arcLength := arcLength c;
     approxPolyDP := approxPolyDP c;
     HoughLinesP := HoughLinesP c;
     getPerspectiveTransform := getPerspectiveTransform c;
     warpPerspective := warpPerspective c |}.

(** An element that decodes to an image without pixels. *)
Definition emptyPage : Element := mkElement (mkSize 0 0) [].

End Demo.

(** ** Invariants of programs *)

(** [maintains I c Q]: started in a state of [I], the program [c] ends in
    a state of [I] on either exit, and a normal exit returns a value in
    [Q]. *)
Definition maintains {S A} (I : S -> Prop) (c : @Prog S A) (Q : A -> Prop) : Prop :=
  forall s, I s -> I (snd (c s)) /\ forall a, fst (c s) = Ok a -> Q a.

(** The invariant of a block: [Lv] on its variables, [I] on the world. *)
Definition both {L} (Lv : L -> Prop) (I : World -> Prop) (s : L * World) : Prop :=
  Lv (fst s) /\ I (snd s).

(** The native heap of [w'] agrees with that of [w] on every object that
    [w] has handed out. *)
Definition heapKept (w w' : World) : Prop :=
  (next w <= next w')%nat /\
  forall h, (h < next w)%nat -> isLive h w' = isLive h w.

(** An object created after [w]. *)
Definition createdAfter (w : World) {A} (o : Native A) : Prop :=
  (next w <= hnd o)%nat.

Definition optCreatedAfter (w : World) {A} (o : option (Native A)) : Prop :=
  match o with Some n => createdAfter w n | None => True end.

(** The destination of the fallback: the corners of the template
    rectangle, [(0,0), (W,0), (W,H), (0,H)]. *)
Definition templateRectangle (s : Size) : list Point :=
  [mkPoint 0 0;
   mkPoint (inject_Z (width s)) 0;
   mkPoint (inject_Z (width s)) (inject_Z (height s));
   mkPoint 0 (inject_Z (height s))].

(** The variables of [selectBestBinary] that its [finally] releases were
    created after [w]. *)
Definition selectVarsCreatedAfter (w : World) (v : SelectVars) : Prop :=
  optCreatedAfter w (sel_contours v) /\ optCreatedAfter w (sel_hierarchy v).

(** The same for the variables of [preprocessImage]. *)
Definition preVarsCreatedAfter (w : World) (v : PreVars) : Prop :=
  optCreatedAfter w (pre_gray v) /\ Forall (createdAfter w) (pre_binaryResults v).

(** What [initializeWithTemplate] leaves alone: the earlier native objects
    and the [templateImage] field. *)
Definition untouched (w w' : World) : Prop :=
  heapKept w w' /\ templateImage (self w') = templateImage (self w).

(** ** The life of an aligner *)

(** The worlds an aligner can be in: created by [new AnswerSheetAligner()]
    in any heap, then driven through its public methods, the rest of the
    program being free to create and release native objects in between. *)
Inductive reachable (cv : OpenCV) (Math_atan2 : Q -> Q -> Q) : World -> Prop :=
| reach_new (heap : list handle) (n : handle) :
    reachable cv Math_atan2 (mkWorld constructor heap n)
| reach_initialize (w : World) (image : Element) :
    reachable cv Math_atan2 w ->
    reachable cv Math_atan2 (snd (initializeWithTemplate cv image w))
| reach_align (w : World) (image : Element) :
    reachable cv Math_atan2 w ->
    reachable cv Math_atan2 (snd (alignUserImage cv Math_atan2 image w))
| reach_cleanup (w : World) :
    reachable cv Math_atan2 w ->
    reachable cv Math_atan2 (snd (cleanup w))
| reach_elsewhere (w : World) (heap : list handle) (n : handle) :
    reachable cv Math_atan2 w ->
    reachable cv Math_atan2 (mkWorld (self w) heap n).

(** An optional object whose handle is below [n]. *)
Definition below {A} (o : option (Native A)) (n : nat) : Prop :=
  match o with Some x => (hnd x < n)%nat | None => True end.

(** The object [h] is allocated, and was handed out before [n]. *)
Definition liveBelow (h : handle) (w : World) : Prop :=
  isLive h w = true /\ (h < next w)%nat.

(** ** The page: [AnswerSheetAlignmentSystem]

    The handlers of main.js that drive the aligner.  A handler is modelled
    as running to completion: one that starts while another is suspended
    at an [await] finds [isProcessing] set and only shows the busy warning.
    Canvas drawing, image decoding and the recognizer are collaborators
    that answer or throw. *)

(** The elements of [uiElements] that the handlers write; [None] is an
    element that [uiElements] does not hold. *)
Record UI : Type := mkUI
  { statusText : option (string * string);          (* textContent, className *)
    progressBar : option Z;                         (* style.width, in percent *)
    progressText : option Z;                        (* textContent, in percent *)
    messageArea : option (list (string * string));  (* className, textContent of its children *)
    templateStatus : option (string * string);      (* textContent, className *)
    alignBtn : option bool }.                       (* disabled *)

(** An uploaded [File]. *)
Record File : Type := mkFile { fileType : string; fileSize : Z }.

(** One recognized mark, and what the recognizer reports. *)
Module OptionMark.
Record t : Type := mk
  { x : Q; y : Q; width : Q; height : Q; area : Q; circularity : Q; confidence : Q }.
End OptionMark.

Module Recognition.
Record t : Type := mk
  { success : bool; options : list OptionMark.t; count : Z; message : string }.
End Recognition.

Record System : Type := mkSystem
  { hasAligner : bool;           (* [this.aligner] is set *)
    world : World;               (* the aligner object and the native heap *)
    hasRecognizer : bool;        (* [this.recognizer] is set *)
    isProcessing : bool;
    templateLoaded : bool;
    maskImage : option Element;
    ui : UI }.

Definition Page (A : Type) : Type := @Prog System A.

Definition system : Page System := fun s => (Ok s, s).

Definition setProcessing (b : bool) : Page unit :=
  fun s => (Ok tt, mkSystem (hasAligner s) (world s) (hasRecognizer s) b (templateLoaded s) (maskImage s) (ui s)).

Definition setTemplateLoaded (b : bool) : Page unit :=
  fun s => (Ok tt, mkSystem (hasAligner s) (world s) (hasRecognizer s) (isProcessing s) b (maskImage s) (ui s)).

Definition setMaskImage (image : Element) : Page unit :=
  fun s => (Ok tt, mkSystem (hasAligner s) (world s) (hasRecognizer s) (isProcessing s) (templateLoaded s)
                            (Some image) (ui s)).

Definition setRecognizer : Page unit :=
  fun s => (Ok tt, mkSystem (hasAligner s) (world s) true (isProcessing s) (templateLoaded s)
                            (maskImage s) (ui s)).

Definition setUI (f : UI -> UI) : Page unit :=
  fun s => (Ok tt, mkSystem (hasAligner s) (world s) (hasRecognizer s) (isProcessing s) (templateLoaded s)
                            (maskImage s) (f (ui s))).

(** A method call on [this.aligner]. *)
Definition onAligner {A} (c : M A) : Page A :=
  fun s =>
    if hasAligner s then
      match c (world s) with
      | (r, w') => (r, mkSystem (hasAligner s) w' (hasRecognizer s) (isProcessing s) (templateLoaded s)
                                (maskImage s) (ui s))
      end
    else (Throw (mkFault "TypeError: Cannot read properties of null"), s).

Definition updateStatus (text type : string) : Page unit :=
  setUI (fun u =>
    mkUI (match statusText u with
          | Some _ => Some (text, ("status-" ++ type)%string)
          | None => None
          end)
         (progressBar u) (progressText u) (messageArea u) (templateStatus u) (alignBtn u)).

Definition updateProgress (percentage : Z) : Page unit :=
  setUI (fun u =>
    mkUI (statusText u)
         (match progressBar u with Some _ => Some percentage | None => None end)
         (match progressText u with Some _ => Some percentage | None => None end)
         (messageArea u) (templateStatus u) (alignBtn u)).

(** The message stays until a timer removes it three seconds later. *)
Definition showMessage (message type : string) : Page unit :=
  setUI (fun u =>
    mkUI (statusText u) (progressBar u) (progressText u)
         (match messageArea u with
          | Some children =>
              Some (children ++ [(("message message-" ++ type)%string, message)])
          | None => None
          end)
         (templateStatus u) (alignBtn u)).

Definition updateTemplateStatus (status : string) : Page unit :=
  setUI (fun u =>
    mkUI (statusText u) (progressBar u) (progressText u) (messageArea u)
         (match templateStatus u with
          | Some _ =>
              Some (status, if String.eqb status "已加载"
                            then "status-ready"%string else "status-pending"%string)
          | None => None
          end)
         (alignBtn u)).

Definition enableAlignBtn : Page unit :=
  setUI (fun u =>
    mkUI (statusText u) (progressBar u) (progressText u) (messageArea u)
         (templateStatus u)
         (match alignBtn u with Some _ => Some false | None => None end)).

(** [`${n}`] for a count. *)
Definition decimal (n : nat) : string := NilEmpty.string_of_uint (Nat.to_uint n).

Definition busyWarning : string := "系统正在处理中，请稍候...".
Definition noTemplateWarning : string := "请先加载模板图片".
Definition noMaskWarning : string := "请先上传遮罩图片".

Section AnswerSheetAlignmentSystem.
Variable cv : OpenCV.
Variable Math_atan2 : Q -> Q -> Q.
(** [this.imageProcessor.displayAlignedImage] and [displayOriginalImage]. *)
Variable displayAlignedImage : Mat -> outcome unit.
Variable displayOriginalImage : Element -> outcome unit.
(** [this.imageProcessor.loadUserImage] and [loadTemplateImageElement]. *)
Variable loadUserImage : File -> outcome Element.
Variable loadTemplateImageElement : string -> outcome Element.
(** The drawing done by [updateMaskDisplay], by
    [visualizeRecognitionResults] and when the template picture has
    loaded. *)
Variable updateMaskDisplay : Element -> outcome unit.
Variable visualizeRecognitionResults : Recognition.t -> outcome unit.
Variable drawTemplateImage : outcome unit.
(** [window.OptionRecognizer] is defined. *)
Variable optionRecognizerDefined : bool.
(** What the page meets when the library is not there: evaluating [cv]
    or waiting for it in [waitForOpenCV]. *)
Variable libraryMissing : Fault.

(** *** [performAlignment] *)

Definition performAlignment_try (mask : Element) : Page unit :=
  setProcessing true ;;;
  updateStatus "正在执行图像对齐..." "processing" ;;;
  updateProgress 20 ;;;
  alignmentResult <- onAligner (alignUserImage cv Math_atan2 mask) ;;
  updateProgress 70 ;;;
  if Alignment.success alignmentResult then
    match Alignment.alignedImage alignmentResult with
    | Some alignedMat => call (displayAlignedImage alignedMat)
    | None => throw (mkFault "TypeError: Cannot read properties of null")
    end ;;;
    updateProgress 100 ;;;
    updateStatus "图像对齐完成！" "ready" ;;;
    showMessage "答题卡图像对齐成功！" "success"
  else throw (mkFault "图像对齐失败").

Definition performAlignment_catch (error : Fault) : Page unit :=
  updateStatus ("对齐失败: " ++ message error)%string "error" ;;;
  showMessage ("对齐失败: " ++ message error)%string "error".

Definition performAlignment : Page unit :=
  s <- system ;;
  if isProcessing s then showMessage busyWarning "warning"
  else if negb (templateLoaded s) then showMessage noTemplateWarning "warning"
  else
    match maskImage s with
    | None => showMessage noMaskWarning "warning"
    | Some mask =>
        tryFinally (tryCatch (performAlignment_try mask) performAlignment_catch)
                   (setProcessing false)
    end.

(** *** [loadTemplateImage] *)





(** *** [handleMaskUpload] *)

Definition maxMaskSize : Z := 10 * 1024 * 1024.

Definition handleMaskUpload_try (file : File) : Page unit :=
  setProcessing true ;;;
  updateStatus "正在处理遮罩图片..." "processing" ;;;
  (if negb (String.prefix "image/" (fileType file))
   then throw (mkFault "请上传图片文件（JPG、PNG、BMP格式）") else ret tt) ;;;
  (if (maxMaskSize <? fileSize file)%Z
   then throw (mkFault "图片文件过大，请上传小于10MB的图片") else ret tt) ;;;
  updateProgress 10 ;;;
  maskImage <- call (loadUserImage file) ;;
  updateProgress 30 ;;;
  call (displayOriginalImage maskImage) ;;;
  updateProgress 50 ;;;
  setMaskImage maskImage ;;;
  call (updateMaskDisplay maskImage) ;;;
  updateProgress 100 ;;;
  updateStatus "遮罩图片加载完成，可以执行对齐" "ready" ;;;
  showMessage "遮罩图片加载成功！" "success".

Definition handleMaskUpload_catch (error : Fault) : Page unit :=
  updateStatus ("遮罩处理失败: " ++ message error)%string "error" ;;;
  showMessage ("遮罩处理失败: " ++ message error)%string "error".

Definition handleMaskUpload (file : File) : Page unit :=
  s <- system ;;
  if isProcessing s then showMessage busyWarning "warning"
  else if negb (templateLoaded s) then showMessage noTemplateWarning "warning"
  else
    tryFinally (tryCatch (handleMaskUpload_try file) handleMaskUpload_catch)
               (setProcessing false).

(** *** [performRecognition] *)

(** [this.aligner.isAligned]: the class has no such member, so the test
    [!this.aligner.isAligned] holds whenever there is an aligner. *)
Definition notAligned : Page bool :=
  s <- system ;;
  if hasAligner s then ret true
  else throw (mkFault "TypeError: Cannot read properties of null").

(** [OptionRecognizer.simulateRecognition], a second later. *)
Definition simulatedOptions : list OptionMark.t :=
  [OptionMark.mk 100 150 30 30 700 (8 # 10) (9 # 10);
   OptionMark.mk 200 150 28 28 615 (7 # 10) (8 # 10);
   OptionMark.mk 300 150 32 32 804 (9 # 10) (95 # 100);
   OptionMark.mk 100 250 29 29 660 (75 # 100) (85 # 100);
   OptionMark.mk 200 250 31 31 754 (85 # 100) (92 # 100)].

Definition simulateRecognition (image : Element) : Recognition.t :=
  Recognition.mk true simulatedOptions (Zlength simulatedOptions)
    ("模拟识别完成，找到 " ++ decimal (List.length simulatedOptions) ++ " 个填涂选项")%string.

(** [if (!this.recognizer) this.recognizer = new OptionRecognizer()]. *)
Definition ensureRecognizer : Page unit :=
  s <- system ;;
  if hasRecognizer s then ret tt
  else if optionRecognizerDefined then setRecognizer
  else throw (mkFault "ReferenceError: OptionRecognizer is not defined").

Definition performRecognition_try (mask : Element) : Page unit :=
  setProcessing true ;;;
  updateStatus "正在识别填涂选项..." "processing" ;;;
  updateProgress 10 ;;;
  unaligned <- notAligned ;;
  (if unaligned then
     showMessage "检测到图像未对齐，先执行对齐操作" "warning" ;;;
     updateProgress 30 ;;;
     performAlignment ;;;
     updateProgress 50
   else ret tt) ;;;
  updateProgress 60 ;;;
  ensureRecognizer ;;;
  updateProgress 70 ;;;
  let recognitionResult := simulateRecognition mask in
  updateProgress 90 ;;;
  if Recognition.success recognitionResult then
    call (visualizeRecognitionResults recognitionResult) ;;;
    updateProgress 100 ;;;
    updateStatus "选项识别完成！" "ready" ;;;
    showMessage ("识别完成！找到 "
                 ++ decimal (List.length (Recognition.options recognitionResult))
                 ++ " 个填涂选项")%string "success"
  else throw (mkFault "选项识别失败").

Definition performRecognition_catch (error : Fault) : Page unit :=
  updateStatus ("识别失败: " ++ message error)%string "error" ;;;
  showMessage ("识别失败: " ++ message error)%string "error".

Definition performRecognition : Page unit :=
  s <- system ;;
  if isProcessing s then showMessage busyWarning "warning"
  else if negb (templateLoaded s) then showMessage noTemplateWarning "warning"
  else
    match maskImage s with
    | None => showMessage noMaskWarning "warning"
    | Some mask =>
        tryFinally (tryCatch (performRecognition_try mask) performRecognition_catch)
                   (setProcessing false)
    end.

(** *** The listeners of [setupEventListeners]

    What the page itself reacts to: the template picture shown by
    [loadAndDisplayTemplateImage] finishing to load, a mask file chosen or
    dropped, the align button and the recognize button.  The other
    listeners (opacity, drag feedback, resize) only draw. *)
Inductive PageEvent : Type :=
| TemplateImageLoaded
| MaskChosen (file : File)
| AlignClicked
| RecognizeClicked.

Definition onEvent (event : PageEvent) : Page unit :=
  match event with
  | TemplateImageLoaded => call drawTemplateImage ;;; setTemplateLoaded true
  | MaskChosen file => handleMaskUpload file
  | AlignClicked => performAlignment
  | RecognizeClicked => performRecognition
  end.

(** The states of the page: it starts with an aligner as its constructor
    leaves it, if any, and then handles events. *)
Inductive pageReachable : System -> Prop :=
| page_start (s : System) :
    self (world s) = constructor -> pageReachable s
| page_event (s : System) (event : PageEvent) :
    pageReachable s -> pageReachable (snd (onEvent event s)).

End AnswerSheetAlignmentSystem.

(** A property of the page that does not look at what is displayed nor at
    the recognizer. *)
Definition holds (P : bool -> World -> bool -> bool -> option Element -> Prop)
    (s : System) : Prop :=
  P (hasAligner s) (world s) (isProcessing s) (templateLoaded s) (maskImage s).

(** The session as [s0] has it: same aligner, earlier native objects kept,
    same template flag and mask. *)
Definition sessionOf (s0 : System)
    (a : bool) (w : World) (p t : bool) (m : option Element) : Prop :=
  a = hasAligner s0 /\ keeps (world s0) w /\ t = templateLoaded s0 /\ m = maskImage s0.

(** A page with every element in place, nothing shown yet, around the
    world [w]: the template picture is loaded and a mask is chosen. *)
Definition emptyUI : UI :=
  mkUI (Some (""%string, ""%string)) (Some 0%Z) (Some 0%Z) (Some [])
       (Some (""%string, ""%string)) (Some true).

Definition pageAround (w : World) : System :=
  mkSystem true w false false true (Some Stub.page) emptyUI.

(** The page while a handler started in [s0] is at work: busy, the rest
    as in [s0]. *)
Definition busyAt (s0 : System)
    (a : bool) (w : World) (p t : bool) (m : option Element) : Prop :=
  p = true /\ w = world s0 /\ t = templateLoaded s0 /\ m = maskImage s0.

(** The same page before a mask is chosen, and a picture file of exactly
    10 MB. *)
Definition pageWithoutMask : System :=
  mkSystem true Stub.fresh false false true None emptyUI.

Definition tenMegabytePicture : File := mkFile "image/png" 10485760.

(** The aligner object is [a0], whatever else the page holds. *)
Definition alignerIs (a0 : Aligner)
    (a : bool) (w : World) (p t : bool) (m : option Element) : Prop :=
  self w = a0.

(** That page after a mask has been chosen, every collaborator answering. *)
Definition pageAfterUpload : System :=
  snd (onEvent (Stub.cv Stub.sheet) Stub.atan2 (fun _ => Ok tt) (fun _ => Ok tt)
         (fun _ => Ok Stub.page) (fun _ => Ok tt) (fun _ => Ok tt) (Ok tt) true
         (MaskChosen tenMegabytePicture) pageWithoutMask).

(** ** The recognizer: [OptionRecognizer]

    Its settings and the order in which [analyzeContours] reports the
    marks.  Console output is left out. *)
Module OptionRecognizer.

Record t : Type := mk
  { isInitialized : bool;
    threshold : Q;
    minOptionArea : Q;
    maxOptionArea : Q;
    optionTemplates : list Element;
    recognizedOptions : list OptionMark.t }.

Definition constructor : t := mk true (3 # 10) 50 500 [] [].



Definition cleanup (this : t) : t :=
  mk false (threshold this) (minOptionArea this) (maxOptionArea this) [] [].

(** The comparison function that [analyzeContours] hands to [sort]:
    negative when [a] goes before [b]. *)
Definition analyzeContours_compare (a b : OptionMark.t) : Q :=
  if Qlt_bool (Qabs (OptionMark.y a - OptionMark.y b)) 20 then
    OptionMark.x a - OptionMark.x b
  else
    OptionMark.y a - OptionMark.y b.


(** A mark of which only the place matters. *)
Definition markAt (x y : Q) : OptionMark.t := OptionMark.mk x y 30 30 100 (8 # 10) (2 # 10).

End OptionRecognizer.

(** * Properties *)

(** ** Deduplication *)

Lemma Qlt_bool_iff (a b : Q) : Qlt_bool a b = true <-> a < b.
Proof.
  unfold Qlt_bool. rewrite negb_true_iff.
  split.
  - intros H. apply Qnot_le_lt. intros Hle.
    apply Qle_bool_iff in Hle. congruence.
  - intros H. destruct (Qle_bool b a) eqn:E; [|reflexivity].
    apply Qle_bool_iff in E. exfalso. apply (Qlt_not_le _ _ H E).
Qed.

Lemma isNear_iff (t : Q) (p u : Point) :
  isNear t p u = true <->
  Qabs (x u - x p) < t /\ Qabs (y u - y p) < t.
Proof.
  unfold isNear. rewrite andb_true_iff, !Qlt_bool_iff. tauto.
Qed.


Lemma step_spec (t : Q) (kept : list Point) (p : Point) :
  (existsb (isNear t p) kept = true /\ removeDuplicatePoints_step t kept p = kept) \/
  (existsb (isNear t p) kept = false /\ removeDuplicatePoints_step t kept p = kept ++ [p]).
Proof.
  unfold removeDuplicatePoints_step.
  destruct (existsb (isNear t p) kept); [left | right]; split; reflexivity.
Qed.

Lemma Subseq_nil_l {A} (l : list A) : Subseq [] l.
Proof. induction l; constructor; assumption. Qed.




(** ** Reasoning about programs *)

Section ProgramFacts.
Context {S : Type}.

Lemma bind_ok_inv {A B} (c : @Prog S A) (k : A -> @Prog S B) s b s' :
  bind c k s = (Ok b, s') ->
  exists a s1, c s = (Ok a, s1) /\ k a s1 = (Ok b, s').
Proof.
  unfold bind. destruct (c s) as [[a|e] s1]; intros H; [eauto | discriminate].
Qed.

Lemma bind_ok {A B} (c : @Prog S A) (k : A -> @Prog S B) s a s1 :
  c s = (Ok a, s1) -> bind c k s = k a s1.
Proof. unfold bind. intros ->. reflexivity. Qed.

Lemma bind_throw {A B} (c : @Prog S A) (k : A -> @Prog S B) s e s1 :
  c s = (Throw e, s1) -> bind c k s = (Throw e, s1).
Proof. unfold bind. intros ->. reflexivity. Qed.

Lemma bind_assoc {A B C} (c : @Prog S A) (f : A -> @Prog S B) (g : B -> @Prog S C) s :
  bind (bind c f) g s = bind c (fun a => bind (f a) g) s.
Proof. unfold bind. destruct (c s) as [[a|e] s1]; reflexivity. Qed.

Lemma ensures_ret {A} (a : A) (P : A -> Prop) : P a -> ensures (S := S) (ret a) P.
Proof. intros H s b s' E. inversion E. subst. exact H. Qed.

Lemma ensures_throw {A} (e : Fault) (P : A -> Prop) : ensures (S := S) (throw e) P.
Proof. intros s b s' E. discriminate. Qed.

Lemma ensures_bind {A B} (c : @Prog S A) (k : A -> @Prog S B)
      (Q : A -> Prop) (P : B -> Prop) :
  ensures c Q -> (forall a, Q a -> ensures (k a) P) -> ensures (bind c k) P.
Proof.
  intros Hc Hk s b s' E. apply bind_ok_inv in E as (a & s1 & E1 & E2).
  exact (Hk a (Hc _ _ _ E1) _ _ _ E2).
Qed.

Lemma ensures_any {A} (c : @Prog S A) : ensures c (fun _ => True).
Proof. intros s a s' _. exact I. Qed.

Lemma ensures_tryCatch {A} (c : @Prog S A) (h : Fault -> @Prog S A) (P : A -> Prop) :
  ensures c P -> (forall e, ensures (h e) P) -> ensures (tryCatch c h) P.
Proof.
  intros Hc Hh s a s' E. unfold tryCatch in E.
  destruct (c s) as [[a1|e] s1] eqn:E1.
  - inversion E. subst. exact (Hc _ _ _ E1).
  - exact (Hh e _ _ _ E).
Qed.

(** A [try] whose handler returns always ends normally. *)
Lemma tryCatch_returns {A} (c : @Prog S A) (f : Fault -> A) s :
  exists a s', tryCatch c (fun e => ret (f e)) s = (Ok a, s') /\
    (forall e s1, c s = (Throw e, s1) -> a = f e /\ s' = s1) /\
    (forall a1 s1, c s = (Ok a1, s1) -> a = a1 /\ s' = s1).
Proof.
  unfold tryCatch, ret. destruct (c s) as [[a|e] s1].
  - exists a, s1. split; [reflexivity|]. split; intros ? ? E; inversion E; auto.
  - exists (f e), s1. split; [reflexivity|]. split; intros ? ? E; inversion E; auto.
Qed.

(** A [try] whose handler swallows the fault ends normally. *)
Lemma tryCatch_swallow (c : @Prog S unit) (s : S) :
  exists s', tryCatch c (fun _ => ret tt) s = (Ok tt, s').
Proof.
  unfold tryCatch, ret. destruct (c s) as [[[]|e] s1]; eauto.
Qed.

Lemma tryFinally_run {A} (c : @Prog S A) (f : @Prog S unit) s r s1 s2 :
  c s = (r, s1) -> f s1 = (Ok tt, s2) -> tryFinally c f s = (r, s2).
Proof. unfold tryFinally. intros -> ->. reflexivity. Qed.
End ProgramFacts.

Lemma inWorld_run {L A} (c : M A) (l : L) (w : World) r w' :
  c w = (r, w') -> inWorld c (l, w) = (r, (l, w')).
Proof. unfold inWorld. simpl. intros ->. reflexivity. Qed.

(** Unfolds the sequencing of a program down to its exits. *)
Ltac ensures_steps :=
  repeat first
    [ apply ensures_ret
    | apply ensures_throw
    | apply (ensures_bind _ _ (fun _ => True)); [apply ensures_any | intros ? _]
    | match goal with
      | |- ensures (if ?b then _ else _) _ => destruct b
      | |- ensures (match ?v with _ => _ end) _ => destruct v
      end ].

(** ** The public boundary of [alignUserImage] *)

Section Boundary.
Variable cv : OpenCV.
Variable Math_atan2 : Q -> Q -> Q.

Lemma fallbackAlignment_settled (srcMat : Mat) :
  ensures (fallbackAlignment cv Math_atan2 srcMat) settled.
Proof.
  unfold fallbackAlignment. apply ensures_tryCatch.
  - ensures_steps; constructor.
  - intros e. apply ensures_ret. constructor.
Qed.

Lemma fallbackAlignment_returns (srcMat : Mat) (w : World) :
  exists r w', fallbackAlignment cv Math_atan2 srcMat w = (Ok r, w').
Proof.
  unfold fallbackAlignment.
  match goal with
  | |- context [tryCatch ?c (fun e => ret (@?f e))] =>
      destruct (tryCatch_returns c f w) as (a & s' & E & _)
  end.
  eauto.
Qed.

End Boundary.


(** The ready aligner of the concrete runs is the one that
    [initializeWithTemplate] produces on the framed sheet. *)
Example ready_by_initialization :
  fst (initializeWithTemplate (Stub.cv Stub.sheet) Stub.page Stub.fresh) = Ok true /\
  self (snd (initializeWithTemplate (Stub.cv Stub.sheet) Stub.page Stub.fresh))
    = self Stub.ready.
Proof. split; vm_compute; reflexivity. Qed.

(** C8: a call made while the aligner is not initialized returns the
    not-initialized failure record and leaves the world, hence the template
    points, the template size and the readiness flag, exactly as it was. *)
Theorem alignUserImage_not_ready_is_inert
    (cv : OpenCV) (Math_atan2 : Q -> Q -> Q) (el : Element) (w : World) :
  isInitialized (self w) = false ->
  alignUserImage cv Math_atan2 el w
    = (Ok (Alignment.mk false None (Some notInitializedError)), w).
Proof.
  intros H. unfold alignUserImage, bind, this. rewrite H. reflexivity.
Qed.

Lemma alignUserImage_not_ready_is_inert_witness :
  isInitialized (self Stub.fresh) = false /\
  alignUserImage (Stub.cv Stub.sheet) Stub.atan2 Stub.page Stub.fresh
    = (Ok (Alignment.mk false None (Some notInitializedError)), Stub.fresh).
Proof.
  split; [reflexivity|].
  apply (alignUserImage_not_ready_is_inert (Stub.cv Stub.sheet) Stub.atan2
           Stub.page Stub.fresh).
  reflexivity.
Defined.



(** ** The native heap *)

Lemma keeps_refl (w : World) : keeps w w.
Proof. repeat split; auto. Qed.

Lemma keeps_trans (w1 w2 w3 : World) : keeps w1 w2 -> keeps w2 w3 -> keeps w1 w3.
Proof.
  intros (S1 & N1 & L1) (S2 & N2 & L2). repeat split.
  - congruence.
  - lia.
  - intros h Hh. rewrite L2 by lia. apply L1. exact Hh.
Qed.

Lemma existsb_filter_other (h k : handle) (l : list handle) :
  h <> k ->
  existsb (Nat.eqb h) (filter (fun j => negb (Nat.eqb k j)) l) = existsb (Nat.eqb h) l.
Proof.
  intros Hne. induction l as [|a l IH]; simpl; [reflexivity|].
  destruct (Nat.eqb k a) eqn:Eka; simpl.
  - apply Nat.eqb_eq in Eka. subst a.
    rewrite IH. destruct (Nat.eqb h k) eqn:Ehk; [|reflexivity].
    apply Nat.eqb_eq in Ehk. contradiction.
  - rewrite IH. reflexivity.
Qed.

Lemma alloc_run {A} (v : A) (w : World) :
  exists w', alloc v w = (Ok (mkNative (next w) v), w') /\
    keeps w w' /\ next w' = Datatypes.S (next w) /\ isLive (next w) w' = true.
Proof.
  eexists. split; [reflexivity|]. unfold keeps, isLive. simpl.
  rewrite Nat.eqb_refl. repeat split; auto.
  intros h Hh. destruct (Nat.eqb h (next w)) eqn:E; [|reflexivity].
  apply Nat.eqb_eq in E. lia.
Qed.

(** Deleting a live object that was allocated after [w0] keeps [w0]. *)
Lemma delete_run {A} (o : Native A) (w0 w : World) :
  keeps w0 w -> (next w0 <= hnd o)%nat -> isLive (hnd o) w = true ->
  exists w', delete o w = (Ok tt, w') /\ keeps w0 w' /\ next w' = next w /\
    forall h, h <> hnd o -> isLive h w' = isLive h w.
Proof.
  intros (S1 & N1 & L1) Hge Hl. unfold delete. rewrite Hl.
  eexists. split; [reflexivity|].
  assert (F : forall h, h <> hnd o ->
             isLive h {| self := self w;
                         live := filter (fun j => negb (Nat.eqb (hnd o) j)) (live w);
                         next := next w |} = isLive h w).
  { intros h Hh. unfold isLive. simpl. apply existsb_filter_other. exact Hh. }
  repeat split; auto.
  intros h Hh. rewrite F by lia. apply L1. exact Hh.
Qed.

(** ** Feature detection *)

Section DetectionFacts.
Variable cv : OpenCV.

Lemma cornerPoints_run (pts : list Point) (c : Contour) (w : World) :
  exists w',
    cornerPoints cv pts c w
      = (match quadOf cv c with Ok q => Ok (pts ++ q) | Throw e => Throw e end, w') /\
    keeps w w'.
Proof.
  unfold cornerPoints, quadOf.
  destruct (alloc_run c w) as (w1 & E1 & K1 & N1 & L1).
  rewrite (bind_ok _ _ _ _ _ E1). simpl val.
  unfold call at 1. unfold bind at 1.
  destruct (contourArea cv c) as [area|e]; [|eauto].
  destruct (Qlt_bool 100 area).
  - rewrite bind_assoc.
    destruct (alloc_run ([] : list (Z * Z)) w1) as (w2 & E2 & K2 & N2 & L2).
    rewrite (bind_ok _ _ _ _ _ E2).
    rewrite bind_assoc. unfold call at 1. unfold bind at 1.
    destruct (arcLength cv c true) as [p|e]; [|eauto using keeps_trans].
    rewrite bind_assoc. unfold into at 1. rewrite bind_assoc. unfold call at 1. unfold bind at 1.
    destruct (approxPolyDP cv c _ true) as [poly|e]; [|eauto using keeps_trans].
    unfold ret at 1. unfold bind at 1. rewrite bind_assoc. simpl val. simpl hnd.
    assert (K12 : keeps w w2) by eauto using keeps_trans.
    destruct (delete_run (mkNative (next w1) poly) w w2 K12) as (w3 & E3 & K3 & N3 & F3);
      [simpl; lia | exact L2 |].
    rewrite (bind_ok _ _ _ _ _ E3). unfold ret at 1. unfold bind at 1.
    assert (L3 : isLive (next w) w3 = true).
    { rewrite F3 by (simpl; lia). destruct K2 as (_ & _ & P2). rewrite P2 by lia. exact L1. }
    destruct (delete_run (mkNative (next w) c) w w3 K3) as (w4 & E4 & K4 & N4 & F4);
      [simpl; lia | exact L3 |].
    rewrite (bind_ok _ _ _ _ _ E4). unfold ret.
    exists w4. split; [|exact K4].
    destruct (Zlength poly =? 4)%Z; [reflexivity | rewrite app_nil_r; reflexivity].
  - unfold ret at 1. unfold bind at 1.
    destruct (delete_run (mkNative (next w) c) w w1 K1) as (w4 & E4 & K4 & N4 & F4);
      [simpl; lia | exact L1 |].
    rewrite (bind_ok _ _ _ _ _ E4). unfold ret.
    exists w4. split; [|exact K4]. rewrite app_nil_r. reflexivity.
Qed.

Lemma cornerLoop_run (cs : list Contour) (pts : list Point) (w : World) :
  exists w',
    forEach cs (cornerPoints cv) pts w
      = (match quadCorners cv cs with Ok q => Ok (pts ++ q) | Throw e => Throw e end, w') /\
    keeps w w'.
Proof.
  revert pts w. induction cs as [|c cs IH]; intros pts w; simpl.
  - exists w. rewrite app_nil_r. split; [reflexivity | apply keeps_refl].
  - destruct (cornerPoints_run pts c w) as (w1 & E1 & K1).
    unfold bind. rewrite E1.
    destruct (quadOf cv c) as [q|e]; [|eauto].
    destruct (IH (pts ++ q) w1) as (w2 & E2 & K2). rewrite E2.
    exists w2. split; [|eauto using keeps_trans].
    destruct (quadCorners cv cs) as [qs|e]; [|reflexivity].
    rewrite app_assoc. reflexivity.
Qed.

Lemma findLinesAndPoints_run (binaryImage : Mat) (w : World) :
  exists w',
    findLinesAndPoints cv binaryImage w
      = (Ok (match candidatePoints cv (val binaryImage) with
             | Ok u => Detection.mk (4 <=? Zlength u)%Z u
             | Throw _ => Detection.mk false []
             end), w').
Proof.
  unfold findLinesAndPoints, candidatePoints, tryCatch.
  destruct (alloc_run ([] : list Segment) w) as (w1 & E1 & K1 & N1 & L1).
  rewrite (bind_ok _ _ _ _ _ E1).
  unfold into at 1. rewrite bind_assoc. unfold call at 1. unfold bind at 1.
  destruct (HoughLinesP cv (val binaryImage) 1 (Math_PI / 180) 50 50 10) as [segs|e];
    [|eexists; reflexivity].
  unfold ret at 1. unfold bind at 1. simpl val. simpl hnd.
  destruct (delete_run (mkNative (next w) segs) w w1 K1) as (w2 & E2 & K2 & N2 & F2);
    [simpl; lia | exact L1 |].
  rewrite (bind_ok _ _ _ _ _ E2).
  destruct (alloc_run ([] : list Contour) w2) as (w3 & E3 & K3 & N3 & L3).
  rewrite (bind_ok _ _ _ _ _ E3).
  destruct (alloc_run emptyRaster w3) as (w4 & E4 & K4 & N4 & L4).
  unfold newMat. rewrite (bind_ok _ _ _ _ _ E4).
  unfold into at 1. rewrite bind_assoc. unfold call at 1. unfold bind at 1.
  destruct (findContours cv (val binaryImage) (RETR_EXTERNAL cv) (CHAIN_APPROX_SIMPLE cv))
    as [cs|e]; [|eexists; reflexivity].
  unfold ret at 1. unfold bind at 1. simpl val. simpl hnd.
  destruct (cornerLoop_run cs [] w4) as (w5 & E5 & K5).
  unfold bind at 1. rewrite E5. simpl app.
  destruct (quadCorners cv cs) as [corners|e]; [|eexists; reflexivity].
  assert (L5 : isLive (next w2) w5 = true).
  { destruct K5 as (_ & _ & P5). rewrite P5 by lia.
    destruct K4 as (_ & _ & P4). rewrite P4 by lia. exact L3. }
  assert (K05 : keeps w w5) by eauto using keeps_trans.
  destruct (delete_run (mkNative (next w2) cs) w w5 K05) as (w6 & E6 & K6 & N6 & F6);
    [simpl; lia | exact L5 |].
  rewrite (bind_ok _ _ _ _ _ E6).
  assert (L6 : isLive (next w3) w6 = true).
  { rewrite F6 by (simpl; lia). destruct K5 as (_ & _ & P5). rewrite P5 by lia. exact L4. }
  destruct (delete_run (mkNative (next w3) emptyRaster) w w6 K6) as (w7 & E7 & K7 & N7 & F7);
    [simpl; lia | exact L6 |].
  rewrite (bind_ok _ _ _ _ _ E7).
  eexists; reflexivity.
Qed.
End DetectionFacts.


(** ** The fallback path *)

Section FallbackFacts.
Variable cv : OpenCV.
Variable Math_atan2 : Q -> Q -> Q.

Lemma keepLarger_run (c : Contour) (a : Q) :
  contourArea cv c = Ok a ->
  forall (best : Q * option (Native Contour)) (w : World),
  exists best' w',
    keepLarger cv best c w = (Ok best', w') /\
    self w' = self w /\
    stripped best' = pickLarger (stripped best) (c, a).
Proof.
  intros Hc [maxArea maxContour] w.
  unfold keepLarger, bind, alloc, call, ret, pickLarger, stripped. simpl.
  rewrite Hc.
  destruct (Qlt_bool maxArea a); eexists; eexists; repeat split; reflexivity.
Qed.

Lemma largestContour_loop (cs : list Contour) (areas : list Q) :
  Forall2 (fun c a => contourArea cv c = Ok a) cs areas ->
  forall (best : Q * option (Native Contour)) (w : World),
  exists best' w',
    forEach cs (keepLarger cv) best w = (Ok best', w') /\
    self w' = self w /\
    stripped best' = fold_left pickLarger (combine cs areas) (stripped best).
Proof.
  induction 1 as [|c a cs areas Hc _ IH]; intros best w; simpl.
  - eexists; eexists; repeat split; reflexivity.
  - destruct (keepLarger_run c a Hc best w) as (b1 & w1 & E1 & S1 & F1).
    rewrite (bind_ok _ _ _ _ _ E1).
    destruct (IH b1 w1) as (b2 & w2 & E2 & S2 & F2).
    exists b2, w2. split; [exact E2|]. split; [congruence|].
    rewrite F2, F1. reflexivity.
Qed.

Lemma largestContour_inv (cs : list Contour) :
  forall (best : Q * option (Native Contour)) (w : World) a mc w',
    forEach cs (keepLarger cv) best w = (Ok (a, Some mc), w') ->
    best = (a, Some mc) \/ (In (val mc) cs /\ contourArea cv (val mc) = Ok a).
Proof.
  induction cs as [|c cs IH]; intros [maxArea maxContour] w a mc w' E; simpl in E.
  - inversion E. auto.
  - apply bind_ok_inv in E as (best1 & w1 & E1 & E2).
    apply IH in E2 as [-> | [Hin Ha]]; [|right; split; [right|]; assumption].
    unfold keepLarger, bind, alloc, call in E1. simpl in E1.
    destruct (contourArea cv c) as [area|e] eqn:Ec; [|discriminate].
    destruct (Qlt_bool maxArea area); inversion E1; subst; auto.
    right. simpl. auto.
Qed.

Lemma pickLarger_small (t : Q) (cas : list (Contour * Q)) :
  Forall (fun ca => snd ca < t) cas ->
  forall best, (snd best = None \/ fst best < t) ->
  let r := fold_left pickLarger cas best in snd r = None \/ fst r < t.
Proof.
  induction 1 as [|[c a] cas Ha _ IH]; intros best Hb; simpl; [exact Hb|].
  apply IH. unfold pickLarger. simpl.
  destruct (Qlt_bool (fst best) a); [right; exact Ha | exact Hb].
Qed.

Lemma into_ok_inv {A B} (dst : Native A) (o : outcome B) (w : World) n w' :
  into dst o w = (Ok n, w') -> o = Ok (val n) /\ hnd n = hnd dst /\ w' = w.
Proof.
  unfold into, bind, call, ret. destruct o; intros E; inversion E; subst; auto.
Qed.

Lemma call_ok_inv {S A} (o : outcome A) (s : S) a s' :
  call o s = (Ok a, s') -> o = Ok a /\ s' = s.
Proof. unfold call. intros E. inversion E. auto. Qed.

Lemma into_run {A B} (dst : Native A) (v : B) (o : outcome B) (w : World) :
  o = Ok v -> into dst o w = (Ok (mkNative (hnd dst) v), w).
Proof. intros ->. reflexivity. Qed.

Lemma Qlt_bool_false (a b : Q) : ~ a < b -> Qlt_bool a b = false.
Proof.
  intros H. destruct (Qlt_bool a b) eqn:E; [|reflexivity].
  apply Qlt_bool_iff in E. contradiction.
Qed.

Lemma stripped_some (a : Q) (o : option (Native Contour)) (a' : Q) (c : Contour) :
  stripped (a, o) = (a', Some c) -> a = a' /\ exists mc, o = Some mc /\ val mc = c.
Proof.
  unfold stripped. simpl. destruct o as [mc|]; simpl; intros E; inversion E.
  split; [reflexivity|]. exists mc. auto.
Qed.

(** Runs [fallbackAlignment] up to the end of its contour loop. *)
Ltac fallback_prefix w Hg Hb Hcs Ha :=
  unfold fallbackAlignment, tryCatch, newMat;
  let w1 := fresh "w" in let E1 := fresh "E" in
  destruct (alloc_run emptyRaster w) as (w1 & E1 & _);
  rewrite (bind_ok _ _ _ _ _ E1);
  rewrite (bind_ok _ _ _ _ _ (into_run _ _ _ w1 Hg));
  let w2 := fresh "w" in let E2 := fresh "E" in
  destruct (alloc_run emptyRaster w1) as (w2 & E2 & _);
  rewrite (bind_ok _ _ _ _ _ E2);
  rewrite (bind_ok _ _ _ _ _ (into_run _ _ _ w2 Hb));
  let w3 := fresh "w" in let E3 := fresh "E" in
  destruct (alloc_run ([] : list Contour) w2) as (w3 & E3 & _);
  rewrite (bind_ok _ _ _ _ _ E3);
  let w4 := fresh "w" in let E4 := fresh "E" in
  destruct (alloc_run emptyRaster w3) as (w4 & E4 & _);
  rewrite (bind_ok _ _ _ _ _ E4);
  rewrite (bind_ok _ _ _ _ _ (into_run _ _ _ w4 Hcs));
  unfold largestContour; simpl val;
  let maxArea := fresh "maxArea" in let maxContour := fresh "maxContour" in
  let w5 := fresh "w" in let E5 := fresh "E" in let F5 := fresh "F" in
  destruct (largestContour_loop _ _ Ha (0, None) w4)
    as ([maxArea maxContour] & w5 & E5 & _ & F5);
  rewrite (bind_ok _ _ _ _ _ E5);
  change (stripped (0, None)) with ((0, None) : Q * option Contour) in F5.

Lemma fallbackAlignment_no_frame (srcMat : Mat) (w : World) g b cs areas :
  cvtColor cv (val srcMat) (COLOR_RGBA2GRAY cv) = Ok g ->
  threshold cv g 0 255 (THRESH_BINARY cv + THRESH_OTSU cv)%Z = Ok b ->
  findContours cv b (RETR_EXTERNAL cv) (CHAIN_APPROX_SIMPLE cv) = Ok cs ->
  Forall2 (fun c a => contourArea cv c = Ok a) cs areas ->
  Forall (fun a => a < tenthOfFrame (val srcMat)) areas ->
  fst (fallbackAlignment cv Math_atan2 srcMat w)
    = Ok (Alignment.mk false None (Some noFrameError)).
Proof.
  intros Hg Hb Hcs Ha Hsmall.
  fallback_prefix w Hg Hb Hcs Ha.
  assert (Hs : Forall (fun ca : Contour * Q => snd ca < tenthOfFrame (val srcMat))
                      (combine cs areas)).
  { clear - Ha Hsmall. induction Ha; simpl; [constructor|].
    inversion Hsmall; subst. constructor; auto. }
  pose proof (pickLarger_small _ _ Hs (0, None) (or_introl eq_refl)) as Hr.
  cbv zeta in Hr. rewrite <- F in Hr. unfold stripped in Hr. simpl in Hr.
  destruct maxContour as [mc|]; [|reflexivity].
  destruct Hr as [Hr|Hr]; [discriminate|].
  apply Qlt_bool_iff in Hr. unfold tenthOfFrame in Hr. rewrite Hr. reflexivity.
Qed.

Lemma fallbackAlignment_not_quad (srcMat : Mat) (w : World) g b cs areas c a p poly :
  cvtColor cv (val srcMat) (COLOR_RGBA2GRAY cv) = Ok g ->
  threshold cv g 0 255 (THRESH_BINARY cv + THRESH_OTSU cv)%Z = Ok b ->
  findContours cv b (RETR_EXTERNAL cv) (CHAIN_APPROX_SIMPLE cv) = Ok cs ->
  Forall2 (fun c a => contourArea cv c = Ok a) cs areas ->
  largestOf cs areas = (a, Some c) ->
  ~ a < tenthOfFrame (val srcMat) ->
  arcLength cv c true = Ok p ->
  approxPolyDP cv c ((2 # 100) * p) true = Ok poly ->
  Zlength poly <> 4%Z ->
  fst (fallbackAlignment cv Math_atan2 srcMat w)
    = Ok (Alignment.mk false None (Some notQuadError)).
Proof.
  intros Hg Hb Hcs Ha Hl Hbig Hp Hpoly Hn.
  fallback_prefix w Hg Hb Hcs Ha.
  unfold largestOf in Hl. rewrite Hl in F.
  apply stripped_some in F as (-> & mc & -> & Hv).
  unfold tenthOfFrame in Hbig. rewrite (Qlt_bool_false _ _ Hbig).
  match goal with |- context [bind (alloc ?v) _ ?w0] =>
    destruct (alloc_run v w0) as (w6 & E6 & _) end.
  rewrite (bind_ok _ _ _ _ _ E6).
  rewrite Hv. unfold call at 1. unfold bind at 1. rewrite Hp.
  rewrite (bind_ok _ _ _ _ _ (into_run _ _ _ _ Hpoly)).
  cbn [val hnd]. apply Z.eqb_neq in Hn. rewrite Hn. reflexivity.
Qed.

Lemma fallbackAlignment_success_inv (srcMat : Mat) (w : World) r w' :
  fallbackAlignment cv Math_atan2 srcMat w = (Ok r, w') ->
  Alignment.success r = true ->
  exists g b cs c a p poly,
    cvtColor cv (val srcMat) (COLOR_RGBA2GRAY cv) = Ok g /\
    threshold cv g 0 255 (THRESH_BINARY cv + THRESH_OTSU cv)%Z = Ok b /\
    findContours cv b (RETR_EXTERNAL cv) (CHAIN_APPROX_SIMPLE cv) = Ok cs /\
    In c cs /\ contourArea cv c = Ok a /\
    ~ a < tenthOfFrame (val srcMat) /\
    arcLength cv c true = Ok p /\
    approxPolyDP cv c ((2 # 100) * p) true = Ok poly /\
    Zlength poly = 4%Z.
Proof.
  intros E Hs. unfold fallbackAlignment, tryCatch in E.
  match type of E with
  | (let (o, s') := ?body w in _) = _ => destruct (body w) as [[r1|e] w1] eqn:Eb
  end; [|inversion E; subst; discriminate].
  clear E Hs.
  apply bind_ok_inv in Eb as (gray & s1 & _ & Eb).
  apply bind_ok_inv in Eb as (gray' & s2 & Hg & Eb).
  apply into_ok_inv in Hg as (Hg & _ & _).
  apply bind_ok_inv in Eb as (bin & s3 & _ & Eb).
  apply bind_ok_inv in Eb as (bin' & s4 & Hb & Eb).
  apply into_ok_inv in Hb as (Hb & _ & _).
  apply bind_ok_inv in Eb as (cont & s5 & _ & Eb).
  apply bind_ok_inv in Eb as (hier & s6 & _ & Eb).
  apply bind_ok_inv in Eb as (cont' & s7 & Hcs & Eb).
  apply into_ok_inv in Hcs as (Hcs & _ & _).
  apply bind_ok_inv in Eb as ([maxArea maxContour] & s8 & Hl & Eb).
  destruct maxContour as [mc|]; [|discriminate].
  destruct (Qlt_bool maxArea _) eqn:Hbig; [discriminate|].
  apply largestContour_inv in Hl as [Hl | [Hin Hca]]; [discriminate|].
  apply bind_ok_inv in Eb as (approx & s9 & _ & Eb).
  apply bind_ok_inv in Eb as (p & s10 & Hp & Eb).
  apply call_ok_inv in Hp as (Hp & _).
  apply bind_ok_inv in Eb as (approx' & s11 & Hpoly & Eb).
  apply into_ok_inv in Hpoly as (Hpoly & _ & _).
  destruct (Zlength (val approx') =? 4)%Z eqn:H4; [|discriminate].
  exists (val gray'), (val bin'), (val cont'), (val mc), maxArea, p, (val approx').
  repeat split; auto.
  - intros Hlt. apply Qlt_bool_iff in Hlt. unfold tenthOfFrame in Hlt. congruence.
  - apply Z.eqb_eq. exact H4.
Qed.
End FallbackFacts.

(** C7: [fallbackAlignment] always returns a result record.  When the
    conversion, the threshold, the contour extraction and the area
    measurements answer: if every external contour is smaller than a tenth
    of the frame (in particular if there is none, as on a blank image) the
    result is the no-outer-frame failure; if the largest contour reaches a
    tenth of the frame but its 2%-perimeter approximation does not have
    exactly four vertices, the result is the not-quadrilateral failure.
    Conversely a success means that some contour of at least a tenth of the
    frame was approximated by exactly four vertices. *)
Theorem fallbackAlignment_requires_large_quadrilateral
    (cv : OpenCV) (Math_atan2 : Q -> Q -> Q) (srcMat : Mat) (w : World) :
  exists r w',
    fallbackAlignment cv Math_atan2 srcMat w = (Ok r, w') /\
    settled r /\
    (forall g b cs areas,
        cvtColor cv (val srcMat) (COLOR_RGBA2GRAY cv) = Ok g ->
        threshold cv g 0 255 (THRESH_BINARY cv + THRESH_OTSU cv)%Z = Ok b ->
        findContours cv b (RETR_EXTERNAL cv) (CHAIN_APPROX_SIMPLE cv) = Ok cs ->
        Forall2 (fun c a => contourArea cv c = Ok a) cs areas ->
        (Forall (fun a => a < tenthOfFrame (val srcMat)) areas ->
         r = Alignment.mk false None (Some noFrameError)) /\
        (forall c a p poly,
            largestOf cs areas = (a, Some c) ->
            ~ a < tenthOfFrame (val srcMat) ->
            arcLength cv c true = Ok p ->
            approxPolyDP cv c ((2 # 100) * p) true = Ok poly ->
            Zlength poly <> 4%Z ->
            r = Alignment.mk false None (Some notQuadError))) /\
    (Alignment.success r = true ->
     exists g b cs c a p poly,
       cvtColor cv (val srcMat) (COLOR_RGBA2GRAY cv) = Ok g /\
       threshold cv g 0 255 (THRESH_BINARY cv + THRESH_OTSU cv)%Z = Ok b /\
       findContours cv b (RETR_EXTERNAL cv) (CHAIN_APPROX_SIMPLE cv) = Ok cs /\
       In c cs /\ contourArea cv c = Ok a /\
       ~ a < tenthOfFrame (val srcMat) /\
       arcLength cv c true = Ok p /\
       approxPolyDP cv c ((2 # 100) * p) true = Ok poly /\
       Zlength poly = 4%Z).
Proof.
  destruct (fallbackAlignment_returns cv Math_atan2 srcMat w) as (r & w' & E).
  exists r, w'. split; [exact E|].
  split; [exact (fallbackAlignment_settled cv Math_atan2 srcMat _ _ _ E)|].
  split.
  - intros g b cs areas Hg Hb Hcs Ha. split.
    + intros Hsmall.
      pose proof (fallbackAlignment_no_frame cv Math_atan2 srcMat w
                    g b cs areas Hg Hb Hcs Ha Hsmall) as H.
      rewrite E in H. simpl in H. congruence.
    + intros c a p poly Hl Hbig Hp Hpoly Hn.
      pose proof (fallbackAlignment_not_quad cv Math_atan2 srcMat w
                    g b cs areas c a p poly Hg Hb Hcs Ha Hl Hbig Hp Hpoly Hn) as H.
      rewrite E in H. simpl in H. congruence.
  - exact (fallbackAlignment_success_inv cv Math_atan2 srcMat w r w' E).
Qed.

(** The checks of [fallbackAlignment] on the scripted scenes: a blank sheet
    and a sheet with only a small mark have no outer frame, an L-shaped
    region is no quadrilateral, a framed sheet is aligned. *)
Example fallbackAlignment_on_scenes :
  fst (fallbackAlignment (Stub.cv Stub.blank) Stub.atan2 Stub.rgba Stub.holding)
    = Ok (Alignment.mk false None (Some noFrameError)) /\
  fst (fallbackAlignment (Stub.cv Stub.speck) Stub.atan2 Stub.rgba Stub.holding)
    = Ok (Alignment.mk false None (Some noFrameError)) /\
  fst (fallbackAlignment (Stub.cv Stub.lshape) Stub.atan2 Stub.rgba Stub.holding)
    = Ok (Alignment.mk false None (Some notQuadError)) /\
  fst (fallbackAlignment (Stub.cv Stub.sheet) Stub.atan2 Stub.rgba Stub.holding)
    = Ok (Alignment.mk true
            (Some (mkNative 10%nat (mkRaster 100 200 4 []))) None).
Proof. repeat split; vm_compute; reflexivity. Qed.

(** C10 (as stated, refuted): a 3-channel raster goes through
    [fallbackAlignment] when the library's conversion to gray accepts it. *)
Lemma fallbackAlignment_three_channels_succeeds :
  channels (val Stub.rgb) = 3%Z /\
  fst (fallbackAlignment (Stub.cv Stub.sheet) Stub.atan2 Stub.rgb Stub.holding)
    = Ok (Alignment.mk true
            (Some (mkNative 10%nat (mkRaster 100 200 3 []))) None).
Proof. split; vm_compute; reflexivity. Qed.

(** C10 (amended): [fallbackAlignment] converts with [COLOR_RGBA2GRAY]
    whatever the channel count of its input and checks nothing itself.
    Whenever the library rejects that conversion, the call returns
    [{success: false, alignedImage: null, error: the fault's message}]. *)
Theorem fallbackAlignment_fails_when_conversion_rejects
    (cv : OpenCV) (Math_atan2 : Q -> Q -> Q) (srcMat : Mat) (w : World) (e : Fault) :
  cvtColor cv (val srcMat) (COLOR_RGBA2GRAY cv) = Throw e ->
  exists w',
    fallbackAlignment cv Math_atan2 srcMat w
      = (Ok (Alignment.mk false None (Some (message e))), w').
Proof.
  intros H. unfold fallbackAlignment, tryCatch, newMat.
  destruct (alloc_run emptyRaster w) as (w1 & E1 & _).
  rewrite (bind_ok _ _ _ _ _ E1).
  unfold into at 1. rewrite bind_assoc. unfold call at 1. unfold bind at 1.
  rewrite H. eexists. reflexivity.
Qed.

Lemma fallbackAlignment_fails_when_conversion_rejects_witness :
  cvtColor (Stub.cv Stub.sheet) (val Stub.grayscale)
           (COLOR_RGBA2GRAY (Stub.cv Stub.sheet))
    = Throw (mkFault "cvtColor: the source must have 3 or 4 channels") /\
  exists w',
    fallbackAlignment (Stub.cv Stub.sheet) Stub.atan2 Stub.grayscale Stub.holding
      = (Ok (Alignment.mk false None
               (Some "cvtColor: the source must have 3 or 4 channels"%string)), w').
Proof.
  split; [reflexivity|].
  apply (fallbackAlignment_fails_when_conversion_rejects
           (Stub.cv Stub.sheet) Stub.atan2 Stub.grayscale Stub.holding
           (mkFault "cvtColor: the source must have 3 or 4 channels")).
  reflexivity.
Defined.

(** ** Preprocessing *)

Section PreprocessFacts.
Variable cv : OpenCV.

Lemma validContourCount_cons (a : Q) (areas : list Q) :
  validContourCount (a :: areas)
  = ((if Qlt_bool 10 a then 1 else 0) + validContourCount areas)%Z.
Proof.
  unfold validContourCount, Zlength. cbn [filter].
  destruct (Qlt_bool 10 a); cbn [List.length]; lia.
Qed.

Lemma countIfValid_run (c : Contour) (a : Q) (n : Z) (w : World) :
  contourArea cv c = Ok a ->
  exists w',
    countIfValid cv n c w = (Ok (n + validContourCount [a])%Z, w').
Proof.
  intros Hc. unfold countIfValid.
  destruct (alloc_run c w) as (w1 & E1 & K1 & N1 & L1).
  rewrite (bind_ok _ _ _ _ _ E1).
  unfold call at 1. unfold bind at 1. cbn [val]. rewrite Hc. cbv zeta.
  destruct (delete_run (mkNative (next w) c) w w1 K1) as (w2 & E2 & _);
    [simpl; lia | exact L1 |].
  rewrite (bind_ok _ _ _ _ _ E2).
  exists w2. unfold ret, validContourCount, Zlength, minContourArea. cbn [filter].
  destruct (Qlt_bool 10 a); cbn [List.length]; f_equal; f_equal; lia.
Qed.

Lemma countLoop_run (cs : list Contour) (areas : list Q) :
  Forall2 (fun c a => contourArea cv c = Ok a) cs areas ->
  forall (n : Z) (w : World),
  exists w',
    forEach cs (countIfValid cv) n w = (Ok (n + validContourCount areas)%Z, w').
Proof.
  induction 1 as [|c a cs areas Hc _ IH]; intros n w; simpl.
  - exists w. unfold ret, validContourCount, Zlength. simpl. rewrite Z.add_0_r. reflexivity.
  - destruct (countIfValid_run c a n w Hc) as (w1 & E1).
    rewrite (bind_ok _ _ _ _ _ E1).
    destruct (IH (n + validContourCount [a])%Z w1) as (w2 & E2).
    exists w2. rewrite E2. rewrite (validContourCount_cons a areas).
    unfold validContourCount at 1, Zlength. cbn [filter].
    destruct (Qlt_bool 10 a); cbn [List.length]; f_equal; f_equal; lia.
Qed.

Lemma countValidContours_run (cs : list Contour) (areas : list Q) (w : World) :
  Forall2 (fun c a => contourArea cv c = Ok a) cs areas ->
  exists w', countValidContours cv cs w = (Ok (validContourCount areas), w').
Proof.
  intros H. destruct (countLoop_run cs areas H 0%Z w) as (w' & E).
  exists w'. exact E.
Qed.

Lemma evaluateBinary_run (b : Mat) (s : Z) :
  scored cv (val b) s ->
  forall (v : SelectVars) (w : World),
  exists v' w',
    evaluateBinary cv tt b (v, w) = (Ok tt, (v', w')) /\
    (bestScore v', bestBinary v') = pickBest (bestScore v, bestBinary v) (b, s).
Proof.
  intros (cs & areas & Hcs & Ha & ->) v w.
  unfold evaluateBinary, tryCatch.
  destruct (alloc_run ([] : list Contour) w) as (w1 & E1 & _).
  rewrite (bind_ok _ _ _ _ _ (inWorld_run _ v _ _ _ E1)).
  unfold assign at 1. unfold bind at 1. cbn [fst snd].
  destruct (alloc_run emptyRaster w1) as (w2 & E2 & _). unfold newMat.
  rewrite (bind_ok _ _ _ _ _ (inWorld_run _ _ _ _ _ E2)).
  unfold assign at 1. unfold bind at 1. cbn [fst snd].
  cbn [bestBinary bestScore sel_contours sel_hierarchy].
  rewrite (bind_ok _ _ _ _ _ (inWorld_run _ _ _ _ _ (into_run _ _ _ w2 Hcs))).
  unfold assign at 1. unfold bind at 1. cbn [fst snd val hnd].
  cbn [bestBinary bestScore sel_contours sel_hierarchy].
  destruct (countValidContours_run cs areas w2 Ha) as (w3 & E3).
  rewrite (bind_ok _ _ _ _ _ (inWorld_run _ _ _ _ _ E3)).
  unfold locals at 1. unfold bind at 1. cbn [fst snd bestScore].
  unfold pickBest. cbn [fst snd].
  destruct (bestScore v <? validContourCount areas)%Z.
  - eexists; eexists. split; reflexivity.
  - eexists; eexists. split; reflexivity.
Qed.

Lemma selectLoop_run (bs : list Mat) (scores : list Z) :
  Forall2 (fun b s => scored cv (val b) s) bs scores ->
  forall (v : SelectVars) (w : World),
  exists v' w',
    forEach bs (evaluateBinary cv) tt (v, w) = (Ok tt, (v', w')) /\
    (bestScore v', bestBinary v')
      = fold_left pickBest (combine bs scores) (bestScore v, bestBinary v).
Proof.
  induction 1 as [|b s bs scores Hb _ IH]; intros v w; simpl.
  - eexists; eexists. split; reflexivity.
  - destruct (evaluateBinary_run b s Hb v w) as (v1 & w1 & E1 & F1).
    rewrite (bind_ok _ _ _ _ _ E1).
    destruct (IH v1 w1) as (v2 & w2 & E2 & F2).
    exists v2, w2. split; [exact E2|]. rewrite F2, F1. reflexivity.
Qed.

(** The fold keeps the first position of the largest score. *)
Lemma pickBest_fold (bs : list Mat) (scores : list Z) :
  List.length bs = List.length scores ->
  forall (s0 : Z) (o0 : option Mat),
  let r := fold_left pickBest (combine bs scores) (s0, o0) in
  (r = (s0, o0) /\ Forall (fun t => (t <= s0)%Z) scores) \/
  (exists i b,
      nth_error bs i = Some b /\ snd r = Some b /\
      nth_error scores i = Some (fst r) /\ (s0 < fst r)%Z /\
      (forall j t, nth_error scores j = Some t -> (t <= fst r)%Z) /\
      (forall j t, (j < i)%nat -> nth_error scores j = Some t -> (t < fst r)%Z)).
Proof.
  revert scores. induction bs as [|b bs IH]; intros [|s scores] Hlen s0 o0;
    try discriminate; cbv zeta; cbn [combine fold_left].
  - left. split; [reflexivity | constructor].
  - injection Hlen as Hlen.
    change (pickBest (s0, o0) (b, s))
      with (if (s0 <? s)%Z then (s, Some b) else (s0, o0)).
    destruct (s0 <? s)%Z eqn:Es.
    + apply Z.ltb_lt in Es.
      destruct (IH scores Hlen s (Some b)) as [[E F] | (i & b' & Hb & Hr & Hs & Hlt & Hmax & Hfirst)];
        cbv zeta in *.
      * right. exists 0%nat, b. rewrite E. cbn [fst snd nth_error].
        repeat split; auto.
        -- intros [|j] t Hj; simpl in Hj.
           ++ injection Hj as <-. lia.
           ++ rewrite Forall_forall in F. apply F. eapply nth_error_In; eauto.
        -- intros j t Hj. lia.
      * right. exists (S i), b'. cbn [nth_error].
        repeat split; auto; try lia.
        -- intros [|j] t Hj; simpl in Hj.
           ++ injection Hj as <-. lia.
           ++ eapply Hmax; eauto.
        -- intros [|j] t Hji Hj; simpl in Hj.
           ++ injection Hj as <-. lia.
           ++ eapply Hfirst; [|eauto]. lia.
    + apply Z.ltb_ge in Es.
      destruct (IH scores Hlen s0 o0) as [[E F] | (i & b' & Hb & Hr & Hs & Hlt & Hmax & Hfirst)];
        cbv zeta in *.
      * left. split; [exact E|]. constructor; assumption.
      * right. exists (S i), b'. cbn [nth_error].
        repeat split; auto.
        -- intros [|j] t Hj; simpl in Hj.
           ++ injection Hj as <-. lia.
           ++ eapply Hmax; eauto.
        -- intros [|j] t Hji Hj; simpl in Hj.
           ++ injection Hj as <-. lia.
           ++ eapply Hfirst; [|eauto]. lia.
Qed.

Lemma validContourCount_nonneg (areas : list Q) : (0 <= validContourCount areas)%Z.
Proof. unfold validContourCount, Zlength. lia. Qed.

Lemma selectBestBinary_run (bs : list Mat) (scores : list Z) (gray : Mat) (w : World) :
  bs <> [] ->
  Forall2 (fun b s => scored cv (val b) s) bs scores ->
  exists i b m w',
    selectBestBinary cv bs gray w = (Ok m, w') /\
    nth_error bs i = Some b /\ val m = val b /\ firstMaximum scores i.
Proof.
  intros Hne H.
  destruct (selectLoop_run bs scores H (mkSelectVars None (-1) None None) w)
    as (v' & w1 & E1 & F1).
  cbn [bestScore bestBinary] in F1.
  destruct (pickBest_fold bs scores (Forall2_length H) (-1)%Z None)
    as [[E F] | (i & b & Hb & Hr & Hs & Hlt & Hmax & Hfirst)]; cbv zeta in *.
  - exfalso. clear E1 F1 E.
    destruct H as [|b s bs scores Hb _]; [apply Hne; reflexivity|].
    inversion F as [|? ? Hle _]; subst.
    destruct Hb as (cs & areas & _ & _ & Hs).
    pose proof (validContourCount_nonneg areas). lia.
  - rewrite <- F1 in Hr, Hs, Hmax, Hfirst. cbn [fst snd] in *.
    destruct (alloc_run (val b) w1) as (w2 & E2 & _).
    assert (Eb : selectBestBinary_try cv bs (mkSelectVars None (-1) None None, w)
                 = (Ok (mkNative (next w1) (val b)), (v', w2))).
    { unfold selectBestBinary_try.
      rewrite (bind_ok _ _ _ _ _ E1). unfold locals at 1. unfold bind at 1.
      cbn [fst]. rewrite Hr. apply inWorld_run. exact E2. }
    assert (Ef : exists s3, selectBestBinary_finally (v', w2) = (Ok tt, s3))
      by (unfold selectBestBinary_finally; apply tryCatch_swallow).
    destruct Ef as ([v3 w3] & E3).
    exists i, b, (mkNative (next w1) (val b)), w3.
    split.
    + unfold selectBestBinary, block.
      rewrite (tryFinally_run _ _ _ _ _ _ Eb E3). reflexivity.
    + split; [exact Hb|]. split; [reflexivity|].
      exists (bestScore v'). auto.
Qed.

Lemma convertToGray_run (srcMat gray : Mat) (g : Raster) (v : PreVars) (w : World) :
  grayOf cv (val srcMat) = Ok g ->
  exists gh v' w',
    convertToGray cv srcMat gray (v, w) = (Ok (mkNative gh g), (v', w')) /\
    pre_binaryResults v' = pre_binaryResults v /\ pre_binary v' = pre_binary v.
Proof.
  unfold grayOf, convertToGray. intros Hg.
  destruct (channels (val srcMat) =? 3)%Z; [|destruct (channels (val srcMat) =? 4)%Z].
  - rewrite (bind_ok _ _ _ _ _ (inWorld_run _ _ _ _ _ (into_run _ _ _ w Hg))).
    eexists; eexists; eexists. split; [reflexivity|]. split; reflexivity.
  - rewrite (bind_ok _ _ _ _ _ (inWorld_run _ _ _ _ _ (into_run _ _ _ w Hg))).
    eexists; eexists; eexists. split; [reflexivity|]. split; reflexivity.
  - injection Hg as <-.
    eexists; eexists; eexists. split; [reflexivity|]. split; reflexivity.
Qed.

Lemma preprocessImage_try_run (srcMat : Mat) (w : World) g b1 b2 b3 s1 s2 s3 :
  rows (val srcMat) <> 0%Z -> cols (val srcMat) <> 0%Z ->
  grayOf cv (val srcMat) = Ok g ->
  threshold cv g 0 255 (THRESH_BINARY cv + THRESH_OTSU cv)%Z = Ok b1 ->
  adaptiveThreshold cv g 255 (ADAPTIVE_THRESH_GAUSSIAN_C cv) (THRESH_BINARY cv) 11 2 = Ok b2 ->
  threshold cv g 128 255 (THRESH_BINARY cv) = Ok b3 ->
  scored cv b1 s1 -> scored cv b2 s2 -> scored cv b3 s3 ->
  exists i m v' w',
    preprocessImage_try cv srcMat (mkPreVars None None [], w) = (Ok m, (v', w')) /\
    nth_error [b1; b2; b3] i = Some (val m) /\
    firstMaximum [s1; s2; s3] i.
Proof.
  intros Hr Hc Hg H1 H2 H3 S1 S2 S3.
  unfold preprocessImage_try.
  apply Z.eqb_neq in Hr, Hc. rewrite Hr, Hc. cbn [orb].
  unfold ret at 1. unfold bind at 1.
  destruct (alloc_run emptyRaster w) as (w1 & E1 & _). unfold newMat.
  rewrite (bind_ok _ _ _ _ _ (inWorld_run _ _ _ _ _ E1)).
  unfold setGray at 1, assign at 1. unfold bind at 1. cbn [fst snd].
  match goal with |- context [bind (convertToGray cv srcMat ?gr) _ (?v0, ?w0)] =>
    destruct (convertToGray_run srcMat gr g v0 w0 Hg) as (gh & v2 & w2 & E2 & R2 & B2) end.
  rewrite (bind_ok _ _ _ _ _ E2).
  cbn [pre_binaryResults pre_binary] in R2, B2. destruct v2 as [g2 bin2 res2].
  cbn [pre_binaryResults pre_binary] in R2, B2. subst bin2 res2.
  destruct (alloc_run emptyRaster w2) as (w3 & E3 & _).
  rewrite (bind_ok _ _ _ _ _ (inWorld_run _ _ _ _ _ E3)).
  cbn [val].
  rewrite (bind_ok _ _ _ _ _ (inWorld_run _ _ _ _ _ (into_run _ _ _ w3 H1))).
  unfold pushBinary at 1, assign at 1. unfold bind at 1. cbn [fst snd hnd].
  cbn [pre_gray pre_binary pre_binaryResults app].
  destruct (alloc_run emptyRaster w3) as (w4 & E4 & _).
  rewrite (bind_ok _ _ _ _ _ (inWorld_run _ _ _ _ _ E4)).
  rewrite (bind_ok _ _ _ _ _ (inWorld_run _ _ _ _ _ (into_run _ _ _ w4 H2))).
  unfold pushBinary at 1, assign at 1. unfold bind at 1. cbn [fst snd hnd].
  cbn [pre_gray pre_binary pre_binaryResults app].
  destruct (alloc_run emptyRaster w4) as (w5 & E5 & _).
  rewrite (bind_ok _ _ _ _ _ (inWorld_run _ _ _ _ _ E5)).
  rewrite (bind_ok _ _ _ _ _ (inWorld_run _ _ _ _ _ (into_run _ _ _ w5 H3))).
  unfold pushBinary at 1, assign at 1. unfold bind at 1. cbn [fst snd hnd].
  cbn [pre_gray pre_binary pre_binaryResults app].
  unfold locals at 1. unfold bind at 1. cbn [fst pre_binaryResults].
  match goal with |- context [selectBestBinary cv ?bs ?gr] =>
    destruct (selectBestBinary_run bs [s1; s2; s3] gr w5) as (i & b & m & w6 & E6 & Hb & Hv & Hmax);
      [discriminate | repeat constructor; assumption |]
  end.
  rewrite (bind_ok _ _ _ _ _ (inWorld_run _ _ _ _ _ E6)).
  exists i, m. eexists; eexists. split; [reflexivity|]. split; [|exact Hmax].
  rewrite Hv. clear - Hb.
  destruct i as [|[|[|i]]]; cbn [nth_error] in *;
    try (injection Hb as <-; reflexivity).
  destruct i; discriminate.
Qed.

End PreprocessFacts.

(** C5: on an input of non-zero size whose conversion to gray and three
    binarizations answer and can be scored, [preprocessImage] returns (a
    copy of) one of the candidates OTSU, Gaussian adaptive (11, 2), fixed
    128, in that order, namely the one at the first position where the count
    of external contours of area above 10 is largest. *)
Theorem preprocessImage_selects_first_best_binarization
    (cv : OpenCV) (srcMat : Mat) (w : World)
    (g b1 b2 b3 : Raster) (s1 s2 s3 : Z) :
  rows (val srcMat) <> 0%Z -> cols (val srcMat) <> 0%Z ->
  grayOf cv (val srcMat) = Ok g ->
  threshold cv g 0 255 (THRESH_BINARY cv + THRESH_OTSU cv)%Z = Ok b1 ->
  adaptiveThreshold cv g 255 (ADAPTIVE_THRESH_GAUSSIAN_C cv) (THRESH_BINARY cv) 11 2
    = Ok b2 ->
  threshold cv g 128 255 (THRESH_BINARY cv) = Ok b3 ->
  scored cv b1 s1 -> scored cv b2 s2 -> scored cv b3 s3 ->
  exists i m w',
    preprocessImage cv srcMat w = (Ok m, w') /\
    nth_error [b1; b2; b3] i = Some (val m) /\
    firstMaximum [s1; s2; s3] i.
Proof.
  intros Hr Hc Hg H1 H2 H3 S1 S2 S3.
  destruct (preprocessImage_try_run cv srcMat w g b1 b2 b3 s1 s2 s3
              Hr Hc Hg H1 H2 H3 S1 S2 S3) as (i & m & v1 & w1 & E & Hn & Hm).
  assert (Ef : exists st, preprocessImage_finally (v1, w1) = (Ok tt, st))
    by (unfold preprocessImage_finally; apply tryCatch_swallow).
  destruct Ef as ([v2 w2] & E2).
  exists i, m, w2. split; [|split; assumption].
  assert (Et : tryCatch (preprocessImage_try cv srcMat) (fun error => throw error)
                 (mkPreVars None None [], w) = (Ok m, (v1, w1)))
    by (unfold tryCatch; rewrite E; reflexivity).
  unfold preprocessImage, block.
  rewrite (tryFinally_run _ _ _ _ _ _ Et E2). reflexivity.
Qed.

Lemma preprocessImage_selects_first_best_binarization_witness :
  exists i m w',
    preprocessImage (Stub.cv Stub.disagreeing) Stub.rgba Stub.holding = (Ok m, w') /\
    nth_error [mkRaster 100 200 1 Stub.otsuTag;
               mkRaster 100 200 1 Stub.adaptiveTag;
               mkRaster 100 200 1 Stub.fixedTag] i = Some (val m) /\
    firstMaximum [2; 5; 3]%Z i.
Proof.
  apply (preprocessImage_selects_first_best_binarization
           (Stub.cv Stub.disagreeing) Stub.rgba Stub.holding
           (mkRaster 100 200 1 [])).
  - simpl. lia.
  - simpl. lia.
  - reflexivity.
  - reflexivity.
  - reflexivity.
  - reflexivity.
  - exists (Stub.marks 2), (map Stub.shoelace (Stub.marks 2)).
    split; [reflexivity|]. split; [repeat constructor | reflexivity].
  - exists (Stub.marks 5), (map Stub.shoelace (Stub.marks 5)).
    split; [reflexivity|]. split; [repeat constructor | reflexivity].
  - exists (Stub.marks 3), (map Stub.shoelace (Stub.marks 3)).
    split; [reflexivity|]. split; [repeat constructor | reflexivity].
Defined.

(** Counts 2, 5 and 3: the second candidate, the adaptive one, is returned. *)
Example preprocessImage_counts_2_5_3 :
  fst (preprocessImage (Stub.cv Stub.disagreeing) Stub.rgba Stub.holding)
    = Ok (mkNative 21%nat (mkRaster 100 200 1 Stub.adaptiveTag)) /\
  firstMaximum [2; 5; 3]%Z 1.
Proof.
  split; [vm_compute; reflexivity|].
  exists 5%Z. split; [reflexivity|]. split.
  - intros [|[|[|[|j]]]] t Hj; simpl in Hj; try discriminate;
      injection Hj as <-; lia.
  - intros [|j] t Hlt Hj; [|lia]. simpl in Hj. injection Hj as <-. lia.
Qed.

(** ** Initialization *)

Lemma tryCatch_ok_inv {S A} (c : @Prog S A) (h : Fault -> @Prog S A) s a s' :
  tryCatch c h s = (Ok a, s') ->
  c s = (Ok a, s') \/ exists e s1, c s = (Throw e, s1) /\ h e s1 = (Ok a, s').
Proof.
  unfold tryCatch. destruct (c s) as [[a1|e] s1]; intros E; eauto.
Qed.

Lemma rethrow_ok_inv {A} (prefix : string) (c : M A) w a w' :
  rethrow prefix c w = (Ok a, w') -> c w = (Ok a, w').
Proof.
  unfold rethrow. intros E. apply tryCatch_ok_inv in E as [E | (e & s1 & _ & E)];
    [exact E | discriminate].
Qed.

Lemma delete_self {A} (o : Native A) (w : World) r w' :
  delete o w = (r, w') -> self w' = self w.
Proof.
  unfold delete. destruct (isLive (hnd o) w); intros E; inversion E; reflexivity.
Qed.

Section InitializationFacts.
Variable cv : OpenCV.

Lemma guard_ok_inv (b : bool) (e : Fault) (w : World) u w' :
  (if b then throw e else ret tt) w = (Ok u, w') -> b = false /\ w' = w.
Proof. destruct b; intros E; inversion E; auto. Qed.

Lemma initializeWithTemplate_try_ok (el : Element) (w : World) b w' :
  initializeWithTemplate_try cv el w = (Ok b, w') ->
  b = true /\ isInitialized (self w') = true /\
  exists bin w1 w2 r,
    findLinesAndPoints cv bin w1 = (Ok r, w2) /\
    needsFallback r = false /\
    templatePoints (self w') = Detection.points r.
Proof.
  unfold initializeWithTemplate_try. intros E.
  apply bind_ok_inv in E as (? & s1 & _ & E).
  apply bind_ok_inv in E as (? & s2 & _ & E).
  apply bind_ok_inv in E as (? & s3 & _ & E).
  apply bind_ok_inv in E as (? & s4 & _ & E).
  apply bind_ok_inv in E as (? & s5 & _ & E).
  apply bind_ok_inv in E as (templateMat & s6 & _ & E).
  apply bind_ok_inv in E as (binaryTemplate & s7 & _ & E).
  apply bind_ok_inv in E as (r & s8 & Hd & E).
  apply rethrow_ok_inv in Hd.
  apply bind_ok_inv in E as (? & s9 & Hp & E).
  apply bind_ok_inv in E as (? & s10 & D1 & E).
  apply bind_ok_inv in E as (? & s11 & D2 & E).
  apply bind_ok_inv in E as (? & s12 & Hi & E).
  inversion E; subst. clear E.
  apply delete_self in D1, D2.
  unfold setInitialized, setThis in Hi. inversion Hi; subst. clear Hi.
  cbn [self isInitialized templatePoints].
  split; [reflexivity|]. split; [reflexivity|].
  exists binaryTemplate, s7, s8, r. split; [exact Hd|].
  destruct (needsFallback r).
  - unfold getFallbackPoints, bind, throw in Hp. discriminate.
  - split; [reflexivity|].
    unfold setTemplatePoints, setThis in Hp. inversion Hp; subst. clear Hp.
    rewrite D2, D1. reflexivity.
Qed.

Lemma initializeWithTemplate_run (el : Element) (w : World) :
  exists b w',
    initializeWithTemplate cv el w = (Ok b, w') /\
    isInitialized (self w') = b /\
    (b = true ->
     exists bin w1 w2 r,
       findLinesAndPoints cv bin w1 = (Ok r, w2) /\
       Detection.success r = true /\
       (4 <= Zlength (Detection.points r))%Z /\
       templatePoints (self w') = Detection.points r).
Proof.
  unfold initializeWithTemplate, tryCatch.
  destruct (initializeWithTemplate_try cv el w) as [[b|e] w1] eqn:Eb.
  - apply initializeWithTemplate_try_ok in Eb as (-> & Hi & bin & u1 & u2 & r & Hd & Hn & Hp).
    exists true, w1. split; [reflexivity|]. split; [exact Hi|]. intros _.
    exists bin, u1, u2, r. split; [exact Hd|].
    unfold needsFallback in Hn. apply orb_false_iff in Hn as [Hs Hl].
    apply negb_false_iff in Hs. apply Z.ltb_ge in Hl. auto.
  - eexists; eexists. split; [reflexivity|]. split; [reflexivity|]. discriminate.
Qed.
End InitializationFacts.

(** C1 (the code does otherwise): on a blank template feature detection
    yields no point, the call to the missing [getFallbackPoints] throws, and
    [initializeWithTemplate] returns [false] with no template point stored
    and the aligner not ready.  In general a [true] return only ever stores
    the points of a successful detection with at least four points: the
    four-corner fallback never completes. *)
Theorem initializeWithTemplate_corner_fallback_never_completes :
  candidatePoints (Stub.cv Stub.blank) (mkRaster 100 200 1 Stub.otsuTag) = Ok [] /\
  initializeWithTemplate (Stub.cv Stub.blank) Stub.page Stub.fresh
    = (Ok false,
       mkWorld (mkAligner None [] (mkSize 200 100) false)
               [11; 8; 7; 6; 5; 0]%nat 15%nat) /\
  forall (cv : OpenCV) (el : Element) (w : World),
  exists b w',
    initializeWithTemplate cv el w = (Ok b, w') /\
    isInitialized (self w') = b /\
    (b = true ->
     exists bin w1 w2 r,
       findLinesAndPoints cv bin w1 = (Ok r, w2) /\
       Detection.success r = true /\
       (4 <= Zlength (Detection.points r))%Z /\
       templatePoints (self w') = Detection.points r).
Proof.
  split; [vm_compute; reflexivity|].
  split; [vm_compute; reflexivity|].
  intros cv el w. apply initializeWithTemplate_run.
Qed.

(** ** Release of native objects *)

Section ReleaseFacts.
Variable cv : OpenCV.
Variable Math_atan2 : Q -> Q -> Q.

Lemma grown_S (w : World) (k : nat) :
  grown (mkWorld (self w) (next w :: live w) (S (next w))) k = grown w (S k).
Proof.
  unfold grown. cbn [self live next]. f_equal.
  - rewrite <- cons_seq. cbn [rev]. rewrite <- app_assoc. reflexivity.
  - lia.
Qed.

Lemma largestContour_grows (cs : list Contour) (areas : list Q) :
  Forall2 (fun c a => contourArea cv c = Ok a) cs areas ->
  forall (best : Q * option (Native Contour)) (w : World),
  exists best',
    forEach cs (keepLarger cv) best w = (Ok best', grown w (List.length cs)) /\
    stripped best' = fold_left pickLarger (combine cs areas) (stripped best).
Proof.
  induction 1 as [|c a cs areas Hc _ IH]; intros [maxArea maxContour] w.
  - exists (maxArea, maxContour). split; [|reflexivity].
    unfold grown. cbn. rewrite Nat.add_0_r. destruct w; reflexivity.
  - cbn [forEach List.length combine fold_left].
    assert (E1 : keepLarger cv (maxArea, maxContour) c w
                 = (Ok (if Qlt_bool maxArea a then (a, Some (mkNative (next w) c))
                        else (maxArea, maxContour)),
                    mkWorld (self w) (next w :: live w) (S (next w)))).
    { unfold keepLarger, bind, alloc, call, ret. cbn [val]. rewrite Hc.
      destruct (Qlt_bool maxArea a); reflexivity. }
    rewrite (bind_ok _ _ _ _ _ E1).
    match goal with |- context [forEach cs _ ?b ?w1] =>
      destruct (IH b w1) as (best' & E2 & F2) end.
    exists best'. rewrite E2, grown_S. split; [reflexivity|].
    rewrite F2. f_equal. unfold pickLarger, stripped. cbn [fst snd].
    destruct (Qlt_bool maxArea a); reflexivity.
Qed.

(** When [fallbackAlignment] leaves by its no-outer-frame exception, nothing
    it allocated has been released: gray, binary, contours, hierarchy and
    one wrapper per contour are all still allocated. *)
Lemma fallbackAlignment_no_frame_keeps_everything
    (srcMat : Mat) (w : World) g b cs areas :
  cvtColor cv (val srcMat) (COLOR_RGBA2GRAY cv) = Ok g ->
  threshold cv g 0 255 (THRESH_BINARY cv + THRESH_OTSU cv)%Z = Ok b ->
  findContours cv b (RETR_EXTERNAL cv) (CHAIN_APPROX_SIMPLE cv) = Ok cs ->
  Forall2 (fun c a => contourArea cv c = Ok a) cs areas ->
  Forall (fun a => a < tenthOfFrame (val srcMat)) areas ->
  fallbackAlignment cv Math_atan2 srcMat w
    = (Ok (Alignment.mk false None (Some noFrameError)),
       grown w (4 + List.length cs)).
Proof.
  intros Hg Hb Hcs Ha Hsmall.
  unfold fallbackAlignment, tryCatch, newMat.
  unfold alloc at 1. unfold bind at 1.
  rewrite (bind_ok _ _ _ _ _ (into_run _ _ _ _ Hg)).
  unfold alloc at 1. unfold bind at 1.
  rewrite (bind_ok _ _ _ _ _ (into_run _ _ _ _ Hb)).
  unfold alloc at 1. unfold bind at 1.
  unfold alloc at 1. unfold bind at 1.
  rewrite (bind_ok _ _ _ _ _ (into_run _ _ _ _ Hcs)).
  unfold largestContour. cbn [val self live next].
  match goal with |- context [bind (forEach cs _ ?b0) _ ?w4] =>
    destruct (largestContour_grows cs areas Ha b0 w4) as ([maxArea maxContour] & E5 & F5)
  end.
  rewrite (bind_ok _ _ _ _ _ E5).
  assert (Hs : Forall (fun ca : Contour * Q => snd ca < tenthOfFrame (val srcMat))
                      (combine cs areas)).
  { clear - Ha Hsmall. induction Ha; simpl; [constructor|].
    inversion Hsmall; subst. constructor; auto. }
  pose proof (pickLarger_small _ _ Hs (0, None) (or_introl eq_refl)) as Hr.
  cbv zeta in Hr. change (stripped (0, None)) with ((0, None) : Q * option Contour) in F5.
  rewrite <- F5 in Hr. unfold stripped in Hr. simpl in Hr.
  assert (Ew : forall k w0, grown (mkWorld (self w0) (S (S (S (next w0))) :: S (S (next w0)) :: S (next w0) :: next w0 :: live w0) (S (S (S (S (next w0)))))) k = grown w0 (4 + k)).
  { intros k w0. change (4 + k)%nat with (S (S (S (S k)))).
    rewrite <- !grown_S. reflexivity. }
  rewrite <- (Ew (List.length cs) w).
  destruct maxContour as [mc|]; [|reflexivity].
  destruct Hr as [Hr|Hr]; [discriminate|].
  apply Qlt_bool_iff in Hr. unfold tenthOfFrame in Hr. rewrite Hr. reflexivity.
Qed.

End ReleaseFacts.

Lemma fallbackAlignment_no_frame_keeps_everything_witness :
  fallbackAlignment (Stub.cv Stub.speck) Stub.atan2 Stub.rgba Stub.holding
    = (Ok (Alignment.mk false None (Some noFrameError)), grown Stub.holding 5).
Proof.
  apply (fallbackAlignment_no_frame_keeps_everything
           (Stub.cv Stub.speck) Stub.atan2 Stub.rgba Stub.holding
           (mkRaster 100 200 1 []) (mkRaster 100 200 1 Stub.otsuTag)
           [Stub.rect 5 5 20 20] [Stub.shoelace (Stub.rect 5 5 20 20)]).
  - reflexivity.
  - reflexivity.
  - reflexivity.
  - repeat constructor.
  - repeat constructor.
Defined.

(** C3 (the code does otherwise): native objects that stay allocated after
    the call returns.  [fallbackAlignment] leaving by its no-outer-frame
    exception keeps gray, binary, contours and hierarchy (1 to 4; 0 is the
    caller's image).  A successful primary [alignUserImage] returns image 23
    and keeps the two point matrices (20, 21) and the contour sets and
    hierarchies of the first two scoring rounds (5, 6, 8, 9).  The early
    return through the fallback also keeps the source image (0), its
    binarization (14) and the segment matrix of the failed detection (15).  A successful [initializeWithTemplate] keeps 5, 6, 8
    and 9 as well. *)
Theorem native_intermediates_stay_allocated :
  fallbackAlignment (Stub.cv Stub.blank) Stub.atan2 Stub.rgba Stub.holding
    = (Ok (Alignment.mk false None (Some noFrameError)),
       mkWorld (self Stub.ready) [4; 3; 2; 1; 0]%nat 5%nat) /\
  (fst (alignUserImage (Stub.cv Stub.sheet) Stub.atan2 Stub.page Stub.ready)
     = Ok (Alignment.mk true (Some (mkNative 23%nat (mkRaster 100 200 4 []))) None) /\
   live (snd (alignUserImage (Stub.cv Stub.sheet) Stub.atan2 Stub.page Stub.ready))
     = [23; 21; 20; 9; 8; 6; 5]%nat) /\
  (fst (alignUserImage (Stub.cv Stub.framed) Stub.atan2 Stub.page Stub.ready)
     = Ok (Alignment.mk true (Some (mkNative 25%nat (mkRaster 100 200 4 []))) None) /\
   live (snd (alignUserImage (Stub.cv Stub.framed) Stub.atan2 Stub.page Stub.ready))
     = [25; 23; 22; 20; 15; 14; 9; 8; 6; 5; 0]%nat) /\
  (fst (initializeWithTemplate (Stub.cv Stub.sheet) Stub.page Stub.fresh) = Ok true /\
   live (snd (initializeWithTemplate (Stub.cv Stub.sheet) Stub.page Stub.fresh))
     = [9; 8; 6; 5]%nat).
Proof. repeat split; vm_compute; reflexivity. Qed.

(** ** The perspective transform *)

Section TransformFacts.
Variable cv : OpenCV.

Lemma createCVPointMatrix_first_four (ps : list Point) (w : World) :
  (4 <= List.length ps)%nat ->
  createCVPointMatrix ps w
    = (Ok (mkNative (next w) (coordinates (firstn 4 ps))), grown w 1).
Proof.
  intros H.
  destruct ps as [|p0 [|p1 [|p2 [|p3 rest]]]]; cbn [List.length] in H; try lia.
  unfold createCVPointMatrix, bind, alloc, ret, grown. cbn.
  rewrite Nat.add_1_r. reflexivity.
Qed.

(** [calculatePerspectiveTransform] hands the library the coordinates of
    the first four points of each list, in order, and returns its answer;
    the two point matrices it creates are not released. *)
Lemma calculatePerspectiveTransform_uses_first_four
    (srcPoints dstPoints : list Point) (w : World) :
  (4 <= List.length srcPoints)%nat -> (4 <= List.length dstPoints)%nat ->
  calculatePerspectiveTransform cv srcPoints dstPoints w
    = match getPerspectiveTransform cv (coordinates (firstn 4 srcPoints))
                                    (coordinates (firstn 4 dstPoints)) with
      | Ok h => (Ok (mkNative (2 + next w)%nat h), grown w 3)
      | Throw e => (Throw e, grown w 2)
      end.
Proof.
  intros Hs Hd. unfold calculatePerspectiveTransform.
  rewrite (bind_ok _ _ _ _ _ (createCVPointMatrix_first_four srcPoints w Hs)).
  rewrite (bind_ok _ _ _ _ _ (createCVPointMatrix_first_four dstPoints _ Hd)).
  cbn [val]. unfold call at 1. unfold bind at 1.
  destruct (getPerspectiveTransform cv _ _) as [h|e].
  - unfold alloc, grown. cbn. rewrite !Nat.add_1_r.
    replace (next w + 3)%nat with (S (S (S (next w)))) by lia. reflexivity.
  - unfold grown. cbn. rewrite !Nat.add_1_r.
    replace (next w + 2)%nat with (S (S (next w))) by lia. reflexivity.
Qed.
End TransformFacts.

Lemma calculatePerspectiveTransform_uses_first_four_witness :
  calculatePerspectiveTransform (Stub.cv Stub.sheet) Stub.unitSquare Stub.unitSquare
                                Stub.fresh
    = match getPerspectiveTransform (Stub.cv Stub.sheet)
              (coordinates (firstn 4 Stub.unitSquare))
              (coordinates (firstn 4 Stub.unitSquare)) with
      | Ok h => (Ok (mkNative (2 + next Stub.fresh)%nat h), grown Stub.fresh 3)
      | Throw e => (Throw e, grown Stub.fresh 2)
      end.
Proof.
  apply (calculatePerspectiveTransform_uses_first_four
           (Stub.cv Stub.sheet) Stub.unitSquare Stub.unitSquare Stub.fresh).
  - simpl. lia.
  - simpl. lia.
Defined.

(** * Further properties *)

(** ** Corner ordering *)

Section SortFacts.
Variable Math_atan2 : Q -> Q -> Q.

Lemma insertByAngle_perm (center a : Point) (l : list Point) :
  Permutation (a :: l) (insertByAngle Math_atan2 center a l).
Proof.
  induction l as [|b l IH]; simpl; [reflexivity|].
  destruct (Qle_bool _ 0); [reflexivity|].
  rewrite perm_swap. constructor. exact IH.
Qed.

Lemma angle_test (center a b : Point) :
  Qle_bool (angleAround Math_atan2 center a - angleAround Math_atan2 center b) 0 = true
  <-> angleLe Math_atan2 center a b.
Proof.
  unfold angleLe. rewrite Qle_bool_iff. split; intros H.
  - apply Qle_minus_iff in H. apply Qle_minus_iff.
    setoid_replace (angleAround Math_atan2 center b + - angleAround Math_atan2 center a)
      with (0 + - (angleAround Math_atan2 center a - angleAround Math_atan2 center b)) by ring.
    exact H.
  - apply Qle_minus_iff in H. apply Qle_minus_iff.
    setoid_replace (0 + - (angleAround Math_atan2 center a - angleAround Math_atan2 center b))
      with (angleAround Math_atan2 center b + - angleAround Math_atan2 center a) by ring.
    exact H.
Qed.

Lemma insertByAngle_sorted (center a : Point) (l : list Point) :
  Sorted (angleLe Math_atan2 center) l ->
  Sorted (angleLe Math_atan2 center) (insertByAngle Math_atan2 center a l).
Proof.
  induction 1 as [|b l Hs IH Hd]; simpl.
  - repeat constructor.
  - destruct (Qle_bool _ 0) eqn:E.
    + apply angle_test in E. repeat constructor; assumption.
    + constructor; [exact IH|].
      assert (Hba : angleLe Math_atan2 center b a).
      { unfold angleLe. apply Qlt_le_weak. apply Qnot_le_lt. intros H.
        apply angle_test in H. congruence. }
      clear E. destruct l as [|c l]; simpl.
      * repeat constructor. exact Hba.
      * destruct (Qle_bool (angleAround Math_atan2 center a
                            - angleAround Math_atan2 center c) 0);
          constructor; [exact Hba|].
        inversion Hd. assumption.
Qed.
End SortFacts.

Lemma sortCorners_sorts (Math_atan2 : Q -> Q -> Q) (corners : list Point) :
  Permutation corners (sortCorners Math_atan2 corners) /\
  Sorted (angleLe Math_atan2 (centroid corners)) (sortCorners Math_atan2 corners).
Proof.
  unfold sortCorners. fold (centroid corners).
  generalize (centroid corners) as center. intros center.
  induction corners as [|a l [IHp IHs]]; simpl.
  - split; constructor.
  - split.
    + rewrite <- insertByAngle_perm. constructor. exact IHp.
    + apply insertByAngle_sorted. exact IHs.
Qed.


(** ** More on deduplication *)

Lemma dedup_separated (t : Q) (pts kept : list Point) :
  Separated t kept ->
  Separated t (fold_left (removeDuplicatePoints_step t) pts kept).
Proof.
  revert kept. induction pts as [|p pts IH]; intros kept Hs; simpl; [exact Hs|].
  apply IH. destruct (step_spec t kept p) as [[Hn E]|[Hn E]]; rewrite E.
  - exact Hs.
  - constructor; assumption.
Qed.

Lemma dedup_of_separated (t : Q) (l : list Point) :
  Separated t l -> removeDuplicatePoints l t = l.
Proof.
  unfold removeDuplicatePoints. induction 1 as [|l p Hs IH Hn]; [reflexivity|].
  rewrite fold_left_app, IH. simpl.
  unfold removeDuplicatePoints_step. rewrite Hn. reflexivity.
Qed.

(** Deduplicating twice changes nothing more, whatever the threshold. *)
Theorem removeDuplicatePoints_idempotent (points : list Point) (threshold : Q) :
  removeDuplicatePoints (removeDuplicatePoints points threshold) threshold
  = removeDuplicatePoints points threshold.
Proof.
  apply dedup_of_separated. unfold removeDuplicatePoints.
  apply dedup_separated. constructor.
Qed.

Lemma isNear_nonpositive (t : Q) (p u : Point) : t <= 0 -> isNear t p u = false.
Proof.
  intros Ht. destruct (isNear t p u) eqn:E; [|reflexivity].
  apply isNear_iff in E as [E _]. exfalso.
  pose proof (Qabs_nonneg (x u - x p)) as H.
  apply (Qlt_irrefl 0). eapply Qle_lt_trans; [exact H|].
  eapply Qlt_le_trans; [exact E | exact Ht].
Qed.

(** With a threshold of zero or less no point is ever a duplicate: the
    input comes back unchanged, exact repetitions included. *)
Theorem removeDuplicatePoints_nonpositive_threshold
    (points : list Point) (threshold : Q) :
  threshold <= 0 -> removeDuplicatePoints points threshold = points.
Proof.
  intros Ht. unfold removeDuplicatePoints.
  assert (G : forall kept, fold_left (removeDuplicatePoints_step threshold) points kept
                           = kept ++ points).
  { induction points as [|p pts IH]; intros kept; simpl.
    - rewrite app_nil_r. reflexivity.
    - unfold removeDuplicatePoints_step at 2.
      replace (existsb (isNear threshold p) kept) with false.
      + simpl. rewrite IH, <- app_assoc. reflexivity.
      + symmetry. induction kept as [|u kept IHk]; simpl; [reflexivity|].
        rewrite isNear_nonpositive by exact Ht. exact IHk. }
  apply (G []).
Qed.

Lemma removeDuplicatePoints_nonpositive_threshold_witness :
  removeDuplicatePoints [mkPoint 3 4; mkPoint 3 4] 0 = [mkPoint 3 4; mkPoint 3 4].
Proof.
  apply (removeDuplicatePoints_nonpositive_threshold [mkPoint 3 4; mkPoint 3 4] 0).
  unfold Qle. simpl. lia.
Defined.

(** ** Initialization without a usable library *)

Lemma filter_nonempty {A} (f : A -> bool) (l : list A) (a : A) :
  In a l -> f a = true -> (0 <? Zlength (filter f l))%Z = true.
Proof.
  intros Hin Hf. apply Z.ltb_lt. unfold Zlength.
  assert (H : In a (filter f l)) by (apply filter_In; auto).
  destruct (filter f l); [destruct H | cbn [List.length]; lia].
Qed.

(** When [cv] is undefined or lacks a required function,
    [initializeWithTemplate] returns [false] before touching anything: no
    native object is created and only the readiness flag is (re)set. *)
Theorem initializeWithTemplate_without_library
    (cv : OpenCV) (image : Element) (w : World) :
  libraryIncomplete cv ->
  initializeWithTemplate cv image w
    = (Ok false,
       mkWorld (mkAligner (templateImage (self w)) (templatePoints (self w))
                          (templateSize (self w)) false)
               (live w) (next w)).
Proof.
  intros H. unfold initializeWithTemplate, tryCatch, initializeWithTemplate_try.
  destruct (cv_defined cv) eqn:Ed; [|reflexivity].
  destruct H as [H | (func & Hin & Hf)]; [congruence|].
  cbn [negb]. unfold ret at 1. unfold bind at 1.
  destruct (cv_has cv "Mat") eqn:Em; [|reflexivity].
  cbn [negb]. unfold ret at 1. unfold bind at 1. cbv zeta.
  rewrite (filter_nonempty (fun f => negb (cv_has cv f)) requiredFunctions func Hin)
    by (rewrite Hf; reflexivity).
  reflexivity.
Qed.

Lemma initializeWithTemplate_without_library_witness :
  initializeWithTemplate (Demo.lacking "Canny" (Stub.cv Stub.sheet)) Stub.page Stub.ready
    = (Ok false,
       mkWorld (mkAligner None (templatePoints (self Stub.ready))
                          (templateSize (self Stub.ready)) false) [] 0%nat).
Proof.
  apply (initializeWithTemplate_without_library
           (Demo.lacking "Canny" (Stub.cv Stub.sheet)) Stub.page Stub.ready).
  right. exists "Canny"%string. split; [simpl; tauto | reflexivity].
Defined.

(** ** Images without pixels *)

Lemma preprocessImage_rejects_empty (cv : OpenCV) (srcMat : Mat) (w : World) :
  (cols (val srcMat) =? 0)%Z || (rows (val srcMat) =? 0)%Z = true ->
  preprocessImage cv srcMat w = (Throw (mkFault "输入图像Mat尺寸无效"), w).
Proof.
  intros H. unfold preprocessImage, block, tryFinally, tryCatch, preprocessImage_try.
  unfold bind at 1. rewrite H. reflexivity.
Qed.

(** An initialised aligner given an image that decodes to zero width or
    zero height answers with the failure record whose reason is the
    size check's message; the decoded source matrix is the only thing the
    call leaves behind, still allocated. *)
Theorem alignUserImage_rejects_empty_image
    (cv : OpenCV) (Math_atan2 : Q -> Q -> Q)
    (userImageElement : Element) (src : Raster) (w : World) :
  isInitialized (self w) = true ->
  imread cv userImageElement = Ok src ->
  cols src = 0%Z \/ rows src = 0%Z ->
  alignUserImage cv Math_atan2 userImageElement w
    = (Ok (Alignment.mk false None (Some "输入图像Mat尺寸无效"%string)), grown w 1).
Proof.
  intros Hi Hr Hz.
  unfold alignUserImage, this, bind at 1. rewrite Hi. cbn [negb].
  unfold tryCatch, alignUserImage_try. rewrite Hr.
  unfold bind at 1, call. unfold bind at 1, alloc.
  unfold bind at 1.
  rewrite preprocessImage_rejects_empty.
  - cbn [message]. unfold ret, grown. cbn [seq rev app].
    rewrite Nat.add_1_r. reflexivity.
  - cbn [val]. destruct Hz as [-> | ->]; [reflexivity | apply orb_true_r].
Qed.

Lemma alignUserImage_rejects_empty_image_witness :
  alignUserImage (Stub.cv Stub.sheet) Stub.atan2 Demo.emptyPage Stub.ready
    = (Ok (Alignment.mk false None (Some "输入图像Mat尺寸无效"%string)),
       grown Stub.ready 1).
Proof.
  apply (alignUserImage_rejects_empty_image (Stub.cv Stub.sheet) Stub.atan2
           Demo.emptyPage (mkRaster 0 0 4 []) Stub.ready).
  - reflexivity.
  - reflexivity.
  - left. reflexivity.
Defined.

(** ** Invariants: what the methods leave alone *)

Section InvariantRules.
Context {S : Type}.
Variable I : S -> Prop.

Lemma maintains_ret {A} (a : A) (Q : A -> Prop) : Q a -> maintains I (ret a) Q.
Proof. intros H s Hs. split; [exact Hs|]. intros b E. inversion E. subst. exact H. Qed.

Lemma maintains_throw {A} (e : Fault) (Q : A -> Prop) : maintains I (throw e) Q.
Proof. intros s Hs. split; [exact Hs|]. intros b E. discriminate. Qed.

Lemma maintains_call {A} (o : outcome A) : maintains I (call o) (fun _ => True).
Proof. intros s Hs. split; [exact Hs | auto]. Qed.

Lemma maintains_bind {A B} (c : @Prog S A) (k : A -> @Prog S B)
      (P : A -> Prop) (Q : B -> Prop) :
  maintains I c P -> (forall a, P a -> maintains I (k a) Q) -> maintains I (bind c k) Q.
Proof.
  intros Hc Hk s Hs. destruct (Hc s Hs) as [H1 H2]. unfold bind.
  destruct (c s) as [[a|e] s1]; cbn [fst snd] in *.
  - exact (Hk a (H2 a eq_refl) s1 H1).
  - split; [exact H1|]. intros b E. discriminate.
Qed.

Lemma maintains_tryCatch {A} (c : @Prog S A) (h : Fault -> @Prog S A) (Q : A -> Prop) :
  maintains I c Q -> (forall e, maintains I (h e) Q) -> maintains I (tryCatch c h) Q.
Proof.
  intros Hc Hh s Hs. destruct (Hc s Hs) as [H1 H2]. unfold tryCatch.
  destruct (c s) as [[a|e] s1]; cbn [fst snd] in *.
  - split; [exact H1 | exact H2].
  - exact (Hh e s1 H1).
Qed.

Lemma maintains_tryFinally {A} (c : @Prog S A) (f : @Prog S unit)
      (Q : A -> Prop) (P : unit -> Prop) :
  maintains I c Q -> maintains I f P -> maintains I (tryFinally c f) Q.
Proof.
  intros Hc Hf s Hs. destruct (Hc s Hs) as [H1 H2]. unfold tryFinally.
  destruct (c s) as [r s1]; cbn [fst snd] in *.
  destruct (Hf s1 H1) as [H3 _].
  destruct (f s1) as [[u|e] s2]; cbn [fst snd] in *.
  - split; [exact H3 | exact H2].
  - split; [exact H3|]. intros a E. discriminate.
Qed.

Lemma maintains_forEach {A B} (body : B -> A -> @Prog S B) (P : B -> Prop) (l : list A) :
  (forall b a, In a l -> P b -> maintains I (body b a) P) ->
  forall b, P b -> maintains I (forEach l body b) P.
Proof.
  induction l as [|a l IH]; intros Hb b Pb; cbn [forEach].
  - apply maintains_ret. exact Pb.
  - apply (maintains_bind _ _ P).
    + apply Hb; [left; reflexivity | exact Pb].
    + intros b' Pb'. apply IH; [|exact Pb'].
      intros b0 a0 Hin. apply Hb. right. exact Hin.
Qed.

Lemma maintains_weaken {A} (c : @Prog S A) (P Q : A -> Prop) :
  maintains I c P -> (forall a, P a -> Q a) -> maintains I c Q.
Proof.
  intros Hc HPQ s Hs. destruct (Hc s Hs) as [H1 H2]. split; [exact H1|].
  intros a E. apply HPQ, H2, E.
Qed.
End InvariantRules.

Section BlockRules.
Context {L : Type}.
Variable Lv : L -> Prop.
Variable I : World -> Prop.

Lemma maintains_inWorld {A} (c : M A) (Q : A -> Prop) :
  maintains I c Q -> maintains (both Lv I) (inWorld c) Q.
Proof.
  intros Hc [v w] [Hv Hw]. cbn [fst snd] in *. destruct (Hc w Hw) as [H1 H2].
  unfold inWorld, both. cbn [fst snd]. destruct (c w) as [r w']; cbn [fst snd] in *.
  split; [split; assumption | exact H2].
Qed.

Lemma maintains_locals : maintains (both Lv I) locals Lv.
Proof.
  intros [v w] [Hv Hw]. unfold locals, both. cbn [fst snd] in *.
  split; [split; assumption|]. intros a E. inversion E. subst. exact Hv.
Qed.

Lemma maintains_assign (f : L -> L) :
  (forall v, Lv v -> Lv (f v)) -> maintains (both Lv I) (assign f) (fun _ => True).
Proof.
  intros Hf [v w] [Hv Hw]. unfold assign, both. cbn [fst snd] in *.
  split; [split; auto | auto].
Qed.

Lemma maintains_block {A} (init : L) (c : Block L A) (Q : A -> Prop) :
  Lv init -> maintains (both Lv I) c Q -> maintains I (block init c) Q.
Proof.
  intros Hi Hc w Hw. destruct (Hc (init, w) (conj Hi Hw)) as [[_ H1] H2].
  unfold block. destruct (c (init, w)) as [r s']; cbn [fst snd] in *.
  split; [exact H1 | exact H2].
Qed.
End BlockRules.

Create HintDb maintains.

Section HeapInvariant.
Variable cv : OpenCV.
Variable Math_atan2 : Q -> Q -> Q.
Variable w0 : World.
Variable Inv : World -> Prop.
Hypothesis Inv_next : forall w, Inv w -> (next w0 <= next w)%nat.
Hypothesis Inv_alloc : forall A (v : A) w, Inv w -> Inv (snd (alloc v w)).
Hypothesis Inv_delete :
  forall A (o : Native A) w, Inv w -> createdAfter w0 o -> Inv (snd (delete o w)).

Lemma maintains_alloc {A} (v : A) : maintains Inv (alloc v) (createdAfter w0).
Proof.
  intros w Hw. split; [apply Inv_alloc; exact Hw|].
  intros a E. unfold alloc in E. cbn [fst] in E. inversion E. subst.
  unfold createdAfter. cbn [hnd]. apply Inv_next. exact Hw.
Qed.

Lemma maintains_newMat : maintains Inv newMat (createdAfter w0).
Proof. apply maintains_alloc. Qed.

Lemma maintains_clone (m : Mat) : maintains Inv (clone m) (createdAfter w0).
Proof. apply maintains_alloc. Qed.

Lemma maintains_delete {A} (o : Native A) :
  createdAfter w0 o -> maintains Inv (delete o) (fun _ => True).
Proof. intros Ho w Hw. split; [apply Inv_delete; assumption | auto]. Qed.

Lemma maintains_deleteIf {A} (o : option (Native A)) :
  optCreatedAfter w0 o -> maintains Inv (deleteIf o) (fun _ => True).
Proof.
  destruct o as [n|]; intros Ho; cbn [deleteIf].
  - apply maintains_delete. exact Ho.
  - apply maintains_ret. exact I.
Qed.

Lemma maintains_into {A B} (dst : Native A) (o : outcome B) :
  createdAfter w0 dst -> maintains Inv (into dst o) (createdAfter w0).
Proof.
  intros Hd w Hw. unfold into, bind, call, ret.
  destruct o as [v|e]; cbn [fst snd]; (split; [exact Hw|]); intros a E.
  - inversion E. subst. exact Hd.
  - discriminate.
Qed.

Lemma maintains_this : maintains Inv this (fun _ => True).
Proof. intros w Hw. split; [exact Hw | auto]. Qed.

#[local] Hint Resolve maintains_alloc maintains_newMat maintains_clone
  maintains_delete maintains_deleteIf maintains_into maintains_this
  maintains_call maintains_inWorld maintains_locals : maintains.

Ltac maintains_step :=
  first
    [ apply maintains_ret; try solve [exact I | assumption]
    | apply maintains_throw
    | eapply maintains_bind; [solve [eauto with maintains] | intros ? ?]
    | match goal with
      | |- maintains _ (if ?b then _ else _) _ => destruct b
      | |- maintains _ (match ?v with _ => _ end) _ => destruct v
      end ].

Lemma maintains_countIfValid (n : Z) (c : Contour) :
  maintains Inv (countIfValid cv n c) (fun _ => True).
Proof. unfold countIfValid. repeat maintains_step. Qed.

Lemma maintains_countValidContours (cs : list Contour) :
  maintains Inv (countValidContours cv cs) (fun _ => True).
Proof.
  unfold countValidContours. apply (maintains_forEach _ _ (fun _ => True)); [|exact I].
  intros b a _ _. apply maintains_countIfValid.
Qed.

Lemma maintains_evaluateBinary (binary : Mat) :
  maintains (both (selectVarsCreatedAfter w0) Inv) (evaluateBinary cv tt binary) (fun _ => True).
Proof.
  unfold evaluateBinary. apply maintains_tryCatch; [|intros e; apply maintains_ret; exact I].
  eapply maintains_bind; [solve [eauto with maintains] | intros contours Hc].
  eapply maintains_bind;
    [apply maintains_assign; intros v [H1 H2]; split; assumption | intros _ _].
  eapply maintains_bind; [solve [eauto with maintains] | intros hierarchy Hh].
  eapply maintains_bind;
    [apply maintains_assign; intros v [H1 H2]; split; assumption | intros _ _].
  eapply maintains_bind; [solve [eauto with maintains] | intros contours' Hc'].
  eapply maintains_bind;
    [apply maintains_assign; intros v [H1 H2]; split; assumption | intros _ _].
  eapply maintains_bind;
    [apply maintains_inWorld, maintains_countValidContours | intros score _].
  eapply maintains_bind; [apply maintains_locals | intros v Hv].
  destruct (bestScore v <? score)%Z.
  - apply maintains_assign. intros v' [H1 H2]. split; assumption.
  - apply maintains_ret. exact I.
Qed.

Lemma maintains_selectBestBinary (binaryResults : list Mat) (gray : Mat) :
  maintains Inv (selectBestBinary cv binaryResults gray) (createdAfter w0).
Proof.
  unfold selectBestBinary. apply (maintains_block (selectVarsCreatedAfter w0)).
  { split; exact I. }
  apply (maintains_tryFinally _ _ _ _ (fun _ => True)).
  - unfold selectBestBinary_try.
    eapply maintains_bind.
    { apply (maintains_forEach _ _ (fun _ => True)); [|exact I].
      intros [] b _ _. apply maintains_evaluateBinary. }
    intros _ _.
    eapply maintains_bind; [apply maintains_locals | intros v Hv].
    destruct (bestBinary v) as [b|]; [solve [eauto with maintains]|].
    destruct binaryResults as [|b0 ?]; [apply maintains_throw | solve [eauto with maintains]].
  - unfold selectBestBinary_finally.
    apply maintains_tryCatch; [|intros e; apply maintains_ret; exact I].
    eapply maintains_bind; [apply maintains_locals | intros v [H1 H2]].
    eapply maintains_bind; [solve [eauto with maintains] | intros _ _].
    solve [eauto with maintains].
Qed.

Lemma preVars_setGray (g : Mat) :
  createdAfter w0 g ->
  maintains (both (preVarsCreatedAfter w0) Inv) (setGray g) (fun _ => True).
Proof.
  intros Hg. apply maintains_assign. intros v [H1 H2]. split; assumption.
Qed.

Lemma preVars_pushBinary (b : Mat) :
  createdAfter w0 b ->
  maintains (both (preVarsCreatedAfter w0) Inv) (pushBinary b) (fun _ => True).
Proof.
  intros Hb. apply maintains_assign. intros v [H1 H2]. split; [assumption|].
  cbn [pre_binaryResults]. apply Forall_app. split; [assumption|].
  constructor; [assumption | constructor].
Qed.

#[local] Hint Resolve preVars_setGray preVars_pushBinary
  maintains_selectBestBinary : maintains.

Lemma maintains_convertToGray (srcMat gray : Mat) :
  createdAfter w0 gray ->
  maintains (both (preVarsCreatedAfter w0) Inv) (convertToGray cv srcMat gray) (createdAfter w0).
Proof. intros Hg. unfold convertToGray. repeat maintains_step. Qed.

Lemma maintains_preprocessImage (srcMat : Mat) :
  maintains Inv (preprocessImage cv srcMat) (createdAfter w0).
Proof.
  unfold preprocessImage. apply (maintains_block (preVarsCreatedAfter w0)).
  { split; [exact I | constructor]. }
  apply (maintains_tryFinally _ _ _ _ (fun _ => True)).
  - apply maintains_tryCatch; [|intros e; apply maintains_throw].
    unfold preprocessImage_try.
    eapply maintains_bind.
    { instantiate (1 := fun _ => True). destruct (_ || _); repeat maintains_step. }
    intros _ _.
    eapply maintains_bind; [solve [eauto with maintains] | intros gray Hg].
    eapply maintains_bind; [solve [eauto with maintains] | intros _ _].
    eapply maintains_bind; [apply maintains_convertToGray; exact Hg | intros gray' Hg'].
    repeat maintains_step.
    eapply maintains_bind;
      [apply maintains_assign; intros v [Hv1 Hv2]; split; assumption | intros _ _].
    apply maintains_ret. assumption.
  - unfold preprocessImage_finally.
    apply maintains_tryCatch; [|intros e; apply maintains_ret; exact I].
    eapply maintains_bind; [apply maintains_locals | intros v [H1 H2]].
    eapply maintains_bind; [solve [eauto with maintains] | intros _ _].
    apply (maintains_forEach _ _ (fun _ => True)); [|exact I].
    intros [] mat Hin _. rewrite Forall_forall in H2.
    destruct (negb _).
    + apply maintains_tryCatch; [|intros e; apply maintains_ret; exact I].
      apply maintains_inWorld, maintains_delete, H2, Hin.
    + apply maintains_ret. exact I.
Qed.

Lemma maintains_cornerPoints (points : list Point) (c : Contour) :
  maintains Inv (cornerPoints cv points c) (fun _ => True).
Proof.
  unfold cornerPoints. do 2 maintains_step.
  apply (maintains_bind _ _ _ (fun _ => True)).
  - repeat maintains_step.
  - intros points' _. repeat maintains_step.
Qed.

Lemma maintains_findLinesAndPoints (binaryImage : Mat) :
  maintains Inv (findLinesAndPoints cv binaryImage) (fun _ => True).
Proof.
  unfold findLinesAndPoints.
  apply maintains_tryCatch; [|intros e; apply maintains_ret; exact I].
  do 6 maintains_step.
  eapply maintains_bind.
  { apply (maintains_forEach _ _ (fun _ => True)); [|exact I].
    intros pts c _ _. apply maintains_cornerPoints. }
  intros points _. repeat maintains_step.
Qed.

Lemma maintains_createCVPointMatrix (points : list Point) :
  maintains Inv (createCVPointMatrix points) (createdAfter w0).
Proof.
  unfold createCVPointMatrix.
  eapply maintains_bind; [solve [eauto with maintains] | intros pointMatrix Hp].
  apply maintains_ret. cbn [fold_left].
  repeat match goal with |- context [if ?b then _ else _] => destruct b end;
    exact Hp.
Qed.

#[local] Hint Resolve maintains_createCVPointMatrix : maintains.

Lemma maintains_calculatePerspectiveTransform (srcPoints dstPoints : list Point) :
  maintains Inv (calculatePerspectiveTransform cv srcPoints dstPoints) (createdAfter w0).
Proof. unfold calculatePerspectiveTransform. repeat maintains_step. eauto with maintains. Qed.

Lemma maintains_keepLarger (best : Q * option (Native Contour)) (c : Contour) :
  maintains Inv (keepLarger cv best c) (fun _ => True).
Proof. unfold keepLarger. destruct best as [maxArea maxContour]. repeat maintains_step. Qed.

Lemma maintains_largestContour (contours : list Contour) :
  maintains Inv (largestContour cv contours) (fun _ => True).
Proof.
  unfold largestContour. apply (maintains_forEach _ _ (fun _ => True)); [|exact I].
  intros b a _ _. apply maintains_keepLarger.
Qed.

#[local] Hint Resolve maintains_calculatePerspectiveTransform maintains_largestContour
  maintains_findLinesAndPoints maintains_preprocessImage : maintains.

Lemma maintains_fallbackAlignment (srcMat : Mat) :
  maintains Inv (fallbackAlignment cv Math_atan2 srcMat) (fun _ => True).
Proof.
  unfold fallbackAlignment.
  apply maintains_tryCatch; [|intros e; apply maintains_ret; exact I].
  do 8 maintains_step.
  match goal with a : (Q * option (Native Contour))%type |- _ => destruct a as [maxArea [maxContour|]] end.
  - repeat maintains_step.
  - apply maintains_throw.
Qed.

#[local] Hint Resolve maintains_fallbackAlignment : maintains.

Lemma maintains_alignUserImage_try (userImageElement : Element) :
  maintains Inv (alignUserImage_try cv Math_atan2 userImageElement) (fun _ => True).
Proof. unfold alignUserImage_try. repeat maintains_step. Qed.

Lemma maintains_alignUserImage (userImageElement : Element) :
  maintains Inv (alignUserImage cv Math_atan2 userImageElement) (fun _ => True).
Proof.
  unfold alignUserImage. maintains_step. maintains_step; [maintains_step|].
  apply maintains_tryCatch; [apply maintains_alignUserImage_try|].
  intros e. apply maintains_ret. exact I.
Qed.

End HeapInvariant.

Lemma heapKept_refl (w : World) : heapKept w w.
Proof. split; auto. Qed.

Lemma heapKept_alloc (w0 : World) {A} (v : A) (w : World) :
  heapKept w0 w -> heapKept w0 (snd (alloc v w)).
Proof.
  intros [N L]. unfold alloc, heapKept, isLive in *. cbn [snd next live existsb].
  split; [lia|]. intros h Hh. rewrite <- (L h Hh).
  destruct (Nat.eqb h (next w)) eqn:E; [|reflexivity].
  apply Nat.eqb_eq in E. lia.
Qed.

Lemma heapKept_delete (w0 : World) {A} (o : Native A) (w : World) :
  heapKept w0 w -> createdAfter w0 o -> heapKept w0 (snd (delete o w)).
Proof.
  intros [N L] Ho. unfold delete, createdAfter in *.
  destruct (isLive (hnd o) w); cbn [snd]; [|split; assumption].
  split; [exact N|]. intros h Hh. rewrite <- (L h Hh).
  unfold isLive. cbn [live]. apply existsb_filter_other. lia.
Qed.

Lemma keeps_heapKept (w0 w : World) : keeps w0 w <-> self w = self w0 /\ heapKept w0 w.
Proof. unfold keeps, heapKept. tauto. Qed.

Lemma alloc_self {A} (v : A) (w : World) : self (snd (alloc v w)) = self w.
Proof. reflexivity. Qed.

Lemma keeps_alloc (w0 : World) {A} (v : A) (w : World) :
  keeps w0 w -> keeps w0 (snd (alloc v w)).
Proof.
  rewrite !keeps_heapKept. intros [S H]. split; [exact S | apply heapKept_alloc, H].
Qed.

Lemma keeps_delete (w0 : World) {A} (o : Native A) (w : World) :
  keeps w0 w -> createdAfter w0 o -> keeps w0 (snd (delete o w)).
Proof.
  rewrite !keeps_heapKept. intros [S H] Ho. split; [|apply heapKept_delete; assumption].
  rewrite <- S. apply (delete_self o w (fst (delete o w))). apply surjective_pairing.
Qed.

Lemma alignUserImage_keeps
    (cv : OpenCV) (Math_atan2 : Q -> Q -> Q) (userImageElement : Element) (w : World) :
  keeps w (snd (alignUserImage cv Math_atan2 userImageElement w)).
Proof.
  apply (maintains_alignUserImage cv Math_atan2 w (keeps w)).
  - intros w1 (_ & N & _). exact N.
  - intros A v w1. apply keeps_alloc.
  - intros A o w1. apply keeps_delete.
  - apply keeps_refl.
Qed.

(** [alignUserImage] is a reader of the session: whatever the library
    answers and whichever way the call ends, the aligner's fields (template
    points, template size, readiness) are what they were, and every native
    object handed out before the call is live afterwards exactly when it
    was live before: the call releases only objects of its own. *)
Theorem alignUserImage_keeps_session_and_earlier_objects
    (cv : OpenCV) (Math_atan2 : Q -> Q -> Q) (userImageElement : Element) (w : World) :
  keeps w (snd (alignUserImage cv Math_atan2 userImageElement w)).
Proof. apply alignUserImage_keeps. Qed.

(** The stages of the pipeline take a matrix of the caller and leave it
    alone: preprocessing, feature detection, the fallback and the transform
    computation neither write the aligner's fields nor release a native
    object that was handed out before they started. *)
Theorem pipeline_stages_keep_earlier_objects
    (cv : OpenCV) (Math_atan2 : Q -> Q -> Q) (mat : Mat)
    (srcPoints dstPoints : list Point) (w : World) :
  keeps w (snd (preprocessImage cv mat w)) /\
  keeps w (snd (findLinesAndPoints cv mat w)) /\
  keeps w (snd (fallbackAlignment cv Math_atan2 mat w)) /\
  keeps w (snd (calculatePerspectiveTransform cv srcPoints dstPoints w)).
Proof.
  assert (N : forall w1, keeps w w1 -> (next w <= next w1)%nat)
    by (intros w1 (_ & N & _); exact N).
  pose proof (fun A v w1 => @keeps_alloc w A v w1) as Ha.
  pose proof (fun A o w1 => @keeps_delete w A o w1) as Hd.
  split; [|split; [|split]].
  - apply (maintains_preprocessImage cv w (keeps w) N Ha Hd mat w), keeps_refl.
  - apply (maintains_findLinesAndPoints cv w (keeps w) N Ha Hd mat w), keeps_refl.
  - apply (maintains_fallbackAlignment cv Math_atan2 w (keeps w) N Ha Hd mat w), keeps_refl.
  - apply (maintains_calculatePerspectiveTransform cv w (keeps w) N Ha _ _ w), keeps_refl.
Qed.

Section InitializationInvariant.
Variable cv : OpenCV.
Variable w0 : World.

Lemma untouched_next (w : World) : untouched w0 w -> (next w0 <= next w)%nat.
Proof. intros [[N _] _]. exact N. Qed.

Lemma untouched_alloc {A} (v : A) (w : World) : untouched w0 w -> untouched w0 (snd (alloc v w)).
Proof. intros [H T]. split; [apply heapKept_alloc, H | exact T]. Qed.

Lemma untouched_delete {A} (o : Native A) (w : World) :
  untouched w0 w -> createdAfter w0 o -> untouched w0 (snd (delete o w)).
Proof.
  intros [H T] Ho. split; [apply heapKept_delete; assumption|].
  rewrite <- T. f_equal.
  apply (delete_self o w (fst (delete o w))). apply surjective_pairing.
Qed.

Lemma untouched_setThis (f : Aligner -> Aligner) :
  (forall a, templateImage (f a) = templateImage a) ->
  maintains (untouched w0) (setThis f) (fun _ => True).
Proof.
  intros Hf w [H T]. split; [|auto].
  unfold setThis. cbn [snd]. split; [exact H|]. cbn [self]. rewrite Hf. exact T.
Qed.

Lemma maintains_rethrow {A} (Inv : World -> Prop) (prefix : string) (c : M A)
      (Q : A -> Prop) :
  maintains Inv c Q -> maintains Inv (rethrow prefix c) Q.
Proof.
  intros Hc. unfold rethrow. apply maintains_tryCatch; [exact Hc|].
  intros e. apply maintains_throw.
Qed.

Lemma maintains_guard {S} (Inv : S -> Prop) (b : bool) (e : Fault) :
  maintains Inv (if b then throw e else ret tt) (fun _ => True).
Proof. destruct b; [apply maintains_throw | apply maintains_ret; exact I]. Qed.

Lemma maintains_initializeWithTemplate (image : Element) :
  maintains (untouched w0) (initializeWithTemplate cv image) (fun _ => True).
Proof.
  pose proof untouched_next as Hn.
  pose proof (fun A v w => @untouched_alloc A v w) as Ha.
  pose proof (fun A o w => @untouched_delete A o w) as Hd.
  unfold initializeWithTemplate. apply maintains_tryCatch.
  - unfold initializeWithTemplate_try.
    eapply maintains_bind; [apply maintains_guard | intros _ _].
    eapply maintains_bind; [apply maintains_guard | intros _ _].
    cbv zeta.
    eapply maintains_bind; [apply maintains_guard | intros _ _].
    eapply maintains_bind; [apply maintains_guard | intros _ _].
    eapply maintains_bind; [apply untouched_setThis; reflexivity | intros _ _].
    eapply maintains_bind.
    { apply maintains_rethrow.
      eapply maintains_bind; [apply maintains_call | intros r _].
      apply (maintains_alloc w0 (untouched w0) Hn Ha). }
    intros templateMat Ht.
    eapply maintains_bind.
    { apply maintains_rethrow. apply (maintains_preprocessImage cv w0 (untouched w0) Hn Ha Hd). }
    intros binaryTemplate Hb.
    eapply maintains_bind.
    { apply maintains_rethrow. apply (maintains_findLinesAndPoints cv w0 (untouched w0) Hn Ha Hd). }
    intros templateResult _.
    apply (maintains_bind _ _ _ (fun _ => True)).
    { destruct (needsFallback templateResult).
      - unfold getFallbackPoints.
        apply (maintains_bind _ _ _ (fun _ => True)); [apply maintains_throw | intros ? ?].
        apply untouched_setThis; reflexivity.
      - apply untouched_setThis; reflexivity. }
    intros _ _.
    eapply maintains_bind;
      [apply (maintains_delete w0 (untouched w0) Hd), Ht | intros _ _].
    eapply maintains_bind;
      [apply (maintains_delete w0 (untouched w0) Hd), Hb | intros _ _].
    eapply maintains_bind; [apply untouched_setThis; reflexivity | intros _ _].
    apply maintains_ret. exact I.
  - intros e.
    eapply maintains_bind; [apply untouched_setThis; reflexivity | intros _ _].
    apply maintains_ret. exact I.
Qed.
End InitializationInvariant.

(** [initializeWithTemplate] writes the template size, the template
    points and the readiness flag only: every native object handed out
    before the call is live afterwards exactly when it was before, and the
    [templateImage] field (which [cleanup] would release) is never set. *)
Theorem initializeWithTemplate_keeps_earlier_objects
    (cv : OpenCV) (image : Element) (w : World) :
  heapKept w (snd (initializeWithTemplate cv image w)) /\
  templateImage (self (snd (initializeWithTemplate cv image w)))
    = templateImage (self w).
Proof.
  apply (maintains_initializeWithTemplate cv w image w).
  split; [apply heapKept_refl | reflexivity].
Qed.

(** ** Scoring that faults *)

Section ScoringFaults.
Variable cv : OpenCV.

(** One scoring turn always ends normally; it leaves the best candidate
    alone or replaces it by the one under evaluation, and leaves it alone
    when contour extraction faults. *)
Lemma evaluateBinary_total (b : Mat) (v : SelectVars) (w : World) :
  exists v' w',
    evaluateBinary cv tt b (v, w) = (Ok tt, (v', w')) /\
    (bestBinary v' = bestBinary v \/ bestBinary v' = Some b) /\
    ((exists e, findContours cv (val b) (RETR_EXTERNAL cv) (CHAIN_APPROX_SIMPLE cv)
                = Throw e) ->
     bestBinary v' = bestBinary v).
Proof.
  destruct b as [bh bv]. destruct v as [bb bs sc sh].
  cbv [evaluateBinary tryCatch bind inWorld alloc newMat assign into call ret locals
       fst snd val hnd self live next bestScore bestBinary sel_contours sel_hierarchy].
  destruct (findContours cv bv (RETR_EXTERNAL cv) (CHAIN_APPROX_SIMPLE cv))
    as [cs|e0] eqn:Ef.
  - match goal with |- context [countValidContours cv cs ?w1] =>
      destruct (countValidContours cv cs w1) as [[n|e1] w3] end.
    + destruct (bs <? n)%Z; eexists; eexists;
        (split; [reflexivity|]);
        (split; [auto | intros [e E]; discriminate]).
    + eexists; eexists. split; [reflexivity|].
      split; [auto | intros [e E]; discriminate].
  - eexists; eexists. split; [reflexivity|]. auto.
Qed.

Lemma selectLoop_total (bs : list Mat) :
  forall (v : SelectVars) (w : World),
  exists v' w',
    forEach bs (evaluateBinary cv) tt (v, w) = (Ok tt, (v', w')) /\
    (bestBinary v' = bestBinary v \/ exists b, In b bs /\ bestBinary v' = Some b) /\
    ((forall b, In b bs ->
        exists e, findContours cv (val b) (RETR_EXTERNAL cv) (CHAIN_APPROX_SIMPLE cv)
                  = Throw e) ->
     bestBinary v' = bestBinary v).
Proof.
  induction bs as [|b bs IH]; intros v w; cbn [forEach].
  - exists v, w. split; [reflexivity|]. split; [left; reflexivity | reflexivity].
  - destruct (evaluateBinary_total b v w) as (v1 & w1 & E1 & C1 & F1).
    rewrite (bind_ok _ _ _ _ _ E1).
    destruct (IH v1 w1) as (v2 & w2 & E2 & C2 & F2).
    exists v2, w2. split; [exact E2|]. split.
    + destruct C2 as [C2 | (b' & Hin & C2)].
      * rewrite C2. destruct C1 as [C1 | C1]; [left; exact C1|].
        right. exists b. split; [left; reflexivity | exact C1].
      * right. exists b'. split; [right; exact Hin | exact C2].
    + intros Hall. rewrite F2, F1.
      * reflexivity.
      * apply Hall. left. reflexivity.
      * intros b' Hin. apply Hall. right. exact Hin.
Qed.
End ScoringFaults.

(** Scoring cannot make the selection fail.  Given at least one candidate,
    [selectBestBinary] returns a new copy of one of the candidates whatever
    the library answers while scoring; when contour extraction faults on
    every candidate the copy is of the first one. *)
Theorem selectBestBinary_survives_scoring_faults
    (cv : OpenCV) (first : Mat) (rest : list Mat) (gray : Mat) (w : World) :
  exists m w',
    selectBestBinary cv (first :: rest) gray w = (Ok m, w') /\
    (exists b, In b (first :: rest) /\ val m = val b) /\
    ((forall b, In b (first :: rest) ->
        exists e, findContours cv (val b) (RETR_EXTERNAL cv) (CHAIN_APPROX_SIMPLE cv)
                  = Throw e) ->
     val m = val first).
Proof.
  destruct (selectLoop_total cv (first :: rest) (mkSelectVars None (-1) None None) w)
    as (v1 & w1 & E1 & C1 & F1).
  cbn [bestBinary] in C1, F1.
  assert (Et : exists m,
             selectBestBinary_try cv (first :: rest) (mkSelectVars None (-1) None None, w)
               = (Ok m, (v1, snd (alloc (val m) w1))) /\
             (exists b, In b (first :: rest) /\ val m = val b) /\
             (bestBinary v1 = None -> val m = val first)).
  { unfold selectBestBinary_try. rewrite (bind_ok _ _ _ _ _ E1).
    unfold locals at 1. unfold bind at 1. cbn [fst].
    destruct C1 as [C1 | (b & Hin & C1)]; rewrite C1.
    - exists (mkNative (next w1) (val first)). split; [reflexivity|].
      split; [exists first; split; [left|]; reflexivity | reflexivity].
    - exists (mkNative (next w1) (val b)). split; [reflexivity|].
      split; [exists b; split; [exact Hin | reflexivity] | discriminate]. }
  destruct Et as (m & Et & Hm & Hf).
  assert (Ef : exists s3,
             selectBestBinary_finally (v1, snd (alloc (val m) w1)) = (Ok tt, s3))
    by (unfold selectBestBinary_finally; apply tryCatch_swallow).
  destruct Ef as ([v3 w3] & E3).
  exists m, w3. split.
  - unfold selectBestBinary, block.
    rewrite (tryFinally_run _ _ _ _ _ _ Et E3). reflexivity.
  - split; [exact Hm|]. intros Hall. apply Hf, F1, Hall.
Qed.

(** ** The result of the fallback *)

Lemma calculatePerspectiveTransform_run
    (cv : OpenCV) (srcPoints dstPoints : list Point) (w : World) :
  (4 <= List.length srcPoints)%nat -> (4 <= List.length dstPoints)%nat ->
  calculatePerspectiveTransform cv srcPoints dstPoints w
    = match getPerspectiveTransform cv (coordinates (firstn 4 srcPoints))
                                    (coordinates (firstn 4 dstPoints)) with
      | Ok h => (Ok (mkNative (2 + next w)%nat h), grown w 3)
      | Throw e => (Throw e, grown w 2)
      end.
Proof.
  intros Hs Hd. unfold calculatePerspectiveTransform.
  rewrite (bind_ok _ _ _ _ _ (createCVPointMatrix_first_four srcPoints w Hs)).
  rewrite (bind_ok _ _ _ _ _ (createCVPointMatrix_first_four dstPoints _ Hd)).
  cbn [val]. unfold call at 1. unfold bind at 1.
  destruct (getPerspectiveTransform cv _ _) as [h|e].
  - unfold alloc, grown. cbn. rewrite !Nat.add_1_r.
    replace (next w + 3)%nat with (S (S (S (next w)))) by lia. reflexivity.
  - unfold grown. cbn. rewrite !Nat.add_1_r.
    replace (next w + 2)%nat with (S (S (next w))) by lia. reflexivity.
Qed.


Lemma grown_0 (w : World) : grown w 0 = w.
Proof. unfold grown. destruct w. cbn. rewrite Nat.add_0_r. reflexivity. Qed.

Lemma grown_grown (w : World) (j k : nat) : grown (grown w j) k = grown w (j + k).
Proof.
  unfold grown. cbn [self live next]. f_equal.
  - rewrite seq_app, rev_app_distr, app_assoc. reflexivity.
  - lia.
Qed.

Lemma alloc_grown {A} (v : A) (w : World) (k : nat) :
  alloc v (grown w k) = (Ok (mkNative (next w + k)%nat v), grown w (S k)).
Proof.
  replace (S k) with (k + 1)%nat by lia. rewrite <- grown_grown.
  unfold alloc, grown. cbn [self live next seq rev app].
  rewrite Nat.add_1_r. reflexivity.
Qed.

Lemma isLive_grown (w : World) (k : nat) (h : nat) :
  (next w <= h < next w + k)%nat -> isLive h (grown w k) = true.
Proof.
  intros Hh. unfold isLive, grown. cbn [live]. rewrite existsb_app.
  apply orb_true_iff. left. apply existsb_exists. exists h.
  split; [|apply Nat.eqb_refl]. apply -> in_rev. apply in_seq. lia.
Qed.

(** Deleting a live object succeeds and touches no other object. *)
Lemma delete_live {A} (o : Native A) (w : World) :
  isLive (hnd o) w = true ->
  exists w', delete o w = (Ok tt, w') /\ self w' = self w /\ next w' = next w /\
    forall h : nat, h <> hnd o -> isLive h w' = isLive h w.
Proof.
  intros Hl. unfold delete. rewrite Hl. eexists. split; [reflexivity|].
  split; [reflexivity|]. split; [reflexivity|].
  intros h Hh. unfold isLive. cbn [live]. apply existsb_filter_other. exact Hh.
Qed.

Lemma sortCorners_length (Math_atan2 : Q -> Q -> Q) (corners : list Point) :
  List.length (sortCorners Math_atan2 corners) = List.length corners.
Proof.
  symmetry. apply Permutation_length.
  apply (proj1 (sortCorners_sorts Math_atan2 corners)).
Qed.

Section FallbackResult.
Variable cv : OpenCV.
Variable Math_atan2 : Q -> Q -> Q.

(** The success path of [fallbackAlignment].  When the conversion, the
    threshold, the contour extraction and the area measurements answer, the
    largest contour reaches a tenth of the frame and its 2%-perimeter
    approximation [poly] has exactly four vertices, the result is the
    library's warp of the source image, at the template size, by the
    transform that the library computes from the four vertices of [poly]
    sorted by angle to the corners (0,0), (W,0), (W,H), (0,H) of the
    template rectangle; the returned image is a new object that is still
    allocated when the call returns. *)
Lemma fallbackAlignment_warps_largest_quadrilateral
    (srcMat : Mat) (w : World) g b cs areas c a p poly h img :
  cvtColor cv (val srcMat) (COLOR_RGBA2GRAY cv) = Ok g ->
  threshold cv g 0 255 (THRESH_BINARY cv + THRESH_OTSU cv)%Z = Ok b ->
  findContours cv b (RETR_EXTERNAL cv) (CHAIN_APPROX_SIMPLE cv) = Ok cs ->
  Forall2 (fun c a => contourArea cv c = Ok a) cs areas ->
  largestOf cs areas = (a, Some c) ->
  ~ a < tenthOfFrame (val srcMat) ->
  arcLength cv c true = Ok p ->
  approxPolyDP cv c ((2 # 100) * p) true = Ok poly ->
  Zlength poly = 4%Z ->
  getPerspectiveTransform cv
    (coordinates (sortCorners Math_atan2 (fourVertices poly)))
    (coordinates (templateRectangle (templateSize (self w)))) = Ok h ->
  warpPerspective cv (val srcMat) h (templateSize (self w)) = Ok img ->
  exists w',
    fallbackAlignment cv Math_atan2 srcMat w
      = (Ok (Alignment.mk true
               (Some (mkNative (next w + (List.length cs + 8))%nat img)) None), w') /\
    isLive (next w + (List.length cs + 8))%nat w' = true.
Proof.
  intros Hg Hb Hcs Ha Hl Hbig Hp Hpoly H4 Hh Hw.
  destruct (fallbackAlignment cv Math_atan2 srcMat w) as [r wf] eqn:E.
  rewrite <- (grown_0 w) in E.
  unfold fallbackAlignment, tryCatch, newMat in E.
  rewrite (bind_ok _ _ _ _ _ (alloc_grown emptyRaster w 0)) in E.
  rewrite (bind_ok _ _ _ _ _ (into_run _ _ _ _ Hg)) in E.
  rewrite (bind_ok _ _ _ _ _ (alloc_grown emptyRaster w 1)) in E.
  rewrite (bind_ok _ _ _ _ _ (into_run _ _ _ _ Hb)) in E.
  rewrite (bind_ok _ _ _ _ _ (alloc_grown ([] : list Contour) w 2)) in E.
  rewrite (bind_ok _ _ _ _ _ (alloc_grown emptyRaster w 3)) in E.
  rewrite (bind_ok _ _ _ _ _ (into_run _ _ _ _ Hcs)) in E.
  unfold largestContour in E. cbn [val hnd] in E.
  destruct (largestContour_grows cv cs areas Ha (0, None) (grown w 4))
    as ([maxArea maxContour] & E5 & F5).
  rewrite (bind_ok _ _ _ _ _ E5) in E. rewrite grown_grown in E.
  change (stripped (0, None)) with ((0, None) : Q * option Contour) in F5.
  unfold largestOf in Hl. rewrite Hl in F5.
  apply stripped_some in F5 as (-> & mc & -> & Hv).
  unfold tenthOfFrame in Hbig. rewrite (Qlt_bool_false _ _ Hbig) in E.
  rewrite (bind_ok _ _ _ _ _ (alloc_grown ([] : list (Z * Z)) w (4 + List.length cs))) in E.
  rewrite Hv in E. unfold call at 1 in E. unfold bind at 1 in E. rewrite Hp in E.
  rewrite (bind_ok _ _ _ _ _ (into_run _ _ _ _ Hpoly)) in E.
  cbn [val hnd] in E. rewrite H4 in E. cbn [Z.eqb Pos.eqb negb] in E.
  unfold this at 1 in E. unfold bind at 1 in E.
  change (self (grown w (S (4 + List.length cs)))) with (self w) in E.
  assert (L4 : (4 <= List.length (sortCorners Math_atan2 (fourVertices poly)))%nat)
    by (rewrite sortCorners_length; cbn; lia).
  assert (Ld : (4 <= List.length (templateRectangle (templateSize (self w))))%nat)
    by (cbn; lia).
  pose proof (calculatePerspectiveTransform_run cv _ _
                (grown w (S (4 + List.length cs))) L4 Ld) as Ec.
  rewrite (firstn_all2 (n := 4) (sortCorners Math_atan2 (fourVertices poly))) in Ec
    by (rewrite sortCorners_length; cbn; lia).
  cbn [firstn templateRectangle] in Ec. fold (templateRectangle (templateSize (self w))) in Ec.
  rewrite Hh in Ec. rewrite grown_grown in Ec.
  unfold templateRectangle in Ec.
  rewrite (bind_ok _ _ _ _ _ Ec) in E. clear Ec.
  rewrite (bind_ok _ _ _ _ _
             (alloc_grown emptyRaster w (S (4 + List.length cs) + 3))) in E.
  cbn [val] in E.
  rewrite (bind_ok _ _ _ _ _ (into_run _ _ _ _ Hw)) in E.
  cbn [val hnd] in E.
  replace (S (4 + List.length cs) + 3)%nat with (List.length cs + 8)%nat in E by lia.
  assert (Lg : forall k : nat, (k < List.length cs + 9)%nat ->
             isLive (next w + k)%nat (grown w (S (List.length cs + 8))) = true)
    by (intros k Hk; apply isLive_grown; lia).
  change (next (grown w (S (4 + List.length cs))))
    with (next w + S (4 + List.length cs))%nat in E.
  replace (2 + (next w + S (4 + List.length cs)))%nat
    with (next w + (List.length cs + 7))%nat in E by lia.
  replace (next w + (4 + List.length cs))%nat
    with (next w + (List.length cs + 4))%nat in E by lia.
  destruct (delete_live (mkNative (next w + 0)%nat g) _ (Lg 0%nat ltac:(lia)))
    as (w1 & D1 & _ & _ & K1).
  rewrite (bind_ok _ _ _ _ _ D1) in E.
  assert (L1 : forall k : nat, (0 < k < List.length cs + 9)%nat ->
             isLive (next w + k)%nat w1 = true)
    by (intros k Hk; rewrite K1 by (cbn [hnd]; lia); apply Lg; lia).
  destruct (delete_live (mkNative (next w + 1)%nat b) _ (L1 1%nat ltac:(lia)))
    as (w2 & D2 & _ & _ & K2).
  rewrite (bind_ok _ _ _ _ _ D2) in E.
  assert (L2 : forall k : nat, (1 < k < List.length cs + 9)%nat ->
             isLive (next w + k)%nat w2 = true)
    by (intros k Hk; rewrite K2 by (cbn [hnd]; lia); apply L1; lia).
  destruct (delete_live (mkNative (next w + 2)%nat cs) _ (L2 2%nat ltac:(lia)))
    as (w3 & D3 & _ & _ & K3).
  rewrite (bind_ok _ _ _ _ _ D3) in E.
  assert (L3 : forall k : nat, (2 < k < List.length cs + 9)%nat ->
             isLive (next w + k)%nat w3 = true)
    by (intros k Hk; rewrite K3 by (cbn [hnd]; lia); apply L2; lia).
  destruct (delete_live (mkNative (next w + 3)%nat emptyRaster) _ (L3 3%nat ltac:(lia)))
    as (w4 & D4 & _ & _ & K4).
  rewrite (bind_ok _ _ _ _ _ D4) in E.
  assert (L4' : forall k : nat, (3 < k < List.length cs + 9)%nat ->
             isLive (next w + k)%nat w4 = true)
    by (intros k Hk; rewrite K4 by (cbn [hnd]; lia); apply L3; lia).
  destruct (delete_live (mkNative (next w + (List.length cs + 4))%nat poly) _
              (L4' (List.length cs + 4)%nat ltac:(lia)))
    as (w5 & D5 & _ & _ & K5).
  rewrite (bind_ok _ _ _ _ _ D5) in E.
  assert (L5 : forall k : nat, (List.length cs + 4 < k < List.length cs + 9)%nat ->
             isLive (next w + k)%nat w5 = true)
    by (intros k Hk; rewrite K5 by (cbn [hnd]; lia); apply L4'; lia).
  destruct (delete_live (mkNative (next w + (List.length cs + 7))%nat h) _
              (L5 (List.length cs + 7)%nat ltac:(lia)))
    as (w6 & D6 & _ & _ & K6).
  rewrite (bind_ok _ _ _ _ _ D6) in E.
  unfold ret in E. exists w6. split; [symmetry; exact E|].
  rewrite K6 by (cbn [hnd]; lia). apply L5. lia.
Qed.
End FallbackResult.

Lemma fallbackAlignment_warps_largest_quadrilateral_witness :
  exists w',
    fallbackAlignment (Stub.cv Stub.sheet) Stub.atan2 Stub.rgba Stub.holding
      = (Ok (Alignment.mk true
               (Some (mkNative (next Stub.holding
                                + (List.length [Stub.rect 50 10 100 80] + 8))%nat
                               (mkRaster 100 200 4 []))) None), w') /\
    isLive (next Stub.holding + (List.length [Stub.rect 50 10 100 80] + 8))%nat w' = true.
Proof.
  apply (fallbackAlignment_warps_largest_quadrilateral
           (Stub.cv Stub.sheet) Stub.atan2 Stub.rgba Stub.holding
           (mkRaster 100 200 1 []) (mkRaster 100 200 1 Stub.otsuTag)
           [Stub.rect 50 10 100 80] [Stub.shoelace (Stub.rect 50 10 100 80)]
           (Stub.rect 50 10 100 80) (Stub.shoelace (Stub.rect 50 10 100 80)) 360
           (Stub.rect 50 10 100 80)
           (coordinates (sortCorners Stub.atan2 (fourVertices (Stub.rect 50 10 100 80)))
            ++ coordinates (templateRectangle (mkSize 200 100)))
           (mkRaster 100 200 4 [])).
  - reflexivity.
  - reflexivity.
  - reflexivity.
  - repeat constructor.
  - vm_compute. reflexivity.
  - intros H. vm_compute in H. discriminate.
  - reflexivity.
  - vm_compute. reflexivity.
  - reflexivity.
  - reflexivity.
  - reflexivity.
Defined.

(** ** The session over the life of an aligner *)

Lemma cleanup_run (w : World) :
  templateImage (self w) = None ->
  cleanup w
    = (Ok tt,
       mkWorld (mkAligner None (templatePoints (self w)) (templateSize (self w)) false)
               (live w) (next w)).
Proof.
  intros H. unfold cleanup, this. unfold bind at 1. rewrite H.
  unfold ret at 1. unfold bind at 1. unfold setInitialized, setThis.
  rewrite H. reflexivity.
Qed.

Lemma reachable_session (cv : OpenCV) (Math_atan2 : Q -> Q -> Q) (w : World) :
  reachable cv Math_atan2 w ->
  templateImage (self w) = None /\
  (isInitialized (self w) = true -> (4 <= Zlength (templatePoints (self w)))%Z).
Proof.
  induction 1 as [heap n | w image _ [IHt IHp] | w image _ [IHt IHp]
                  | w _ [IHt IHp] | w heap n _ IH].
  - split; [reflexivity | discriminate].
  - split.
    + rewrite <- IHt.
      apply (maintains_initializeWithTemplate cv w image w).
      split; [apply heapKept_refl | reflexivity].
    + destruct (initializeWithTemplate_run cv image w) as (b & w' & E & Hi & Hb).
      rewrite E. cbn [snd]. rewrite Hi. intros ->.
      destruct (Hb eq_refl) as (bin & w1 & w2 & r & _ & _ & H4 & ->). exact H4.
  - destruct (alignUserImage_keeps cv Math_atan2 image w) as (Hs & _).
    rewrite Hs. split; assumption.
  - rewrite (cleanup_run w IHt). cbn [snd self templateImage isInitialized].
    split; [reflexivity | discriminate].
  - exact IH.
Qed.

(** Over the whole life of an aligner, however its methods are called and
    whatever the library answers: the [templateImage] field stays [null],
    and whenever the aligner is ready it holds at least four template
    points, so that the first four, which the primary path uses, exist. *)
Theorem ready_aligner_has_four_template_points
    (cv : OpenCV) (Math_atan2 : Q -> Q -> Q) (w : World) :
  reachable cv Math_atan2 w ->
  templateImage (self w) = None /\
  (isInitialized (self w) = true -> (4 <= Zlength (templatePoints (self w)))%Z).
Proof. apply reachable_session. Qed.

Lemma ready_aligner_has_four_template_points_witness :
  templateImage
    (self (snd (initializeWithTemplate (Stub.cv Stub.sheet) Stub.page Stub.fresh))) = None /\
  (isInitialized
     (self (snd (initializeWithTemplate (Stub.cv Stub.sheet) Stub.page Stub.fresh))) = true ->
   (4 <= Zlength
           (templatePoints
              (self (snd (initializeWithTemplate (Stub.cv Stub.sheet) Stub.page
                            Stub.fresh)))))%Z).
Proof.
  apply (ready_aligner_has_four_template_points (Stub.cv Stub.sheet) Stub.atan2
           (snd (initializeWithTemplate (Stub.cv Stub.sheet) Stub.page Stub.fresh))).
  apply reach_initialize. apply (reach_new _ _ [] 0%nat).
Defined.

(** [cleanup] closes the session and releases nothing.  On an aligner in
    any state its methods can bring it to, it returns normally, leaves the
    native heap, the template points and the template size as they are and
    clears the readiness flag, after which [alignUserImage] answers with
    the not-initialized failure and does nothing. *)
Theorem cleanup_closes_session_and_releases_nothing
    (cv : OpenCV) (Math_atan2 : Q -> Q -> Q) (w : World) (image : Element) :
  reachable cv Math_atan2 w ->
  cleanup w
    = (Ok tt,
       mkWorld (mkAligner None (templatePoints (self w)) (templateSize (self w)) false)
               (live w) (next w)) /\
  alignUserImage cv Math_atan2 image (snd (cleanup w))
    = (Ok (Alignment.mk false None (Some notInitializedError)), snd (cleanup w)).
Proof.
  intros H. destruct (reachable_session cv Math_atan2 w H) as [Ht _].
  rewrite (cleanup_run w Ht). split; [reflexivity|].
  unfold alignUserImage, bind, this. reflexivity.
Qed.

Lemma cleanup_closes_session_and_releases_nothing_witness :
  cleanup (snd (initializeWithTemplate (Stub.cv Stub.sheet) Stub.page Stub.fresh))
    = (Ok tt,
       mkWorld (mkAligner None
                  [mkPoint 50 10; mkPoint 150 10; mkPoint 150 90; mkPoint 50 90]
                  (mkSize 200 100) false)
               [9; 8; 6; 5]%nat 20%nat) /\
  alignUserImage (Stub.cv Stub.sheet) Stub.atan2 Stub.page
    (snd (cleanup (snd (initializeWithTemplate (Stub.cv Stub.sheet) Stub.page Stub.fresh))))
    = (Ok (Alignment.mk false None (Some notInitializedError)),
       snd (cleanup (snd (initializeWithTemplate (Stub.cv Stub.sheet) Stub.page
                            Stub.fresh)))).
Proof.
  apply (cleanup_closes_session_and_releases_nothing (Stub.cv Stub.sheet) Stub.atan2
           (snd (initializeWithTemplate (Stub.cv Stub.sheet) Stub.page Stub.fresh))
           Stub.page).
  apply reach_initialize. apply (reach_new _ _ [] 0%nat).
Defined.

(** ** What the stages return is allocated *)

Lemma delete_other {A} (o : Native A) (h : nat) (w : World) :
  hnd o <> h -> liveBelow h w -> liveBelow h (snd (delete o w)).
Proof.
  intros Hne [Hl Hn]. unfold delete, liveBelow.
  destruct (isLive (hnd o) w); cbn [snd next]; [|split; assumption].
  split; [|exact Hn]. rewrite <- Hl. unfold isLive. cbn [live].
  apply existsb_filter_other. intros E. apply Hne. symmetry. exact E.
Qed.

Lemma alloc_other {A} (v : A) (h : nat) (w : World) :
  liveBelow h w -> liveBelow h (snd (alloc v w)).
Proof.
  intros [Hl Hn]. unfold alloc, liveBelow, isLive in *. cbn [snd next live existsb].
  rewrite Hl. split; [apply orb_true_r | lia].
Qed.

Lemma maintains_delete_other {A} (o : Native A) (h : nat) :
  hnd o <> h -> maintains (liveBelow h) (delete o) (fun _ => True).
Proof. intros Hne w Hw. split; [apply delete_other; assumption | auto]. Qed.

Lemma maintains_deleteIf_below {A} (o : option (Native A)) (h : nat) :
  below o h -> maintains (liveBelow h) (deleteIf o) (fun _ => True).
Proof.
  destruct o as [n|]; cbn [below deleteIf]; intros Hb.
  - apply maintains_delete_other. lia.
  - apply maintains_ret. exact I.
Qed.

Section ResultsAreLive.
Variable cv : OpenCV.

Lemma countValidContours_keeps (cs : list Contour) (w : World) :
  keeps w (snd (countValidContours cv cs w)).
Proof.
  apply (maintains_countValidContours cv w (keeps w)).
  - intros w1 (_ & N & _). exact N.
  - intros A v w1. apply keeps_alloc.
  - intros A o w1. apply keeps_delete.
  - apply keeps_refl.
Qed.

(** One scoring turn keeps the handles in the variables below the next
    handle. *)
Lemma evaluateBinary_below (b : Mat) (v : SelectVars) (w : World) :
  below (sel_contours v) (next w) -> below (sel_hierarchy v) (next w) ->
  exists v' w',
    evaluateBinary cv tt b (v, w) = (Ok tt, (v', w')) /\
    below (sel_contours v') (next w') /\ below (sel_hierarchy v') (next w') /\
    (next w <= next w')%nat.
Proof.
  intros Hc Hh. destruct b as [bh bv]. destruct v as [bb bs sc sh].
  destruct w as [ws wl wn]. cbn [sel_contours sel_hierarchy next] in Hc, Hh.
  cbv [evaluateBinary tryCatch bind inWorld alloc newMat assign into call ret locals
       fst snd val hnd self live next bestScore bestBinary sel_contours sel_hierarchy].
  destruct (findContours cv bv (RETR_EXTERNAL cv) (CHAIN_APPROX_SIMPLE cv))
    as [cs|e0] eqn:Ef.
  - match goal with |- context [countValidContours cv cs ?w1] =>
      pose proof (countValidContours_keeps cs w1) as (_ & N & _);
      destruct (countValidContours cv cs w1) as [[n|e1] [s3 l3 n3]] end;
      cbn [snd next] in N.
    + destruct (bs <? n)%Z; eexists; eexists; (split; [reflexivity|]);
        cbn [below hnd next]; repeat split; lia.
    + eexists; eexists. split; [reflexivity|]. cbn [below hnd next]. repeat split; lia.
  - eexists; eexists. split; [reflexivity|]. cbn [below hnd next].
    repeat split; lia.
Qed.

Lemma selectLoop_below (bs : list Mat) :
  forall (v : SelectVars) (w : World),
  below (sel_contours v) (next w) -> below (sel_hierarchy v) (next w) ->
  exists v' w',
    forEach bs (evaluateBinary cv) tt (v, w) = (Ok tt, (v', w')) /\
    below (sel_contours v') (next w') /\ below (sel_hierarchy v') (next w') /\
    (next w <= next w')%nat.
Proof.
  induction bs as [|b bs IH]; intros v w Hc Hh; cbn [forEach].
  - exists v, w. split; [reflexivity | repeat split; auto].
  - destruct (evaluateBinary_below b v w Hc Hh) as (v1 & w1 & E1 & Hc1 & Hh1 & N1).
    rewrite (bind_ok _ _ _ _ _ E1).
    destruct (IH v1 w1 Hc1 Hh1) as (v2 & w2 & E2 & Hc2 & Hh2 & N2).
    exists v2, w2. repeat split; auto. lia.
Qed.

Lemma selectBestBinary_finally_keeps (h : nat) (v : SelectVars) :
  below (sel_contours v) h -> below (sel_hierarchy v) h ->
  maintains (both (fun v' => v' = v) (liveBelow h)) selectBestBinary_finally (fun _ => True).
Proof.
  intros Hc Hh. unfold selectBestBinary_finally.
  apply maintains_tryCatch; [|intros e; apply maintains_ret; exact I].
  eapply maintains_bind; [apply maintains_locals | intros v' ->].
  eapply maintains_bind;
    [apply maintains_inWorld, maintains_deleteIf_below, Hc | intros _ _].
  apply maintains_inWorld, maintains_deleteIf_below, Hh.
Qed.

Lemma alloc_liveBelow {A} (x : A) (w : World) :
  liveBelow (next w) (snd (alloc x w)).
Proof.
  unfold liveBelow, alloc, isLive. cbn [snd live next existsb].
  rewrite Nat.eqb_refl. split; [reflexivity | lia].
Qed.

(** What [selectBestBinary] returns is a new object that is allocated
    when it returns. *)
Lemma selectBestBinary_result_live (bs : list Mat) (gray : Mat) (w : World) m w' :
  selectBestBinary cv bs gray w = (Ok m, w') ->
  (next w <= hnd m)%nat /\ liveBelow (hnd m) w'.
Proof.
  unfold selectBestBinary, block, tryFinally. intros E.
  destruct (selectLoop_below bs (mkSelectVars None (-1) None None) w I I)
    as (v1 & w1 & E1 & Hc & Hh & N1).
  assert (Et : exists r,
             selectBestBinary_try cv bs (mkSelectVars None (-1) None None, w) = r /\
             match r with
             | (Ok m0, s') => exists x, m0 = mkNative (next w1) x /\
                                        s' = (v1, snd (alloc x w1))
             | (Throw _, _) => True
             end).
  { eexists. split; [reflexivity|].
    unfold selectBestBinary_try. rewrite (bind_ok _ _ _ _ _ E1).
    unfold locals at 1. unfold bind at 1. cbn [fst].
    destruct (bestBinary v1) as [b|]; [|destruct bs as [|b0 ?]];
      first [exact I | eexists; split; reflexivity]. }
  destruct Et as ([r s1] & Et & Hr). rewrite Et in E.
  destruct r as [m0|e].
  - destruct Hr as (x & -> & ->).
    pose proof (selectBestBinary_finally_keeps (next w1) v1 Hc Hh
                  (v1, snd (alloc x w1)) (conj eq_refl (alloc_liveBelow x w1)))
      as [[_ Hf] _].
    destruct (selectBestBinary_finally (v1, snd (alloc x w1))) as [[u|e] s2];
      inversion E; subst. cbn [hnd]. split; [exact N1 | exact Hf].
  - destruct (selectBestBinary_finally s1) as [[u|e1] s2]; discriminate.
Qed.
Lemma guard_inv {S} (b : bool) (e : Fault) (s : S) u s' :
  (if b then throw e else ret tt) s = (Ok u, s') -> s' = s.
Proof. destruct b; intros E; inversion E; reflexivity. Qed.

Lemma inWorld_inv {L A} (c : M A) (v : L) (w : World) a s' :
  inWorld c (v, w) = (Ok a, s') -> exists w', c w = (Ok a, w') /\ s' = (v, w').
Proof.
  unfold inWorld. cbn [fst snd]. destruct (c w) as [r w1]. intros E.
  inversion E; subst. eauto.
Qed.

Lemma inWorld_alloc_inv {L A} (x : A) (v : L) (w : World) a s' :
  inWorld (alloc x) (v, w) = (Ok a, s') ->
  a = mkNative (next w) x /\ s' = (v, snd (alloc x w)).
Proof. intros E. inversion E; subst. split; reflexivity. Qed.

Lemma inWorld_into_inv {L A B} (dst : Native A) (o : outcome B) (v : L) (w : World) a s' :
  inWorld (into dst o) (v, w) = (Ok a, s') -> hnd a = hnd dst /\ s' = (v, w).
Proof.
  intros E. apply inWorld_inv in E as (w1 & E & ->).
  apply into_ok_inv in E as (_ & -> & ->). split; reflexivity.
Qed.

Lemma convertToGray_below (srcMat gray : Mat) (v : PreVars) (w : World) g' v' w' :
  convertToGray cv srcMat gray (v, w) = (Ok g', (v', w')) ->
  (hnd gray < next w)%nat ->
  pre_gray v' = Some g' /\ (hnd g' < next w')%nat /\ (next w <= next w')%nat.
Proof.
  unfold convertToGray. intros E Hg.
  destruct (channels (val srcMat) =? 3)%Z; [|destruct (channels (val srcMat) =? 4)%Z].
  - apply bind_ok_inv in E as (g1 & s1 & E1 & E).
    apply inWorld_into_inv in E1 as (H1 & ->).
    inversion E; subst. cbn [pre_gray]. repeat split; lia.
  - apply bind_ok_inv in E as (g1 & s1 & E1 & E).
    apply inWorld_into_inv in E1 as (H1 & ->).
    inversion E; subst. cbn [pre_gray]. repeat split; lia.
  - apply bind_ok_inv in E as (g1 & s1 & E1 & E).
    apply inWorld_alloc_inv in E1 as (-> & ->).
    inversion E; subst. cbn [pre_gray hnd snd alloc next]. repeat split; lia.
Qed.

Lemma preprocessImage_try_result (srcMat : Mat) (w : World) m v1 w1 :
  preprocessImage_try cv srcMat (mkPreVars None None [], w) = (Ok m, (v1, w1)) ->
  pre_binary v1 = Some m /\ below (pre_gray v1) (hnd m) /\
  (next w <= hnd m)%nat /\ liveBelow (hnd m) w1.
Proof.
  unfold preprocessImage_try. intros E.
  apply bind_ok_inv in E as (u0 & s0 & G & E). apply guard_inv in G. subst s0.
  apply bind_ok_inv in E as (gray & s1 & A & E).
  apply inWorld_alloc_inv in A as (-> & ->).
  apply bind_ok_inv in E as (u1 & s2 & A & E). inversion A; subst; clear A.
  cbn [fst snd] in E.
  apply bind_ok_inv in E as (gray' & [v3 w3] & A & E).
  apply convertToGray_below in A as (G3 & H3 & N3); [|cbn [hnd alloc snd next]; lia].
  cbn [alloc snd next] in N3.
  (* method 1 *)
  apply bind_ok_inv in E as (b1 & s4 & A & E).
  apply inWorld_alloc_inv in A as (-> & ->).
  apply bind_ok_inv in E as (b1' & s5 & A & E).
  apply inWorld_into_inv in A as (_ & ->).
  apply bind_ok_inv in E as (u2 & s6 & A & E). inversion A; subst; clear A.
  cbn [fst snd] in E.
  (* method 2 *)
  apply bind_ok_inv in E as (b2 & s7 & A & E).
  apply inWorld_alloc_inv in A as (-> & ->).
  apply bind_ok_inv in E as (b2' & s8 & A & E).
  apply inWorld_into_inv in A as (_ & ->).
  apply bind_ok_inv in E as (u3 & s9 & A & E). inversion A; subst; clear A.
  cbn [fst snd] in E.
  (* method 3 *)
  apply bind_ok_inv in E as (b3 & s10 & A & E).
  apply inWorld_alloc_inv in A as (-> & ->).
  apply bind_ok_inv in E as (b3' & s11 & A & E).
  apply inWorld_into_inv in A as (_ & ->).
  apply bind_ok_inv in E as (u4 & s12 & A & E). inversion A; subst; clear A.
  cbn [fst snd] in E.
  apply bind_ok_inv in E as (v & s13 & A & E). inversion A; subst; clear A.
  apply bind_ok_inv in E as (binary & s14 & A & E).
  apply inWorld_inv in A as (w14 & A & ->).
  apply selectBestBinary_result_live in A as (N14 & L14).
  cbn [alloc snd next] in N14.
  apply bind_ok_inv in E as (u5 & s15 & A & E). inversion A; subst; clear A.
  inversion E; subst; clear E.
  cbn [pre_binary pre_gray]. split; [reflexivity|].
  split; [rewrite G3; cbn [below]; lia|]. split; [lia | exact L14].
Qed.

Lemma preprocessImage_finally_keeps (h : nat) (v : PreVars) (m : Mat) :
  pre_binary v = Some m -> hnd m = h -> below (pre_gray v) h ->
  maintains (both (fun v' => v' = v) (liveBelow h)) preprocessImage_finally (fun _ => True).
Proof.
  intros Hb Hm Hg. unfold preprocessImage_finally.
  apply maintains_tryCatch; [|intros e; apply maintains_ret; exact I].
  eapply maintains_bind; [apply maintains_locals | intros v' ->].
  eapply maintains_bind;
    [apply maintains_inWorld, maintains_deleteIf_below, Hg | intros _ _].
  apply (maintains_forEach _ _ (fun _ => True)); [|exact I].
  intros [] mat _ _. rewrite Hb. unfold sameObject.
  destruct (Nat.eqb (hnd mat) (hnd m)) eqn:Eq; cbn [negb].
  - apply maintains_ret. exact I.
  - apply maintains_tryCatch; [|intros e; apply maintains_ret; exact I].
    apply maintains_inWorld, maintains_delete_other.
    apply Nat.eqb_neq in Eq. congruence.
Qed.

(** What [preprocessImage] returns is a new object that is allocated when
    it returns: its [finally] releases the gray image and the three
    binarizations, never the copy it hands out. *)
Lemma preprocessImage_result_live (srcMat : Mat) (w : World) m w' :
  preprocessImage cv srcMat w = (Ok m, w') ->
  (next w <= hnd m)%nat /\ liveBelow (hnd m) w'.
Proof.
  unfold preprocessImage, block, tryFinally, tryCatch. intros E.
  destruct (preprocessImage_try cv srcMat (mkPreVars None None [], w))
    as [[m0|e] [v1 w1]] eqn:Et.
  - apply preprocessImage_try_result in Et as (Hb & Hg & N & L).
    pose proof (preprocessImage_finally_keeps (hnd m0) v1 m0 Hb eq_refl Hg
                  (v1, w1) (conj eq_refl L)) as [[_ Hf] _].
    destruct (preprocessImage_finally (v1, w1)) as [[u|e] s2];
      inversion E; subst. split; [exact N | exact Hf].
  - unfold throw in E.
    destruct (preprocessImage_finally (v1, w1)) as [[u|e1] s2]; discriminate.
Qed.
End ResultsAreLive.

(** ** The primary path *)

Lemma firstMaximum_unique (scores : list Z) (i j : nat) :
  firstMaximum scores i -> firstMaximum scores j -> i = j.
Proof.
  intros (s & Hs & Hmax & Hfirst) (t & Ht & Hmax' & Hfirst').
  destruct (Nat.lt_trichotomy i j) as [H | [H | H]]; [|exact H|].
  - pose proof (Hfirst' i s H Hs). pose proof (Hmax j t Ht). lia.
  - pose proof (Hfirst j t H Ht). pose proof (Hmax' i s Hs). lia.
Qed.

Lemma isLive_grown_old (w : World) (k : nat) (h : nat) :
  isLive h w = true -> isLive h (grown w k) = true.
Proof.
  intros H. unfold isLive, grown in *. cbn [live]. rewrite existsb_app, H.
  apply orb_true_r.
Qed.

Section PrimaryPath.
Variable cv : OpenCV.
Variable Math_atan2 : Q -> Q -> Q.

Lemma preprocessImage_keeps (srcMat : Mat) (w : World) :
  keeps w (snd (preprocessImage cv srcMat w)).
Proof.
  apply (maintains_preprocessImage cv w (keeps w)).
  - intros w1 (_ & N & _). exact N.
  - intros A v w1. apply keeps_alloc.
  - intros A o w1. apply keeps_delete.
  - apply keeps_refl.
Qed.

Lemma findLinesAndPoints_keeps (binaryImage : Mat) (w : World) :
  keeps w (snd (findLinesAndPoints cv binaryImage w)).
Proof.
  apply (maintains_findLinesAndPoints cv w (keeps w)).
  - intros w1 (_ & N & _). exact N.
  - intros A v w1. apply keeps_alloc.
  - intros A o w1. apply keeps_delete.
  - apply keeps_refl.
Qed.

Lemma preprocessImage_run (srcMat : Mat) (w : World)
    (g b1 b2 b3 : Raster) (s1 s2 s3 : Z) :
  rows (val srcMat) <> 0%Z -> cols (val srcMat) <> 0%Z ->
  grayOf cv (val srcMat) = Ok g ->
  threshold cv g 0 255 (THRESH_BINARY cv + THRESH_OTSU cv)%Z = Ok b1 ->
  adaptiveThreshold cv g 255 (ADAPTIVE_THRESH_GAUSSIAN_C cv) (THRESH_BINARY cv) 11 2
    = Ok b2 ->
  threshold cv g 128 255 (THRESH_BINARY cv) = Ok b3 ->
  scored cv b1 s1 -> scored cv b2 s2 -> scored cv b3 s3 ->
  exists i m w',
    preprocessImage cv srcMat w = (Ok m, w') /\
    nth_error [b1; b2; b3] i = Some (val m) /\
    firstMaximum [s1; s2; s3] i.
Proof.
  intros Hr Hc Hg H1 H2 H3 S1 S2 S3.
  destruct (preprocessImage_try_run cv srcMat w g b1 b2 b3 s1 s2 s3
              Hr Hc Hg H1 H2 H3 S1 S2 S3) as (i & m & v1 & w1 & E & Hn & Hm).
  assert (Ef : exists st, preprocessImage_finally (v1, w1) = (Ok tt, st))
    by (unfold preprocessImage_finally; apply tryCatch_swallow).
  destruct Ef as ([v2 w2] & E2).
  exists i, m, w2. split; [|split; assumption].
  assert (Et : tryCatch (preprocessImage_try cv srcMat) (fun error => throw error)
                 (mkPreVars None None [], w) = (Ok m, (v1, w1)))
    by (unfold tryCatch; rewrite E; reflexivity).
  unfold preprocessImage, block.
  rewrite (tryFinally_run _ _ _ _ _ _ Et E2). reflexivity.
Qed.

(** The primary path of [alignUserImage].  On a ready aligner with at
    least four template points, when the image decodes to a raster of
    non-zero size, its gray conversion, three binarizations and their
    scoring answer, and feature detection on the selected binarization [b]
    finds the deduplicated points [pts], at least four: the result is the
    library's warp of the decoded image, at the template size, by the
    transform the library computes from the first four points of [pts] to
    the first four template points, paired by position.  The returned image
    is a new object, allocated when the call returns, and the session is
    unchanged. *)
Theorem alignUserImage_primary_path
    (userImageElement : Element) (w : World)
    (src g b1 b2 b3 : Raster) (s1 s2 s3 : Z) (i : nat) (b : Raster)
    (pts : list Point) (h : Homography) (img : Raster) :
  isInitialized (self w) = true ->
  imread cv userImageElement = Ok src ->
  rows src <> 0%Z -> cols src <> 0%Z ->
  grayOf cv src = Ok g ->
  threshold cv g 0 255 (THRESH_BINARY cv + THRESH_OTSU cv)%Z = Ok b1 ->
  adaptiveThreshold cv g 255 (ADAPTIVE_THRESH_GAUSSIAN_C cv) (THRESH_BINARY cv) 11 2
    = Ok b2 ->
  threshold cv g 128 255 (THRESH_BINARY cv) = Ok b3 ->
  scored cv b1 s1 -> scored cv b2 s2 -> scored cv b3 s3 ->
  nth_error [b1; b2; b3] i = Some b -> firstMaximum [s1; s2; s3] i ->
  candidatePoints cv b = Ok pts -> (4 <= List.length pts)%nat ->
  (4 <= List.length (templatePoints (self w)))%nat ->
  getPerspectiveTransform cv (coordinates (firstn 4 pts))
    (coordinates (firstn 4 (templatePoints (self w)))) = Ok h ->
  warpPerspective cv src h (templateSize (self w)) = Ok img ->
  exists hh w',
    alignUserImage cv Math_atan2 userImageElement w
      = (Ok (Alignment.mk true (Some (mkNative hh img)) None), w') /\
    isLive hh w' = true /\ self w' = self w.
Proof.
  intros Hi Hread Hr Hc Hg H1 H2 H3 S1 S2 S3 Hb Hmax Hpts H4 Ht Hh Hw.
  destruct (alignUserImage cv Math_atan2 userImageElement w) as [r wf] eqn:E.
  unfold alignUserImage, this in E. unfold bind at 1 in E. rewrite Hi in E.
  cbn [negb] in E. unfold tryCatch, alignUserImage_try in E.
  rewrite Hread in E. unfold call at 1 in E. unfold bind at 1 in E.
  unfold bind at 1 in E. cbn [alloc] in E.
  set (srcMat := mkNative (next w) src) in *.
  set (wa := mkWorld (self w) (next w :: live w) (S (next w))) in *.
  assert (La : liveBelow (next w) wa).
  { unfold liveBelow, isLive, wa. cbn [live next existsb]. rewrite Nat.eqb_refl.
    split; [reflexivity | lia]. }
  (* preprocessing *)
  destruct (preprocessImage_run srcMat wa g b1 b2 b3 s1 s2 s3 Hr Hc Hg H1 H2 H3 S1 S2 S3)
    as (i' & m & wb & Ep & Hn & Hm').
  pose proof (firstMaximum_unique _ _ _ Hmax Hm'). subst i'.
  rewrite Hb in Hn. injection Hn as Hv.
  pose proof (preprocessImage_result_live cv srcMat wa m wb Ep) as (Nm & Lm & Bm).
  pose proof (preprocessImage_keeps srcMat wa) as (Sb & Nb & Kb).
  rewrite Ep in Sb, Nb, Kb. cbn [snd] in Sb, Nb, Kb.
  rewrite (bind_ok _ _ _ _ _ Ep) in E.
  (* feature detection *)
  destruct (findLinesAndPoints_run cv m wb) as (wc & Ed).
  pose proof (findLinesAndPoints_keeps m wb) as (Sc & Nc & Kc).
  rewrite Ed in Sc, Nc, Kc. cbn [snd] in Sc, Nc, Kc.
  rewrite (bind_ok _ _ _ _ _ Ed) in E. rewrite <- Hv, Hpts in E.
  assert (Hz : (4 <=? Zlength pts)%Z = true)
    by (apply Z.leb_le; unfold Zlength; lia).
  unfold needsFallback in E. cbn [Detection.success Detection.points] in E.
  rewrite Hz in E. cbn [negb orb] in E.
  assert (Hz' : (Zlength pts <? 4)%Z = false)
    by (apply Z.ltb_ge; unfold Zlength; lia).
  rewrite Hz' in E.
  unfold this at 1 in E. unfold bind at 1 in E.
  assert (Sw : self wc = self w) by (rewrite Sc, Sb; reflexivity).
  rewrite Sw in E.
  pose proof (calculatePerspectiveTransform_run cv _ _ wc H4 Ht) as Ec.
  rewrite Hh in Ec. rewrite (bind_ok _ _ _ _ _ Ec) in E. clear Ec.
  rewrite (bind_ok _ _ _ _ _ (alloc_grown emptyRaster wc 3)) in E.
  cbn [val] in E. rewrite (bind_ok _ _ _ _ _ (into_run _ _ _ _ Hw)) in E.
  cbn [hnd] in E.
  assert (Na : next wa = S (next w)) by reflexivity.
  rewrite Na in Nm, Nb, Kb.
  assert (L0 : isLive (next w) (grown wc 4) = true).
  { apply isLive_grown_old. rewrite Kc by lia. rewrite Kb by lia. apply La. }
  assert (L1 : isLive (hnd m) (grown wc 4) = true).
  { apply isLive_grown_old. rewrite Kc by lia. exact Lm. }
  assert (L2 : forall k : nat, (k < 4)%nat -> isLive (next wc + k)%nat (grown wc 4) = true)
    by (intros k Hk; apply isLive_grown; lia).
  destruct (delete_live srcMat _ L0) as (w1 & D1 & Q1 & _ & K1).
  rewrite (bind_ok _ _ _ _ _ D1) in E.
  change (hnd srcMat) with (next w) in K1.
  destruct (delete_live m w1) as (w2 & D2 & Q2 & _ & K2).
  { rewrite K1 by lia. exact L1. }
  rewrite (bind_ok _ _ _ _ _ D2) in E.
  destruct (delete_live (mkNative (2 + next wc)%nat h) w2) as (w3 & D3 & Q3 & _ & K3).
  { cbn [hnd]. rewrite K2, K1 by lia.
    replace (2 + next wc)%nat with (next wc + 2)%nat by lia. apply L2. lia. }
  rewrite (bind_ok _ _ _ _ _ D3) in E. cbn [hnd] in K3.
  unfold ret in E. exists (next wc + 3)%nat, w3. split; [symmetry; exact E|].
  split.
  - rewrite K3, K2, K1 by lia. apply L2. lia.
  - rewrite Q3, Q2, Q1. exact Sw.
Qed.
End PrimaryPath.

Lemma alignUserImage_primary_path_witness :
  exists hh w',
    alignUserImage (Stub.cv Stub.sheet) Stub.atan2 Stub.page Stub.ready
      = (Ok (Alignment.mk true (Some (mkNative hh (mkRaster 100 200 4 []))) None), w') /\
    isLive hh w' = true /\ self w' = self Stub.ready.
Proof.
  apply (alignUserImage_primary_path (Stub.cv Stub.sheet) Stub.atan2 Stub.page Stub.ready
           (mkRaster 100 200 4 []) (mkRaster 100 200 1 [])
           (mkRaster 100 200 1 Stub.otsuTag) (mkRaster 100 200 1 Stub.adaptiveTag)
           (mkRaster 100 200 1 Stub.fixedTag) 1%Z 1%Z 1%Z 0%nat
           (mkRaster 100 200 1 Stub.otsuTag)
           [mkPoint 50 10; mkPoint 150 10; mkPoint 150 90; mkPoint 50 90]
           (coordinates [mkPoint 50 10; mkPoint 150 10; mkPoint 150 90; mkPoint 50 90]
            ++ coordinates [mkPoint 50 10; mkPoint 150 10; mkPoint 150 90; mkPoint 50 90])
           (mkRaster 100 200 4 [])).
  - reflexivity.
  - reflexivity.
  - discriminate.
  - discriminate.
  - reflexivity.
  - reflexivity.
  - reflexivity.
  - reflexivity.
  - exists [Stub.rect 50 10 100 80], [Stub.shoelace (Stub.rect 50 10 100 80)].
    split; [reflexivity|]. split; [repeat constructor | reflexivity].
  - exists [Stub.rect 50 10 100 80], [Stub.shoelace (Stub.rect 50 10 100 80)].
    split; [reflexivity|]. split; [repeat constructor | reflexivity].
  - exists [Stub.rect 50 10 100 80], [Stub.shoelace (Stub.rect 50 10 100 80)].
    split; [reflexivity|]. split; [repeat constructor | reflexivity].
  - reflexivity.
  - exists 1%Z. split; [reflexivity|]. split.
    + intros [|[|[|j]]] t Hj; simpl in Hj;
        try (injection Hj as <-; lia); destruct j; discriminate.
    + intros j t Hj. lia.
  - vm_compute. reflexivity.
  - simpl. lia.
  - simpl. lia.
  - reflexivity.
  - reflexivity.
Defined.

(** What [preprocessImage] hands out is a new object that is still
    allocated: whenever it returns a matrix, for every library behaviour,
    that matrix was created during the call and has not been released by
    the [finally] block, which releases the gray image and the three
    binarizations only. *)
Theorem preprocessImage_returns_allocated_copy
    (cv : OpenCV) (srcMat : Mat) (w : World) (m : Mat) (w' : World) :
  preprocessImage cv srcMat w = (Ok m, w') ->
  (next w <= hnd m)%nat /\ isLive (hnd m) w' = true /\ (hnd m < next w')%nat.
Proof.
  intros E. destruct (preprocessImage_result_live cv srcMat w m w' E) as (N & L & B).
  auto.
Qed.

Lemma preprocessImage_returns_allocated_copy_witness :
  (next Stub.holding <= 14)%nat /\
  isLive 14%nat (snd (preprocessImage (Stub.cv Stub.framed) Stub.rgba Stub.holding)) = true /\
  (14 < next (snd (preprocessImage (Stub.cv Stub.framed) Stub.rgba Stub.holding)))%nat.
Proof.
  apply (preprocessImage_returns_allocated_copy (Stub.cv Stub.framed) Stub.rgba Stub.holding
           (mkNative 14%nat (mkRaster 100 200 1 Stub.otsuTag))
           (snd (preprocessImage (Stub.cv Stub.framed) Stub.rgba Stub.holding))).
  vm_compute. reflexivity.
Defined.

(** ** The fallback path *)

Section FallbackPath.
Variable cv : OpenCV.
Variable Math_atan2 : Q -> Q -> Q.

Lemma fallbackAlignment_keeps (srcMat : Mat) (w : World) :
  keeps w (snd (fallbackAlignment cv Math_atan2 srcMat w)).
Proof.
  apply (maintains_fallbackAlignment cv Math_atan2 w (keeps w)).
  - intros w1 (_ & N & _). exact N.
  - intros A v w1. apply keeps_alloc.
  - intros A o w1. apply keeps_delete.
  - apply keeps_refl.
Qed.

(** The fallback path of [alignUserImage].  On a ready aligner, when the
    image is decoded and preprocessed and feature detection does not give
    four points (it faults, or finds fewer), the call returns what
    [fallbackAlignment] returns on the decoded image if that is a success,
    and otherwise the failure record with the fixed reason
    [alignFailedError]: the reason given by the fallback is dropped.  On
    this path neither the decoded image nor its binarization is released. *)
Theorem alignUserImage_fallback_path
    (userImageElement : Element) (w : World) (src : Raster) (m : Mat) (wb : World) :
  isInitialized (self w) = true ->
  imread cv userImageElement = Ok src ->
  preprocessImage cv (mkNative (next w) src) (snd (alloc src w)) = (Ok m, wb) ->
  match candidatePoints cv (val m) with
  | Ok pts => (List.length pts < 4)%nat
  | Throw _ => True
  end ->
  exists fallbackResult w',
    fallbackAlignment cv Math_atan2 (mkNative (next w) src)
      (snd (findLinesAndPoints cv m wb)) = (Ok fallbackResult, w') /\
    alignUserImage cv Math_atan2 userImageElement w
      = (Ok (if Alignment.success fallbackResult then fallbackResult
             else Alignment.mk false None (Some alignFailedError)), w') /\
    isLive (next w) w' = true /\ isLive (hnd m) w' = true.
Proof.
  intros Hi Hread Ep Hpts.
  pose proof (preprocessImage_result_live cv _ _ m wb Ep) as (Nm & Lm & Bm).
  pose proof (preprocessImage_keeps cv (mkNative (next w) src) (snd (alloc src w)))
    as (_ & Nb & Kb).
  rewrite Ep in Nb, Kb. cbn [snd alloc next] in Nm, Nb, Kb.
  destruct (findLinesAndPoints_run cv m wb) as (wc & Ed).
  pose proof (findLinesAndPoints_keeps cv m wb) as (_ & Nc & Kc).
  rewrite Ed in Nc, Kc |- *. cbn [snd] in Nc, Kc |- *.
  destruct (fallbackAlignment_returns cv Math_atan2 (mkNative (next w) src) wc)
    as (fr & wd & Ef).
  pose proof (fallbackAlignment_keeps (mkNative (next w) src) wc) as (_ & Nd & Kd).
  rewrite Ef in Nd, Kd. cbn [snd] in Nd, Kd.
  exists fr, wd. split; [exact Ef|]. split.
  - unfold alignUserImage, this. unfold bind at 1. rewrite Hi. cbn [negb].
    unfold tryCatch, alignUserImage_try. rewrite Hread.
    unfold call at 1. unfold bind at 1. unfold bind at 1.
    change (alloc src w) with (Ok (mkNative (next w) src), snd (alloc src w)).
    cbv iota. rewrite (bind_ok _ _ _ _ _ Ep). rewrite (bind_ok _ _ _ _ _ Ed).
    assert (Hn : needsFallback
                   (match candidatePoints cv (val m) with
                    | Ok u => Detection.mk (4 <=? Zlength u)%Z u
                    | Throw _ => Detection.mk false []
                    end) = true).
    { unfold needsFallback. destruct (candidatePoints cv (val m)) as [pts|e].
      - cbn [Detection.success Detection.points]. apply orb_true_iff. right.
        apply Z.ltb_lt. unfold Zlength. lia.
      - reflexivity. }
    rewrite Hn. rewrite (bind_ok _ _ _ _ _ Ef).
    destruct (Alignment.success fr); reflexivity.
  - split.
    + rewrite Kd, Kc, Kb by lia. unfold isLive. cbn [live existsb].
      rewrite Nat.eqb_refl. reflexivity.
    + rewrite Kd, Kc by lia. exact Lm.
Qed.
End FallbackPath.

Lemma alignUserImage_fallback_path_witness :
  exists fallbackResult w',
    fallbackAlignment (Stub.cv Stub.framed) Stub.atan2
      (mkNative (next Stub.ready) (mkRaster 100 200 4 []))
      (snd (findLinesAndPoints (Stub.cv Stub.framed)
              (mkNative 14%nat (mkRaster 100 200 1 Stub.otsuTag))
              (snd (preprocessImage (Stub.cv Stub.framed)
                      (mkNative (next Stub.ready) (mkRaster 100 200 4 []))
                      (snd (alloc (mkRaster 100 200 4 []) Stub.ready))))))
      = (Ok fallbackResult, w') /\
    alignUserImage (Stub.cv Stub.framed) Stub.atan2 Stub.page Stub.ready
      = (Ok (if Alignment.success fallbackResult then fallbackResult
             else Alignment.mk false None (Some alignFailedError)), w') /\
    isLive (next Stub.ready) w' = true /\
    isLive (hnd (mkNative 14%nat (mkRaster 100 200 1 Stub.otsuTag))) w' = true.
Proof.
  apply (alignUserImage_fallback_path (Stub.cv Stub.framed) Stub.atan2 Stub.page Stub.ready
           (mkRaster 100 200 4 []) (mkNative 14%nat (mkRaster 100 200 1 Stub.otsuTag))
           (snd (preprocessImage (Stub.cv Stub.framed)
                   (mkNative (next Stub.ready) (mkRaster 100 200 4 []))
                   (snd (alloc (mkRaster 100 200 4 []) Stub.ready))))).
  - reflexivity.
  - reflexivity.
  - vm_compute. reflexivity.
  - vm_compute. exact I.
Defined.

(** ** The image of a success is allocated *)

Lemma alloc_inv {A} (x : A) (w : World) a w' :
  alloc x w = (Ok a, w') ->
  hnd a = next w /\ next w' = S (next w) /\ liveBelow (next w) w'.
Proof.
  intros E. inversion E; subst. cbn [hnd next]. split; [reflexivity|].
  split; [reflexivity | apply (alloc_liveBelow x w)].
Qed.

Lemma delete_ok_other {A} (o : Native A) (h : nat) (w : World) u w' :
  delete o w = (Ok u, w') -> hnd o <> h -> liveBelow h w -> liveBelow h w'.
Proof.
  intros E Hne L. replace w' with (snd (delete o w)) by (rewrite E; reflexivity).
  apply delete_other; assumption.
Qed.

Section SuccessImage.
Variable cv : OpenCV.
Variable Math_atan2 : Q -> Q -> Q.

Lemma largestContour_keeps (cs : list Contour) (w : World) :
  keeps w (snd (largestContour cv cs w)).
Proof.
  apply (maintains_largestContour cv w (keeps w)).
  - intros w1 (_ & N & _). exact N.
  - intros A v w1. apply keeps_alloc.
  - apply keeps_refl.
Qed.

Lemma createCVPointMatrix_inv (points : list Point) (w : World) a w' :
  createCVPointMatrix points w = (Ok a, w') -> next w' = S (next w).
Proof.
  unfold createCVPointMatrix. intros E.
  apply bind_ok_inv in E as (pm & w1 & E1 & E). eapply alloc_inv in E1 as (_ & N & _).
  inversion E; subst. exact N.
Qed.

Lemma calculatePerspectiveTransform_inv (srcPoints dstPoints : list Point) (w : World) M w' :
  calculatePerspectiveTransform cv srcPoints dstPoints w = (Ok M, w') ->
  (next w <= hnd M)%nat /\ (hnd M < next w')%nat.
Proof.
  unfold calculatePerspectiveTransform. intros E.
  apply bind_ok_inv in E as (sm & w1 & E1 & E). apply createCVPointMatrix_inv in E1.
  apply bind_ok_inv in E as (dm & w2 & E2 & E). apply createCVPointMatrix_inv in E2.
  apply bind_ok_inv in E as (h & w3 & E3 & E). apply call_ok_inv in E3 as (_ & ->).
  eapply alloc_inv in E as (Hh & Hn & _). lia.
Qed.

Lemma fallbackAlignment_image_live (srcMat : Mat) (w : World) r w' :
  fallbackAlignment cv Math_atan2 srcMat w = (Ok r, w') ->
  Alignment.success r = true ->
  exists img, r = Alignment.mk true (Some img) None /\
    (next w <= hnd img)%nat /\ liveBelow (hnd img) w'.
Proof.
  intros E Hs. unfold fallbackAlignment, tryCatch in E.
  match type of E with
  | (let (o, s') := ?body w in _) = _ => destruct (body w) as [[r1|e] w1] eqn:Eb
  end; [|inversion E; subst; discriminate].
  inversion E; subst; clear E Hs.
  apply bind_ok_inv in Eb as (gray & s1 & A1 & Eb). eapply alloc_inv in A1 as (G1 & N1 & _).
  apply bind_ok_inv in Eb as (gray' & s2 & A2 & Eb).
  apply into_ok_inv in A2 as (_ & G2 & ->).
  apply bind_ok_inv in Eb as (bin & s3 & A3 & Eb). eapply alloc_inv in A3 as (G3 & N3 & _).
  apply bind_ok_inv in Eb as (bin' & s4 & A4 & Eb).
  apply into_ok_inv in A4 as (_ & G4 & ->).
  apply bind_ok_inv in Eb as (cont & s5 & A5 & Eb). eapply alloc_inv in A5 as (G5 & N5 & _).
  apply bind_ok_inv in Eb as (hier & s6 & A6 & Eb). eapply alloc_inv in A6 as (G6 & N6 & _).
  apply bind_ok_inv in Eb as (cont' & s7 & A7 & Eb).
  apply into_ok_inv in A7 as (_ & G7 & ->).
  apply bind_ok_inv in Eb as ([maxArea maxContour] & s8 & Hl & Eb).
  pose proof (largestContour_keeps (val cont') s6) as (_ & N8 & _).
  rewrite Hl in N8. cbn [snd] in N8.
  destruct maxContour as [mc|]; [|discriminate].
  destruct (Qlt_bool maxArea _); [discriminate|].
  apply bind_ok_inv in Eb as (approx & s9 & A9 & Eb). eapply alloc_inv in A9 as (G9 & N9 & _).
  apply bind_ok_inv in Eb as (p & s10 & A10 & Eb). apply call_ok_inv in A10 as (_ & ->).
  apply bind_ok_inv in Eb as (approx' & s11 & A11 & Eb).
  apply into_ok_inv in A11 as (_ & G11 & ->).
  destruct (negb _); [discriminate|].
  apply bind_ok_inv in Eb as (a & s12 & A12 & Eb). inversion A12; subst a s12; clear A12.
  apply bind_ok_inv in Eb as (M & s13 & A13 & Eb).
  apply calculatePerspectiveTransform_inv in A13 as (N13 & B13).
  apply bind_ok_inv in Eb as (img & s14 & A14 & Eb).
  eapply alloc_inv in A14 as (G14 & N14 & L14).
  apply bind_ok_inv in Eb as (img' & s15 & A15 & Eb).
  apply into_ok_inv in A15 as (_ & G15 & ->).
  apply bind_ok_inv in Eb as (u1 & d1 & D1 & Eb).
  apply bind_ok_inv in Eb as (u2 & d2 & D2 & Eb).
  apply bind_ok_inv in Eb as (u3 & d3 & D3 & Eb).
  apply bind_ok_inv in Eb as (u4 & d4 & D4 & Eb).
  apply bind_ok_inv in Eb as (u5 & d5 & D5 & Eb).
  apply bind_ok_inv in Eb as (u6 & d6 & D6 & Eb).
  inversion Eb; subst; clear Eb.
  exists img'. split; [reflexivity|]. rewrite G15, G14. split; [lia|].
  apply (delete_ok_other _ _ _ _ _ D6); [lia|].
  apply (delete_ok_other _ _ _ _ _ D5); [lia|].
  apply (delete_ok_other _ _ _ _ _ D4); [lia|].
  apply (delete_ok_other _ _ _ _ _ D3); [lia|].
  apply (delete_ok_other _ _ _ _ _ D2); [lia|].
  apply (delete_ok_other _ _ _ _ _ D1); [lia|].
  exact L14.
Qed.

Lemma alignUserImage_try_image_live (userImageElement : Element) (w : World) r w' :
  alignUserImage_try cv Math_atan2 userImageElement w = (Ok r, w') ->
  exists img, r = Alignment.mk true (Some img) None /\
    (next w <= hnd img)%nat /\ liveBelow (hnd img) w'.
Proof.
  unfold alignUserImage_try. intros E.
  apply bind_ok_inv in E as (src & s0 & A0 & E). apply call_ok_inv in A0 as (_ & ->).
  apply bind_ok_inv in E as (srcMat & wa & A1 & E). eapply alloc_inv in A1 as (G1 & N1 & _).
  apply bind_ok_inv in E as (m & wb & Ep & E).
  pose proof (preprocessImage_result_live cv _ _ _ _ Ep) as (Nm & _ & Bm).
  pose proof (preprocessImage_keeps cv srcMat wa) as (_ & Nb & _).
  rewrite Ep in Nb. cbn [snd] in Nb.
  apply bind_ok_inv in E as (d & wc & Ed & E).
  pose proof (findLinesAndPoints_keeps cv m wb) as (_ & Nc & _).
  rewrite Ed in Nc. cbn [snd] in Nc.
  destruct (needsFallback d).
  - apply bind_ok_inv in E as (fr & wd & Ef & E).
    destruct (Alignment.success fr) eqn:Hs; cbn [negb] in E; [|discriminate].
    inversion E; subst r w'; clear E.
    destruct (fallbackAlignment_image_live _ _ _ _ Ef Hs) as (img & -> & Ni & Li).
    exists img. split; [reflexivity|]. split; [lia | exact Li].
  - apply bind_ok_inv in E as (a & s1 & A2 & E). inversion A2; subst a s1; clear A2.
    apply bind_ok_inv in E as (M & we & Ec & E).
    apply calculatePerspectiveTransform_inv in Ec as (NM & BM).
    apply bind_ok_inv in E as (img & wf & A3 & E). eapply alloc_inv in A3 as (G3 & N3 & L3).
    apply bind_ok_inv in E as (img' & s2 & A4 & E).
    apply into_ok_inv in A4 as (_ & G4 & ->).
    apply bind_ok_inv in E as (u1 & d1 & D1 & E).
    apply bind_ok_inv in E as (u2 & d2 & D2 & E).
    apply bind_ok_inv in E as (u3 & d3 & D3 & E).
    inversion E; subst r w'; clear E.
    exists img'. split; [reflexivity|]. rewrite G4, G3. split; [lia|].
    apply (delete_ok_other _ _ _ _ _ D3); [lia|].
    apply (delete_ok_other _ _ _ _ _ D2); [lia|].
    apply (delete_ok_other _ _ _ _ _ D1); [lia|].
    exact L3.
Qed.

Lemma alignUserImage_image_live (userImageElement : Element) (w : World) r w' :
  alignUserImage cv Math_atan2 userImageElement w = (Ok r, w') ->
  Alignment.success r = true ->
  exists img, r = Alignment.mk true (Some img) None /\
    (next w <= hnd img)%nat /\ liveBelow (hnd img) w'.
Proof.
  unfold alignUserImage, this. unfold bind at 1. intros E Hs.
  destruct (negb (isInitialized (self w))).
  - inversion E; subst. discriminate.
  - apply tryCatch_ok_inv in E as [E | (e & s1 & _ & E)].
    + apply (alignUserImage_try_image_live userImageElement). exact E.
    + inversion E; subst. discriminate.
Qed.
End SuccessImage.

(** A success never hands out a released image.  Whenever [alignUserImage]
    returns a record with [success = true], by the primary path or by the
    fallback and whatever the library answered, the record carries an image
    and no error, the image is an object created during the call, and it is
    still allocated when the call returns: every release the call makes is
    of an object created before the image. *)
Theorem alignUserImage_success_image_is_allocated
    (cv : OpenCV) (Math_atan2 : Q -> Q -> Q) (userImageElement : Element)
    (w : World) (r : Alignment.t) (w' : World) :
  alignUserImage cv Math_atan2 userImageElement w = (Ok r, w') ->
  Alignment.success r = true ->
  exists img, r = Alignment.mk true (Some img) None /\
    (next w <= hnd img)%nat /\ isLive (hnd img) w' = true.
Proof.
  intros E Hs.
  destruct (alignUserImage_image_live cv Math_atan2 _ _ _ _ E Hs) as (img & -> & N & L & _).
  exists img. auto.
Qed.

Lemma alignUserImage_success_image_is_allocated_witness :
  exists img,
    Alignment.mk true (Some (mkNative 25%nat (mkRaster 100 200 4 []))) None
      = Alignment.mk true (Some img) None /\
    (next Stub.ready <= hnd img)%nat /\
    isLive (hnd img)
      (snd (alignUserImage (Stub.cv Stub.framed) Stub.atan2 Stub.page Stub.ready)) = true.
Proof.
  apply (alignUserImage_success_image_is_allocated (Stub.cv Stub.framed) Stub.atan2
           Stub.page Stub.ready
           (Alignment.mk true (Some (mkNative 25%nat (mkRaster 100 200 4 []))) None)
           (snd (alignUserImage (Stub.cv Stub.framed) Stub.atan2 Stub.page Stub.ready))).
  - vm_compute. reflexivity.
  - reflexivity.
Defined.

(** * The page *)

Section PageRules.
Variable P : bool -> World -> bool -> bool -> option Element -> Prop.

Lemma holds_setUI (f : UI -> UI) : maintains (holds P) (setUI f) (fun _ => True).
Proof. intros s Hs. split; [exact Hs | auto]. Qed.

Lemma holds_updateStatus (text type : string) :
  maintains (holds P) (updateStatus text type) (fun _ => True).
Proof. apply holds_setUI. Qed.

Lemma holds_updateProgress (percentage : Z) :
  maintains (holds P) (updateProgress percentage) (fun _ => True).
Proof. apply holds_setUI. Qed.

Lemma holds_showMessage (message type : string) :
  maintains (holds P) (showMessage message type) (fun _ => True).
Proof. apply holds_setUI. Qed.

Lemma holds_updateTemplateStatus (status : string) :
  maintains (holds P) (updateTemplateStatus status) (fun _ => True).
Proof. apply holds_setUI. Qed.

Lemma holds_enableAlignBtn : maintains (holds P) enableAlignBtn (fun _ => True).
Proof. apply holds_setUI. Qed.

Lemma holds_setRecognizer : maintains (holds P) setRecognizer (fun _ => True).
Proof. intros s Hs. split; [exact Hs | auto]. Qed.

Lemma holds_system : maintains (holds P) system (holds P).
Proof. intros s Hs. split; [exact Hs|]. intros a E. inversion E; subst. exact Hs. Qed.

Lemma holds_setProcessing (b : bool) :
  (forall a w p t m, P a w p t m -> P a w b t m) ->
  maintains (holds P) (setProcessing b) (fun _ => True).
Proof. intros H s Hs. split; [apply (H _ _ _ _ _ Hs) | auto]. Qed.

Lemma holds_setTemplateLoaded (b : bool) :
  (forall a w p t m, P a w p t m -> P a w p b m) ->
  maintains (holds P) (setTemplateLoaded b) (fun _ => True).
Proof. intros H s Hs. split; [apply (H _ _ _ _ _ Hs) | auto]. Qed.

Lemma holds_setMaskImage (image : Element) :
  (forall a w p t m, P a w p t m -> P a w p t (Some image)) ->
  maintains (holds P) (setMaskImage image) (fun _ => True).
Proof. intros H s Hs. split; [apply (H _ _ _ _ _ Hs) | auto]. Qed.

Lemma holds_onAligner {A} (c : M A) (Q : A -> Prop) :
  (forall a p t m, maintains (fun w => P a w p t m) c Q) ->
  maintains (holds P) (onAligner c) Q.
Proof.
  intros H s Hs. unfold onAligner. destruct (hasAligner s) eqn:Ea.
  - destruct (H (hasAligner s) (isProcessing s) (templateLoaded s) (maskImage s)
                (world s) Hs) as [H1 H2].
    destruct (c (world s)) as [r w']. cbn [fst snd] in *.
    split; [|exact H2]. unfold holds. cbn. rewrite <- Ea. exact H1.
  - split; [exact Hs|]. intros a E. discriminate.
Qed.
End PageRules.

Create HintDb page.
#[export] Hint Resolve holds_updateStatus holds_updateProgress holds_showMessage
  holds_updateTemplateStatus holds_enableAlignBtn holds_setRecognizer holds_system
  maintains_call : page.

Ltac page_step :=
  first
    [ apply maintains_ret; try solve [exact I | assumption]
    | apply maintains_throw
    | eapply maintains_bind; [solve [eauto with page] | intros ? ?]
    | match goal with
      | |- maintains _ (if ?b then _ else _) _ => destruct b
      | |- maintains _ (match ?v with _ => _ end) _ => destruct v
      end ].

Lemma tryCatch_unit {S} (c : @Prog S unit) (h : Fault -> @Prog S unit) (s : S) :
  (forall e s1, fst (h e s1) = Ok tt) -> fst (tryCatch c h s) = Ok tt.
Proof.
  intros H. unfold tryCatch. destruct (c s) as [[[]|e] s1]; [reflexivity | apply H].
Qed.

Lemma tryFinally_setProcessing (c : Page unit) (s : System) :
  fst (c s) = Ok tt ->
  fst (tryFinally c (setProcessing false) s) = Ok tt /\
  isProcessing (snd (tryFinally c (setProcessing false) s)) = false /\
  (forall P, holds P (snd (c s)) ->
             (forall a w p t m, P a w p t m -> P a w false t m) ->
             holds P (snd (tryFinally c (setProcessing false) s))).
Proof.
  intros H. unfold tryFinally, setProcessing. destruct (c s) as [r s1].
  cbn [fst snd] in *. subst r. repeat split. intros P Hs HP. apply (HP _ _ _ _ _ Hs).
Qed.

Section PerformAlignment.
Variable cv : OpenCV.
Variable Math_atan2 : Q -> Q -> Q.
Variable displayAlignedImage : Mat -> outcome unit.

Lemma keeps_alignUserImage (w0 : World) (R : Prop) (image : Element) :
  maintains (fun w => keeps w0 w /\ R) (alignUserImage cv Math_atan2 image) (fun _ => True).
Proof.
  apply (maintains_alignUserImage cv Math_atan2 w0).
  - intros w ((_ & N & _) & _). exact N.
  - intros A v w (K & HR). split; [apply keeps_alloc; exact K | exact HR].
  - intros A o w (K & HR) Ho. split; [apply keeps_delete; assumption | exact HR].
Qed.

Section Invariant.
Variable P : bool -> World -> bool -> bool -> option Element -> Prop.
Hypothesis P_busy : forall a w p t m b, P a w p t m -> P a w b t m.
Hypothesis P_align :
  forall image a p t m,
    maintains (fun w => P a w p t m) (alignUserImage cv Math_atan2 image) (fun _ => True).

Lemma holds_performAlignment_try (mask : Element) :
  maintains (holds P)
            (performAlignment_try cv Math_atan2 displayAlignedImage mask)
            (fun _ => True).
Proof.
  unfold performAlignment_try.
  eapply maintains_bind;
    [apply holds_setProcessing; intros a w p t m H; apply (P_busy _ _ _ _ _ _ H)
    | intros _ _].
  do 2 page_step.
  eapply maintains_bind;
    [apply holds_onAligner; intros a' p' t' m'; apply P_align
    | intros alignmentResult _].
  page_step. destruct (Alignment.success alignmentResult); [|apply maintains_throw].
  apply (maintains_bind _ _ _ (fun _ => True)).
  - destruct (Alignment.alignedImage alignmentResult);
      [apply maintains_call | apply maintains_throw].
  - intros _ _. repeat page_step. apply holds_showMessage.
Qed.

Lemma holds_performAlignment :
  maintains (holds P)
            (performAlignment cv Math_atan2 displayAlignedImage) (fun _ => True).
Proof.
  unfold performAlignment.
  eapply maintains_bind; [apply holds_system | intros s Hs].
  destruct (isProcessing s); [apply holds_showMessage|].
  destruct (negb (templateLoaded s)); [apply holds_showMessage|].
  destruct (maskImage s) as [mask|]; [|apply holds_showMessage].
  apply (maintains_tryFinally _ _ _ _ (fun _ => True)).
  - apply maintains_tryCatch; [apply holds_performAlignment_try|].
    intros e. unfold performAlignment_catch. page_step. apply holds_showMessage.
  - apply holds_setProcessing. intros a w p t m H. apply (P_busy _ _ _ _ _ _ H).
Qed.
End Invariant.

Lemma sessionOf_performAlignment (s0 : System) :
  maintains (holds (sessionOf s0))
            (performAlignment cv Math_atan2 displayAlignedImage) (fun _ => True).
Proof.
  apply holds_performAlignment.
  - intros a w p t m b H. exact H.
  - intros image a p t m. unfold sessionOf.
    eapply maintains_weaken; [|intros x Hx; exact Hx].
    intros w (Ha & K & Ht). 
    destruct (keeps_alignUserImage (world s0)
                (a = hasAligner s0 /\ t = templateLoaded s0 /\ m = maskImage s0)
                image w) as [[K' _] _]; [tauto|].
    split; [|auto]. tauto.
Qed.

Lemma performAlignment_flag (s : System) :
  fst (performAlignment cv Math_atan2 displayAlignedImage s) = Ok tt /\
  isProcessing (snd (performAlignment cv Math_atan2 displayAlignedImage s))
    = isProcessing s.
Proof.
  destruct (performAlignment cv Math_atan2 displayAlignedImage s) as [r s'] eqn:E.
  unfold performAlignment, system in E. unfold bind at 1 in E. cbn [fst snd].
  destruct (isProcessing s) eqn:Ep;
    [inversion E; subst; split; [reflexivity | exact Ep]|].
  destruct (negb (templateLoaded s));
    [inversion E; subst; split; [reflexivity | exact Ep]|].
  destruct (maskImage s) as [mask|];
    [|inversion E; subst; split; [reflexivity | exact Ep]].
  destruct (tryFinally_setProcessing
              (tryCatch (performAlignment_try cv Math_atan2 displayAlignedImage mask)
                        performAlignment_catch) s) as (H1 & H2 & _).
  - apply tryCatch_unit. intros e s1. reflexivity.
  - rewrite E in H1, H2. split; assumption.
Qed.
End PerformAlignment.

(** [performAlignment] always comes back and gives the page back as it
    found it.  For every library and collaborator behaviour it returns
    normally with the busy flag, the template flag and the mask as they
    were, the aligner's fields unchanged and every earlier native object
    allocated exactly when it was before: a fault anywhere is absorbed and
    the busy flag is released again. *)
Theorem performAlignment_restores_the_page
    (cv : OpenCV) (Math_atan2 : Q -> Q -> Q) (displayAlignedImage : Mat -> outcome unit)
    (s : System) :
  fst (performAlignment cv Math_atan2 displayAlignedImage s) = Ok tt /\
  isProcessing (snd (performAlignment cv Math_atan2 displayAlignedImage s))
    = isProcessing s /\
  templateLoaded (snd (performAlignment cv Math_atan2 displayAlignedImage s))
    = templateLoaded s /\
  maskImage (snd (performAlignment cv Math_atan2 displayAlignedImage s)) = maskImage s /\
  keeps (world s) (world (snd (performAlignment cv Math_atan2 displayAlignedImage s))).
Proof.
  destruct (performAlignment_flag cv Math_atan2 displayAlignedImage s) as [H1 H2].
  destruct (sessionOf_performAlignment cv Math_atan2 displayAlignedImage s s)
    as [(_ & K & Ht & Hm) _].
  { split; [reflexivity|]. split; [apply keeps_refl|]. split; reflexivity. }
  auto.
Qed.

Section PerformAlignmentReports.
Variable cv : OpenCV.
Variable Math_atan2 : Q -> Q -> Q.
Variable displayAlignedImage : Mat -> outcome unit.

Lemma performAlignment_started (s : System) (mask : Element) :
  isProcessing s = false -> templateLoaded s = true -> maskImage s = Some mask ->
  performAlignment cv Math_atan2 displayAlignedImage s
    = tryFinally (tryCatch (performAlignment_try cv Math_atan2 displayAlignedImage mask)
                           performAlignment_catch)
                 (setProcessing false) s.
Proof.
  intros Hp Ht Hm. unfold performAlignment, system. unfold bind at 1.
  rewrite Hp, Ht, Hm. reflexivity.
Qed.

Lemma performAlignment_run (s : System) (mask : Element) (r : Alignment.t) (w' : World) :
  isProcessing s = false -> templateLoaded s = true -> maskImage s = Some mask ->
  hasAligner s = true ->
  alignUserImage cv Math_atan2 mask (world s) = (Ok r, w') ->
  world (snd (performAlignment cv Math_atan2 displayAlignedImage s)) = w' /\
  statusText (ui (snd (performAlignment cv Math_atan2 displayAlignedImage s)))
    = match statusText (ui s) with
      | None => None
      | Some _ =>
          if Alignment.success r then
            match Alignment.alignedImage r with
            | Some img =>
                match displayAlignedImage img with
                | Ok _ => Some ("图像对齐完成！", "status-ready")%string
                | Throw e => Some (("对齐失败: " ++ message e)%string, "status-error"%string)
                end
            | None =>
                Some ("对齐失败: TypeError: Cannot read properties of null",
                      "status-error")%string
            end
          else Some ("对齐失败: 图像对齐失败", "status-error")%string
      end.
Proof.
  intros Hp Ht Hm Ha E. rewrite (performAlignment_started s mask Hp Ht Hm).
  destruct s as [a w rec p t m [st pb pt ma ts ab]].
  cbn [isProcessing templateLoaded maskImage hasAligner world ui statusText] in *. subst.
  unfold tryFinally, tryCatch, performAlignment_try.
  revert E. generalize (alignUserImage cv Math_atan2 mask). intros A E.
  cbv [bind setProcessing updateStatus updateProgress setUI onAligner hasAligner world
       isProcessing templateLoaded maskImage ui hasRecognizer statusText progressBar progressText messageArea templateStatus alignBtn
       fst snd negb].
  rewrite E. destruct r as [ok image err]. cbn [Alignment.success Alignment.alignedImage].
  destruct ok.
  - destruct image as [img|].
    + unfold call. destruct (displayAlignedImage img) as [[]|e];
        cbn; destruct st; split; reflexivity.
    + cbn. destruct st; split; reflexivity.
  - cbn. destruct st; split; reflexivity.
Qed.
End PerformAlignmentReports.

(** What [performAlignment] reports.  When it is free to run (not busy,
    template flag set, mask chosen, aligner created) and the aligner
    answers with the record [r]: if [r] is a failure, the status line
    reads "对齐失败: 图像对齐失败" whatever reason [r] carries; if [r] is
    a success, its image is still allocated when the handler is done,
    since nothing on the page releases it, and the status line reads
    "图像对齐完成！" provided that drawing the image answered. *)
Theorem performAlignment_reports
    (cv : OpenCV) (Math_atan2 : Q -> Q -> Q) (displayAlignedImage : Mat -> outcome unit)
    (s : System) (mask : Element) (r : Alignment.t) (w' : World) :
  isProcessing s = false -> templateLoaded s = true -> maskImage s = Some mask ->
  hasAligner s = true ->
  alignUserImage cv Math_atan2 mask (world s) = (Ok r, w') ->
  (Alignment.success r = false ->
   statusText (ui (snd (performAlignment cv Math_atan2 displayAlignedImage s)))
     = match statusText (ui s) with
       | Some _ => Some ("对齐失败: 图像对齐失败", "status-error")%string
       | None => None
       end) /\
  (Alignment.success r = true ->
   exists img,
     Alignment.alignedImage r = Some img /\
     isLive (hnd img)
       (world (snd (performAlignment cv Math_atan2 displayAlignedImage s))) = true /\
     (displayAlignedImage img = Ok tt ->
      statusText (ui (snd (performAlignment cv Math_atan2 displayAlignedImage s)))
        = match statusText (ui s) with
          | Some _ => Some ("图像对齐完成！", "status-ready")%string
          | None => None
          end)).
Proof.
  intros Hp Ht Hm Ha E.
  destruct (performAlignment_run cv Math_atan2 displayAlignedImage s mask r w'
              Hp Ht Hm Ha E) as [Hw Hs].
  split.
  - intros Hf. rewrite Hs, Hf. reflexivity.
  - intros Hok.
    destruct (alignUserImage_image_live cv Math_atan2 mask (world s) r w' E Hok)
      as (img & -> & _ & L & _).
    exists img. split; [reflexivity|]. split; [rewrite Hw; exact L|].
    intros Hd. rewrite Hs. cbn [Alignment.success Alignment.alignedImage].
    rewrite Hd. reflexivity.
Qed.

Lemma performAlignment_reports_witness :
  (Alignment.success
     (Alignment.mk true (Some (mkNative 23%nat (mkRaster 100 200 4 []))) None) = false ->
   statusText (ui (snd (performAlignment (Stub.cv Stub.sheet) Stub.atan2
                          (fun _ => Ok tt) (pageAround Stub.ready))))
     = match statusText (ui (pageAround Stub.ready)) with
       | Some _ => Some ("对齐失败: 图像对齐失败", "status-error")%string
       | None => None
       end) /\
  (Alignment.success
     (Alignment.mk true (Some (mkNative 23%nat (mkRaster 100 200 4 []))) None) = true ->
   exists img,
     Alignment.alignedImage
       (Alignment.mk true (Some (mkNative 23%nat (mkRaster 100 200 4 []))) None)
       = Some img /\
     isLive (hnd img)
       (world (snd (performAlignment (Stub.cv Stub.sheet) Stub.atan2
                      (fun _ => Ok tt) (pageAround Stub.ready)))) = true /\
     ((fun _ : Mat => Ok tt) img = Ok tt ->
      statusText (ui (snd (performAlignment (Stub.cv Stub.sheet) Stub.atan2
                             (fun _ => Ok tt) (pageAround Stub.ready))))
        = match statusText (ui (pageAround Stub.ready)) with
          | Some _ => Some ("图像对齐完成！", "status-ready")%string
          | None => None
          end)).
Proof.
  apply (performAlignment_reports (Stub.cv Stub.sheet) Stub.atan2 (fun _ => Ok tt)
           (pageAround Stub.ready) Stub.page
           (Alignment.mk true (Some (mkNative 23%nat (mkRaster 100 200 4 []))) None)
           (snd (alignUserImage (Stub.cv Stub.sheet) Stub.atan2 Stub.page Stub.ready))).
  - reflexivity.
  - reflexivity.
  - reflexivity.
  - reflexivity.
  - vm_compute. reflexivity.
Defined.

Section PerformRecognition.
Variable cv : OpenCV.
Variable Math_atan2 : Q -> Q -> Q.
Variable displayAlignedImage : Mat -> outcome unit.
Variable visualizeRecognitionResults : Recognition.t -> outcome unit.
Variable optionRecognizerDefined : bool.

Lemma busy_performAlignment (s0 : System) :
  maintains (holds (busyAt s0))
            (performAlignment cv Math_atan2 displayAlignedImage) (fun _ => True).
Proof.
  intros s Hs. pose proof Hs as (Hp & _).
  unfold performAlignment, system. unfold bind at 1 2. rewrite Hp.
  apply holds_showMessage. exact Hs.
Qed.

Lemma busy_performRecognition_try (s0 : System) (mask : Element) :
  maintains (holds (busyAt s0))
            (performRecognition_try cv Math_atan2 displayAlignedImage
               visualizeRecognitionResults optionRecognizerDefined mask)
            (fun _ => True).
Proof.
  unfold performRecognition_try.
  eapply maintains_bind.
  { apply holds_setProcessing. intros a w p t m (_ & H). split; [reflexivity | exact H]. }
  intros _ _. do 2 page_step.
  apply (maintains_bind _ _ _ (fun _ => True)).
  { unfold notAligned. repeat page_step. }
  intros unaligned _.
  apply (maintains_bind _ _ _ (fun _ => True)).
  { destruct unaligned; [|apply maintains_ret; exact I].
    do 2 page_step.
    eapply maintains_bind; [apply busy_performAlignment | intros _ _].
    apply holds_updateProgress. }
  intros _ _. page_step.
  apply (maintains_bind _ _ _ (fun _ => True)).
  { unfold ensureRecognizer. page_step. repeat page_step. apply holds_setRecognizer. }
  intros _ _. page_step. cbv zeta. page_step.
  destruct (Recognition.success _); [|apply maintains_throw].
  repeat page_step. apply holds_showMessage.
Qed.

Lemma performRecognition_world (s : System) :
  fst (performRecognition cv Math_atan2 displayAlignedImage visualizeRecognitionResults
         optionRecognizerDefined s) = Ok tt /\
  isProcessing (snd (performRecognition cv Math_atan2 displayAlignedImage
                       visualizeRecognitionResults optionRecognizerDefined s))
    = isProcessing s /\
  world (snd (performRecognition cv Math_atan2 displayAlignedImage
                visualizeRecognitionResults optionRecognizerDefined s)) = world s /\
  templateLoaded (snd (performRecognition cv Math_atan2 displayAlignedImage
                         visualizeRecognitionResults optionRecognizerDefined s))
    = templateLoaded s /\
  maskImage (snd (performRecognition cv Math_atan2 displayAlignedImage
                    visualizeRecognitionResults optionRecognizerDefined s))
    = maskImage s.
Proof.
  destruct (performRecognition cv Math_atan2 displayAlignedImage
              visualizeRecognitionResults optionRecognizerDefined s) as [r s'] eqn:E.
  unfold performRecognition, system in E. unfold bind at 1 in E. cbn [fst snd].
  destruct (isProcessing s) eqn:Ep; [inversion E; subst; auto|].
  destruct (negb (templateLoaded s)); [inversion E; subst; auto|].
  destruct (maskImage s) as [mask|] eqn:Em; [|inversion E; subst; auto].
  set (try := performRecognition_try cv Math_atan2 displayAlignedImage
                visualizeRecognitionResults optionRecognizerDefined mask) in *.
  set (c := tryCatch try performRecognition_catch) in *.
  assert (Hc : maintains (holds (busyAt s)) c (fun _ => True)).
  { apply maintains_tryCatch; [apply busy_performRecognition_try|].
    intros e. unfold performRecognition_catch. page_step. apply holds_showMessage. }
  assert (Es : c s = c (snd (setProcessing true s))).
  { unfold c, tryCatch, try, performRecognition_try. unfold bind at 1 3. reflexivity. }
  destruct (Hc (snd (setProcessing true s))) as [(_ & Hw & Ht & Hm) _].
  { repeat split. }
  rewrite <- Es in Hw, Ht, Hm.
  destruct (tryFinally_setProcessing c s) as (H1 & H2 & _).
  { apply tryCatch_unit. intros e s1. reflexivity. }
  rewrite E in H1, H2. cbn [fst snd] in H1, H2.
  unfold tryFinally, setProcessing in E. destruct (c s) as [rc sc].
  inversion E; subst. cbn [world templateLoaded maskImage] in *.
  rewrite Em in Hm. auto.
Qed.
End PerformRecognition.

(** [performRecognition] never runs the aligner.  The class has no
    [isAligned] member, so the handler always calls [performAlignment], and
    it does so with the busy flag set: the nested call only shows the busy
    warning.  For every library and collaborator behaviour the handler
    returns normally and leaves the aligner, the native heap, the busy
    flag, the template flag and the mask exactly as they were. *)
Theorem performRecognition_never_aligns
    (cv : OpenCV) (Math_atan2 : Q -> Q -> Q) (displayAlignedImage : Mat -> outcome unit)
    (visualizeRecognitionResults : Recognition.t -> outcome unit)
    (optionRecognizerDefined : bool) (s : System) :
  fst (performRecognition cv Math_atan2 displayAlignedImage visualizeRecognitionResults
         optionRecognizerDefined s) = Ok tt /\
  isProcessing (snd (performRecognition cv Math_atan2 displayAlignedImage
                       visualizeRecognitionResults optionRecognizerDefined s))
    = isProcessing s /\
  world (snd (performRecognition cv Math_atan2 displayAlignedImage
                visualizeRecognitionResults optionRecognizerDefined s)) = world s /\
  templateLoaded (snd (performRecognition cv Math_atan2 displayAlignedImage
                         visualizeRecognitionResults optionRecognizerDefined s))
    = templateLoaded s /\
  maskImage (snd (performRecognition cv Math_atan2 displayAlignedImage
                    visualizeRecognitionResults optionRecognizerDefined s))
    = maskImage s.
Proof. apply performRecognition_world. Qed.

(** What [performRecognition] reports.  When it is free to run, the
    recognizer class is loaded and drawing the marks answers, the page
    shows, in this order, the notice that the image is not aligned, the
    busy warning of the alignment it then fails to start, and the success
    message with the five marks of the simulated recognition, whatever
    the mask image is; the status line reads "选项识别完成！". *)
Theorem performRecognition_reports
    (cv : OpenCV) (Math_atan2 : Q -> Q -> Q) (displayAlignedImage : Mat -> outcome unit)
    (visualizeRecognitionResults : Recognition.t -> outcome unit)
    (optionRecognizerDefined : bool) (s : System) (mask : Element) :
  isProcessing s = false -> templateLoaded s = true -> maskImage s = Some mask ->
  hasAligner s = true ->
  hasRecognizer s || optionRecognizerDefined = true ->
  visualizeRecognitionResults (simulateRecognition mask) = Ok tt ->
  statusText (ui (snd (performRecognition cv Math_atan2 displayAlignedImage
                         visualizeRecognitionResults optionRecognizerDefined s)))
    = match statusText (ui s) with
      | Some _ => Some ("选项识别完成！", "status-ready")%string
      | None => None
      end /\
  messageArea (ui (snd (performRecognition cv Math_atan2 displayAlignedImage
                          visualizeRecognitionResults optionRecognizerDefined s)))
    = match messageArea (ui s) with
      | Some shown =>
          Some (shown ++
                [("message message-warning"%string,
                  "检测到图像未对齐，先执行对齐操作"%string);
                 ("message message-warning"%string, busyWarning);
                 ("message message-success"%string,
                  "识别完成！找到 5 个填涂选项"%string)])
      | None => None
      end.
Proof.
  intros Hp Ht Hm Ha Hr Hv.
  assert (Es : performRecognition cv Math_atan2 displayAlignedImage
                 visualizeRecognitionResults optionRecognizerDefined s
               = tryFinally
                   (tryCatch (performRecognition_try cv Math_atan2 displayAlignedImage
                                visualizeRecognitionResults optionRecognizerDefined mask)
                             performRecognition_catch)
                   (setProcessing false) s).
  { unfold performRecognition, system. unfold bind at 1. rewrite Hp, Ht, Hm. reflexivity. }
  rewrite Es. clear Es.
  destruct s as [a w rec p t m [st pb pt ma ts ab]].
  cbn [isProcessing templateLoaded maskImage hasAligner hasRecognizer ui
       statusText messageArea] in *. subst.
  unfold tryFinally, tryCatch, performRecognition_try, notAligned, ensureRecognizer,
    performAlignment, system.
  cbv [bind setProcessing updateStatus updateProgress showMessage setUI setRecognizer
       hasAligner world isProcessing templateLoaded maskImage ui hasRecognizer
       statusText progressBar progressText messageArea templateStatus alignBtn
       fst snd negb ret call throw].
  destruct rec; [|cbn [orb] in Hr; rewrite Hr]; rewrite Hv;
    cbn; destruct st, ma; split; try reflexivity;
    rewrite <- !app_assoc; reflexivity.
Qed.

Lemma performRecognition_reports_witness :
  statusText (ui (snd (performRecognition (Stub.cv Stub.sheet) Stub.atan2
                         (fun _ => Ok tt) (fun _ => Ok tt) true (pageAround Stub.fresh))))
    = match statusText (ui (pageAround Stub.fresh)) with
      | Some _ => Some ("选项识别完成！", "status-ready")%string
      | None => None
      end /\
  messageArea (ui (snd (performRecognition (Stub.cv Stub.sheet) Stub.atan2
                          (fun _ => Ok tt) (fun _ => Ok tt) true (pageAround Stub.fresh))))
    = match messageArea (ui (pageAround Stub.fresh)) with
      | Some shown =>
          Some (shown ++
                [("message message-warning"%string,
                  "检测到图像未对齐，先执行对齐操作"%string);
                 ("message message-warning"%string, busyWarning);
                 ("message message-success"%string,
                  "识别完成！找到 5 个填涂选项"%string)])
      | None => None
      end.
Proof.
  apply (performRecognition_reports (Stub.cv Stub.sheet) Stub.atan2
           (fun _ => Ok tt) (fun _ => Ok tt) true (pageAround Stub.fresh) Stub.page).
  - reflexivity.
  - reflexivity.
  - reflexivity.
  - reflexivity.
  - reflexivity.
  - reflexivity.
Defined.

(** [handleMaskUpload] takes a file as the mask exactly when its type
    starts with "image/" and its size is at most 10 MB (10485760 bytes,
    inclusive).  When the handler is free to run and loading and showing
    the picture answer: an accepted file becomes the mask, a refused one
    leaves the mask as it was and the status line names the reason.  Either
    way the handler returns normally, releases the busy flag and does not
    touch the aligner. *)
Theorem handleMaskUpload_accepts_images_up_to_ten_megabytes
    (displayOriginalImage : Element -> outcome unit)
    (loadUserImage : File -> outcome Element)
    (updateMaskDisplay : Element -> outcome unit)
    (s : System) (file : File) (image : Element) :
  isProcessing s = false -> templateLoaded s = true ->
  loadUserImage file = Ok image -> displayOriginalImage image = Ok tt ->
  fst (handleMaskUpload displayOriginalImage loadUserImage updateMaskDisplay file s)
    = Ok tt /\
  isProcessing (snd (handleMaskUpload displayOriginalImage loadUserImage
                       updateMaskDisplay file s)) = false /\
  world (snd (handleMaskUpload displayOriginalImage loadUserImage
                updateMaskDisplay file s)) = world s /\
  maskImage (snd (handleMaskUpload displayOriginalImage loadUserImage
                    updateMaskDisplay file s))
    = (if String.prefix "image/" (fileType file) && (fileSize file <=? 10485760)%Z
       then Some image else maskImage s) /\
  (String.prefix "image/" (fileType file) = false ->
   statusText (ui (snd (handleMaskUpload displayOriginalImage loadUserImage
                          updateMaskDisplay file s)))
     = match statusText (ui s) with
       | Some _ => Some ("遮罩处理失败: 请上传图片文件（JPG、PNG、BMP格式）",
                         "status-error")%string
       | None => None
       end) /\
  (String.prefix "image/" (fileType file) = true -> (10485760 < fileSize file)%Z ->
   statusText (ui (snd (handleMaskUpload displayOriginalImage loadUserImage
                          updateMaskDisplay file s)))
     = match statusText (ui s) with
       | Some _ => Some ("遮罩处理失败: 图片文件过大，请上传小于10MB的图片",
                         "status-error")%string
       | None => None
       end).
Proof.
  intros Hp Ht Hl Hd.
  assert (Es : handleMaskUpload displayOriginalImage loadUserImage updateMaskDisplay file s
               = tryFinally
                   (tryCatch (handleMaskUpload_try displayOriginalImage loadUserImage
                                updateMaskDisplay file)
                             handleMaskUpload_catch)
                   (setProcessing false) s).
  { unfold handleMaskUpload, system. unfold bind at 1. rewrite Hp, Ht. reflexivity. }
  rewrite Es. clear Es.
  destruct s as [a w rec p t m [st pb pt ma ts ab]].
  cbn [isProcessing templateLoaded maskImage world ui statusText] in *. subst.
  unfold tryFinally, tryCatch, handleMaskUpload_try, handleMaskUpload_catch.
  cbv [bind setProcessing updateStatus updateProgress showMessage setUI setMaskImage
       hasAligner world isProcessing templateLoaded maskImage ui hasRecognizer
       statusText progressBar progressText messageArea templateStatus alignBtn
       fst snd ret call throw].
  destruct (String.prefix "image/" (fileType file)) eqn:Ety; cbn [negb andb].
  - unfold maxMaskSize. change (10 * 1024 * 1024)%Z with 10485760%Z.
    destruct (10485760 <? fileSize file)%Z eqn:Esz.
    + apply Z.ltb_lt in Esz.
      assert (Hle : (fileSize file <=? 10485760)%Z = false) by (apply Z.leb_gt; exact Esz).
      rewrite Hle. cbn [message]. cbn.
      repeat split; try reflexivity; try discriminate.
      intros _ _. destruct st; reflexivity.
    + apply Z.ltb_ge in Esz.
      assert (Hle : (fileSize file <=? 10485760)%Z = true) by (apply Z.leb_le; exact Esz).
      rewrite Hle, Hl, Hd. cbn [message].
      destruct (updateMaskDisplay image) as [[]|e]; cbn;
        (repeat split; try reflexivity; try discriminate; intros _ Hgt; lia).
  - cbn [message]. cbn.
    repeat split; try reflexivity; try discriminate.
    intros _. destruct st; reflexivity.
Qed.

Lemma handleMaskUpload_accepts_images_up_to_ten_megabytes_witness :
  fst (handleMaskUpload (fun _ => Ok tt) (fun _ => Ok Stub.page) (fun _ => Ok tt)
         tenMegabytePicture
         pageWithoutMask) = Ok tt /\
  isProcessing (snd (handleMaskUpload (fun _ => Ok tt) (fun _ => Ok Stub.page)
                       (fun _ => Ok tt) tenMegabytePicture
                       pageWithoutMask)) = false /\
  world (snd (handleMaskUpload (fun _ => Ok tt) (fun _ => Ok Stub.page)
                (fun _ => Ok tt) tenMegabytePicture
                pageWithoutMask))
    = world pageWithoutMask /\
  maskImage (snd (handleMaskUpload (fun _ => Ok tt) (fun _ => Ok Stub.page)
                    (fun _ => Ok tt) tenMegabytePicture
                    pageWithoutMask))
    = (if String.prefix "image/" (fileType tenMegabytePicture)
          && (fileSize tenMegabytePicture <=? 10485760)%Z
       then Some Stub.page
       else maskImage pageWithoutMask) /\
  (String.prefix "image/" (fileType tenMegabytePicture) = false ->
   statusText (ui (snd (handleMaskUpload (fun _ => Ok tt) (fun _ => Ok Stub.page)
                          (fun _ => Ok tt) tenMegabytePicture
                          pageWithoutMask)))
     = match statusText (ui pageWithoutMask) with
       | Some _ => Some ("遮罩处理失败: 请上传图片文件（JPG、PNG、BMP格式）",
                         "status-error")%string
       | None => None
       end) /\
  (String.prefix "image/" (fileType tenMegabytePicture) = true ->
   (10485760 < fileSize tenMegabytePicture)%Z ->
   statusText (ui (snd (handleMaskUpload (fun _ => Ok tt) (fun _ => Ok Stub.page)
                          (fun _ => Ok tt) tenMegabytePicture
                          pageWithoutMask)))
     = match statusText (ui pageWithoutMask) with
       | Some _ => Some ("遮罩处理失败: 图片文件过大，请上传小于10MB的图片",
                         "status-error")%string
       | None => None
       end).
Proof.
  apply (handleMaskUpload_accepts_images_up_to_ten_megabytes
           (fun _ => Ok tt) (fun _ => Ok Stub.page) (fun _ => Ok tt)
           pageWithoutMask
           tenMegabytePicture Stub.page).
  - reflexivity.
  - reflexivity.
  - reflexivity.
  - reflexivity.
Defined.

(** ** What the page's own listeners can reach *)

Section PageEvents.
Variable cv : OpenCV.
Variable Math_atan2 : Q -> Q -> Q.
Variable displayAlignedImage : Mat -> outcome unit.
Variable displayOriginalImage : Element -> outcome unit.
Variable loadUserImage : File -> outcome Element.
Variable updateMaskDisplay : Element -> outcome unit.
Variable visualizeRecognitionResults : Recognition.t -> outcome unit.
Variable drawTemplateImage : outcome unit.
Variable optionRecognizerDefined : bool.
Variable a0 : Aligner.

Lemma alignerIs_alignUserImage (image : Element) (a p t : bool) (m : option Element) :
  maintains (fun w => alignerIs a0 a w p t m)
            (alignUserImage cv Math_atan2 image) (fun _ => True).
Proof.
  intros w Hw. split; [|auto]. unfold alignerIs in *.
  destruct (alignUserImage_keeps cv Math_atan2 image w) as (Hs & _).
  rewrite Hs. exact Hw.
Qed.

Lemma alignerIs_performAlignment :
  maintains (holds (alignerIs a0))
            (performAlignment cv Math_atan2 displayAlignedImage) (fun _ => True).
Proof.
  apply holds_performAlignment.
  - intros a w p t m b H. exact H.
  - intros image a p t m. apply alignerIs_alignUserImage.
Qed.

Lemma alignerIs_onEventMaskUpload (file : File) :
  maintains (holds (alignerIs a0))
            (handleMaskUpload displayOriginalImage loadUserImage updateMaskDisplay file)
            (fun _ => True).
Proof.
  unfold handleMaskUpload.
  eapply maintains_bind; [apply holds_system | intros s Hs].
  destruct (isProcessing s); [apply holds_showMessage|].
  destruct (negb (templateLoaded s)); [apply holds_showMessage|].
  apply (maintains_tryFinally _ _ _ _ (fun _ => True)).
  - apply maintains_tryCatch.
    + unfold handleMaskUpload_try.
      eapply maintains_bind;
        [apply holds_setProcessing; intros ? ? ? ? ? HP; exact HP | intros _ _].
      page_step.
      apply (maintains_bind _ _ _ (fun _ => True)); [repeat page_step | intros _ _].
      apply (maintains_bind _ _ _ (fun _ => True)); [repeat page_step | intros _ _].
      do 5 page_step.
      eapply maintains_bind;
        [apply holds_setMaskImage; intros ? ? ? ? ? HP; exact HP | intros _ _].
      repeat page_step. apply holds_showMessage.
    + intros e. unfold handleMaskUpload_catch. page_step. apply holds_showMessage.
  - apply holds_setProcessing. intros ? ? ? ? ? HP. exact HP.
Qed.

Lemma alignerIs_performRecognition :
  maintains (holds (alignerIs a0))
            (performRecognition cv Math_atan2 displayAlignedImage
               visualizeRecognitionResults optionRecognizerDefined)
            (fun _ => True).
Proof.
  unfold performRecognition.
  eapply maintains_bind; [apply holds_system | intros s Hs].
  destruct (isProcessing s); [apply holds_showMessage|].
  destruct (negb (templateLoaded s)); [apply holds_showMessage|].
  destruct (maskImage s) as [mask|]; [|apply holds_showMessage].
  apply (maintains_tryFinally _ _ _ _ (fun _ => True)).
  - apply maintains_tryCatch.
    + unfold performRecognition_try.
      eapply maintains_bind;
        [apply holds_setProcessing; intros ? ? ? ? ? HP; exact HP | intros _ _].
      do 2 page_step.
      apply (maintains_bind _ _ _ (fun _ => True)).
      { unfold notAligned. repeat page_step. }
      intros unaligned _.
      apply (maintains_bind _ _ _ (fun _ => True)).
      { destruct unaligned; [|apply maintains_ret; exact I].
        do 2 page_step.
        eapply maintains_bind; [apply alignerIs_performAlignment | intros _ _].
        apply holds_updateProgress. }
      intros _ _. page_step.
      apply (maintains_bind _ _ _ (fun _ => True)).
      { unfold ensureRecognizer. page_step. repeat page_step. apply holds_setRecognizer. }
      intros _ _. page_step. cbv zeta. page_step.
      destruct (Recognition.success _); [|apply maintains_throw].
      repeat page_step. apply holds_showMessage.
    + intros e. unfold performRecognition_catch. page_step. apply holds_showMessage.
  - apply holds_setProcessing. intros ? ? ? ? ? HP. exact HP.
Qed.

Lemma alignerIs_onEvent (event : PageEvent) :
  maintains (holds (alignerIs a0))
            (onEvent cv Math_atan2 displayAlignedImage displayOriginalImage loadUserImage
               updateMaskDisplay visualizeRecognitionResults drawTemplateImage
               optionRecognizerDefined event)
            (fun _ => True).
Proof.
  destruct event as [|file| |]; cbn [onEvent].
  - page_step. apply holds_setTemplateLoaded. intros ? ? ? ? ? HP. exact HP.
  - apply alignerIs_onEventMaskUpload.
  - apply alignerIs_performAlignment.
  - apply alignerIs_performRecognition.
Qed.
End PageEvents.

Lemma pageReachable_aligner
    (cv : OpenCV) (Math_atan2 : Q -> Q -> Q) (displayAlignedImage : Mat -> outcome unit)
    (displayOriginalImage : Element -> outcome unit)
    (loadUserImage : File -> outcome Element)
    (updateMaskDisplay : Element -> outcome unit)
    (visualizeRecognitionResults : Recognition.t -> outcome unit)
    (drawTemplateImage : outcome unit) (optionRecognizerDefined : bool) (s : System) :
  pageReachable cv Math_atan2 displayAlignedImage displayOriginalImage loadUserImage
    updateMaskDisplay visualizeRecognitionResults drawTemplateImage
    optionRecognizerDefined s ->
  self (world s) = constructor.
Proof.
  induction 1 as [s H | s event _ IH]; [exact H|].
  apply (alignerIs_onEvent cv Math_atan2 displayAlignedImage displayOriginalImage
           loadUserImage updateMaskDisplay visualizeRecognitionResults drawTemplateImage
           optionRecognizerDefined constructor event s IH).
Qed.

(** Driven by its own listeners the page never makes the aligner ready:
    no listener calls [loadTemplateImage], the only caller of
    [initializeWithTemplate], while showing the template picture sets
    [templateLoaded].  In every state the page can reach, the aligner
    object is as its constructor left it, and an alignment that is free to
    run (not busy, template flag set, mask chosen, aligner created) ends
    with the status line "对齐失败: 图像对齐失败" and the native heap
    untouched. *)
Theorem page_listeners_never_initialize_the_aligner
    (cv : OpenCV) (Math_atan2 : Q -> Q -> Q) (displayAlignedImage : Mat -> outcome unit)
    (displayOriginalImage : Element -> outcome unit)
    (loadUserImage : File -> outcome Element)
    (updateMaskDisplay : Element -> outcome unit)
    (visualizeRecognitionResults : Recognition.t -> outcome unit)
    (drawTemplateImage : outcome unit) (optionRecognizerDefined : bool) (s : System) :
  pageReachable cv Math_atan2 displayAlignedImage displayOriginalImage loadUserImage
    updateMaskDisplay visualizeRecognitionResults drawTemplateImage
    optionRecognizerDefined s ->
  self (world s) = constructor /\
  (forall mask,
      isProcessing s = false -> templateLoaded s = true -> maskImage s = Some mask ->
      hasAligner s = true ->
      world (snd (performAlignment cv Math_atan2 displayAlignedImage s)) = world s /\
      statusText (ui (snd (performAlignment cv Math_atan2 displayAlignedImage s)))
        = match statusText (ui s) with
          | Some _ => Some ("对齐失败: 图像对齐失败", "status-error")%string
          | None => None
          end).
Proof.
  intros H.
  pose proof (pageReachable_aligner _ _ _ _ _ _ _ _ _ _ H) as Hs.
  split; [exact Hs|]. intros mask Hp Ht Hm Ha.
  assert (E : alignUserImage cv Math_atan2 mask (world s)
              = (Ok (Alignment.mk false None (Some notInitializedError)), world s)).
  { unfold alignUserImage, bind, this. rewrite Hs. reflexivity. }
  destruct (performAlignment_run cv Math_atan2 displayAlignedImage s mask _ _
              Hp Ht Hm Ha E) as [Hw Hst].
  split; [exact Hw|]. rewrite Hst. reflexivity.
Qed.

Lemma page_listeners_never_initialize_the_aligner_witness :
  self (world pageAfterUpload)
    = constructor /\
  (forall mask,
      isProcessing pageAfterUpload = false ->
      templateLoaded pageAfterUpload = true ->
      maskImage pageAfterUpload = Some mask ->
      hasAligner pageAfterUpload = true ->
      world (snd (performAlignment (Stub.cv Stub.sheet) Stub.atan2 (fun _ => Ok tt)
                    pageAfterUpload))
        = world pageAfterUpload /\
      statusText
        (ui (snd (performAlignment (Stub.cv Stub.sheet) Stub.atan2 (fun _ => Ok tt)
                    pageAfterUpload)))
        = match statusText
                  (ui pageAfterUpload) with
          | Some _ => Some ("对齐失败: 图像对齐失败", "status-error")%string
          | None => None
          end).
Proof.
  apply (page_listeners_never_initialize_the_aligner
           (Stub.cv Stub.sheet) Stub.atan2 (fun _ => Ok tt) (fun _ => Ok tt)
           (fun _ => Ok Stub.page) (fun _ => Ok tt) (fun _ => Ok tt) (Ok tt) true
           pageAfterUpload).
  unfold pageAfterUpload. apply page_event. apply page_start. reflexivity.
Defined.

(** ** [loadTemplateImage] *)

Section LoadTemplateImage.
Variable cv : OpenCV.
Variable displayOriginalImage : Element -> outcome unit.
Variable loadTemplateImageElement : string -> outcome Element.
Variable libraryMissing : Fault.


End LoadTemplateImage.


(** * The recognizer *)




(** The order that [analyzeContours] asks [sort] for is not an order:
    three marks in rows less than 20 px apart from one to the next, but 20
    px or more from the first to the last, each further right than the one
    in the row below it, are compared in a circle: the lowest goes before
    the middle one, the middle one before the highest, and the highest
    before the lowest. *)
Theorem analyzeContours_compare_cycle (a b c : OptionMark.t) :
  OptionMark.y b < OptionMark.y a -> OptionMark.y a - OptionMark.y b < 20 ->
  OptionMark.y c < OptionMark.y b -> OptionMark.y b - OptionMark.y c < 20 ->
  20 <= OptionMark.y a - OptionMark.y c ->
  OptionMark.x a < OptionMark.x b -> OptionMark.x b < OptionMark.x c ->
  OptionRecognizer.analyzeContours_compare a b < 0 /\
  OptionRecognizer.analyzeContours_compare b c < 0 /\
  OptionRecognizer.analyzeContours_compare c a < 0.
Proof.
  intros Hab Hab' Hbc Hbc' Hac Hx1 Hx2.
  unfold OptionRecognizer.analyzeContours_compare.
  assert (E1 : Qlt_bool (Qabs (OptionMark.y a - OptionMark.y b)) 20 = true).
  { unfold Qlt_bool. apply negb_true_iff.
    destruct (Qle_bool 20 (Qabs (OptionMark.y a - OptionMark.y b))) eqn:E; [|reflexivity].
    apply Qle_bool_iff in E. exfalso.
    rewrite Qabs_pos in E by lra. lra. }
  assert (E2 : Qlt_bool (Qabs (OptionMark.y b - OptionMark.y c)) 20 = true).
  { unfold Qlt_bool. apply negb_true_iff.
    destruct (Qle_bool 20 (Qabs (OptionMark.y b - OptionMark.y c))) eqn:E; [|reflexivity].
    apply Qle_bool_iff in E. exfalso.
    rewrite Qabs_pos in E by lra. lra. }
  assert (E3 : Qlt_bool (Qabs (OptionMark.y c - OptionMark.y a)) 20 = false).
  { unfold Qlt_bool. apply negb_false_iff. apply Qle_bool_iff.
    rewrite Qabs_neg by lra. lra. }
  rewrite E1, E2, E3. repeat split; lra.
Qed.

Lemma analyzeContours_compare_cycle_witness :
  OptionRecognizer.analyzeContours_compare
    (OptionRecognizer.markAt 0 30) (OptionRecognizer.markAt 10 15) < 0 /\
  OptionRecognizer.analyzeContours_compare
    (OptionRecognizer.markAt 10 15) (OptionRecognizer.markAt 20 0) < 0 /\
  OptionRecognizer.analyzeContours_compare
    (OptionRecognizer.markAt 20 0) (OptionRecognizer.markAt 0 30) < 0.
Proof.
  apply (analyzeContours_compare_cycle
           (OptionRecognizer.markAt 0 30) (OptionRecognizer.markAt 10 15)
           (OptionRecognizer.markAt 20 0)); cbn; lra.
Defined.
